(** * FHIR conditions manager: a shallow embedding and its verified properties

    The development follows the Python package [fhir_conditions_manager]:
    [condition_model.py], [condition_store.py], [monitoring.py],
    [ingestion.py], [corrections.py] and [retrieval.py].

    Conventions of the embedding
    - a Python [str] is a [string] whose characters are code points below 256;
    - a Python [set] of strings is a [gset string]; a counter [dict] is a
      [gmap string nat]; a [dict] whose iteration order is observable (the
      record store, the groups of a retrieval) is an insertion-ordered
      association list with unique keys;
    - a function that may raise returns a [result];
    - functions that touch the store, the dashboard or the clock pass the
      state explicitly;
    - logging calls are left out: they do not influence any returned value. *)

From Stdlib Require Import ZArith Ascii String List Lia Bool.
From stdpp Require Import base tactics option list gmap strings sorting.

Set Warnings "-register-all,-clear-no-such-hyp".
Local Open Scope Z_scope.

(* ================================================================== *)
(** * Python strings *)
(* ================================================================== *)

Module PyStr.

(** Code point of a character. *)
Definition ord (c : ascii) : N := N_of_ascii c.

(** [str.lower] on code points below 256: the letters A-Z and the
    Latin-1 capitals (192-222 except the multiplication sign 215) have a
    lower-case partner 32 places further. *)
Definition lower_char (c : ascii) : ascii :=
  let n := ord c in
  if ((65 <=? n) && (n <=? 90))%N
     || ((192 <=? n) && (n <=? 222) && negb (n =? 215))%N
  then ascii_of_N (n + 32) else c.

Fixpoint lower (s : string) : string :=
  match s with
  | EmptyString => EmptyString
  | String c s' => String (lower_char c) (lower s')
  end.

(** [str.isspace] for one character. *)
Definition isspace (c : ascii) : bool :=
  let n := ord c in
  (((9 <=? n) && (n <=? 13)) || ((28 <=? n) && (n <=? 32))
   || (n =? 133) || (n =? 160))%N.

Fixpoint lstrip (s : string) : string :=
  match s with
  | EmptyString => EmptyString
  | String c s' => if isspace c then lstrip s' else s
  end.

(** [rstrip]: drop the white space that is followed by white space only. *)
Fixpoint rstrip (s : string) : string :=
  match s with
  | EmptyString => EmptyString
  | String c s' =>
      match rstrip s' with
      | EmptyString => if isspace c then EmptyString else String c EmptyString
      | t => String c t
      end
  end.

(** [str.strip()] with no argument. *)
Definition strip (s : string) : string := rstrip (lstrip s).

(** [s.startswith(p)]. *)
Definition startswith (s p : string) : bool := String.prefix p s.

(** [needle in hay]. *)
Fixpoint contains (needle hay : string) : bool :=
  String.prefix needle hay
  || match hay with
     | EmptyString => false
     | String _ hay' => contains needle hay'
     end.

(** [s.removeprefix(p)]. *)
Fixpoint drop (n : nat) (s : string) : string :=
  match n, s with
  | O, _ => s
  | S n', String _ s' => drop n' s'
  | S _, EmptyString => EmptyString
  end.

Definition removeprefix (s p : string) : string :=
  if startswith s p then drop (String.length p) s else s.

(** [s[:n]]. *)
Fixpoint take (n : nat) (s : string) : string :=
  match n, s with
  | S n', String c s' => String c (take n' s')
  | _, _ => EmptyString
  end.

(** [sep.join(parts)]. *)
Fixpoint join (sep : string) (parts : list string) : string :=
  match parts with
  | [] => EmptyString
  | [p] => p
  | p :: ps => p +:+ sep +:+ join sep ps
  end.

(** Truth value of [Optional[str]]: [None] and the empty string are false. *)
Definition truthy (o : option string) : bool :=
  match o with
  | Some (String _ _) => true
  | _ => false
  end.

(** [a < b] on strings: lexicographic on code points. *)
Definition lt (a b : string) : bool := String.ltb a b.

(** Decimal digits, fixed width: ["%0wd" % n] for [0 <= n < 10^w]. *)
Definition digit (n : Z) : ascii := ascii_of_N (48 + Z.to_N (n mod 10)).

Fixpoint zpad (w : nat) (n : Z) : string :=
  match w with
  | O => EmptyString
  | S w' => zpad w' (n / 10) +:+ String (digit n) EmptyString
  end.

(** [str(n)] for a natural number. *)
Fixpoint digits_fuel (fuel : nat) (n : Z) (acc : string) : string :=
  match fuel with
  | O => acc
  | S fuel' =>
      let acc' := String (digit n) acc in
      if n / 10 =? 0 then acc' else digits_fuel fuel' (n / 10) acc'
  end.

Definition of_nat (n : nat) : string :=
  digits_fuel (S n) (Z.of_nat n) EmptyString.

End PyStr.

(* ================================================================== *)
(** * Exceptions and results *)
(* ================================================================== *)

(** The exceptions that the modelled code can raise:
    [pydantic.ValidationError] from [FhirCondition.model_validate] and
    [TypeError] from subtracting an offset-naive and an offset-aware
    [datetime]. *)
Inductive exception : Type :=
  | ValidationError
  | TypeError.

Inductive result (A : Type) : Type :=
  | Ok (a : A)
  | Raise (e : exception).
Arguments Ok {A} a.
Arguments Raise {A} e.

Definition bind {A B : Type} (m : result A) (f : A → result B) : result B :=
  match m with
  | Ok a => f a
  | Raise e => Raise e
  end.

Notation "'try!' x ← m ; k" := (bind m (fun x => k))
  (at level 10, x name, m at level 100, k at level 200,
   format "'[v' 'try!'  x  ←  m ; '/' k ']'").

Definition is_ok {A : Type} (m : result A) : bool :=
  match m with Ok _ => true | Raise _ => false end.

(* ================================================================== *)
(** * Insertion-ordered dictionaries with string keys *)
(* ================================================================== *)

Module PyDict.
Section dict.
Context {V : Type}.

(** [d.get(k)]. *)
Fixpoint get (d : list (string * V)) (k : string) : option V :=
  match d with
  | [] => None
  | (k', v) :: d' => if String.eqb k' k then Some v else get d' k
  end.

(** [k in d]. *)
Definition mem (d : list (string * V)) (k : string) : bool :=
  match get d k with Some _ => true | None => false end.

(** [d[k] = v]: an existing key keeps its position, a new key goes
    last. *)
Fixpoint set (d : list (string * V)) (k : string) (v : V)
  : list (string * V) :=
  match d with
  | [] => [(k, v)]
  | (k', v') :: d' =>
      if String.eqb k' k then (k', v) :: d' else (k', v') :: set d' k v
  end.

(** [d.values()] and [d.keys()], in insertion order. *)
Definition values (d : list (string * V)) : list V := map snd d.
Definition keys (d : list (string * V)) : list string := map fst d.
End dict.
End PyDict.

(* ================================================================== *)
(** * The input model ([condition_model.py]) *)
(* ================================================================== *)

(** A raw input is a Python value as produced by a JSON reader.  Numbers
    are kept as integers: no validator of this package accepts a number,
    so integers and floats behave alike. *)
Inductive json : Type :=
  | JNull
  | JBool (b : bool)
  | JNum (n : Z)
  | JStr (s : string)
  | JList (l : list json)
  | JDict (d : list (string * json)).

Record FhirCoding := mkFhirCoding {
  coding_system : option string;
  coding_code : option string;
  coding_display : option string }.

Record FhirCodeableConcept := mkFhirCodeableConcept {
  concept_text : option string;
  concept_coding : list FhirCoding }.

Record FhirPeriod := mkFhirPeriod {
  period_start : option string;
  period_end : option string }.

Record FhirReference := mkFhirReference {
  reference_reference : option string }.

Record FhirIdentifier := mkFhirIdentifier {
  identifier_system : option string;
  identifier_value : option string }.

Record FhirRelatedArtifact := mkFhirRelatedArtifact {
  artifact_type : option string;
  artifact_display : option string }.

Record FhirExtension := mkFhirExtension {
  extension_url : option string;
  extension_valueRelatedArtifact : option FhirRelatedArtifact }.

Record FhirCondition := mkFhirCondition {
  resourceType : string;
  id : string;
  identifier : list FhirIdentifier;
  clinicalStatus : option FhirCodeableConcept;
  code : option FhirCodeableConcept;
  onsetPeriod : option FhirPeriod;
  category : list FhirCodeableConcept;
  subject : option FhirReference;
  recorder : option FhirReference;
  extension : list FhirExtension }.

(** ** Validation, as pydantic performs it for these models

    A field annotated [Optional[T] = None] accepts a missing key, [None] or
    a valid [T]; a field [list[T] = []] accepts a missing key or a list of
    valid [T]; [str] accepts strings only; a model accepts a dictionary and
    ignores the keys it does not declare.  Anything else is a
    [ValidationError]. *)
Module Pydantic.

Definition optional_str (d : list (string * json)) (k : string)
  : result (option string) :=
  match PyDict.get d k with
  | None | Some JNull => Ok None
  | Some (JStr s) => Ok (Some s)
  | Some _ => Raise ValidationError
  end.

Definition required_str (d : list (string * json)) (k : string)
  : result string :=
  match PyDict.get d k with
  | Some (JStr s) => Ok s
  | _ => Raise ValidationError
  end.

Definition default_str (d : list (string * json)) (k dflt : string)
  : result string :=
  match PyDict.get d k with
  | None => Ok dflt
  | Some (JStr s) => Ok s
  | Some _ => Raise ValidationError
  end.

Definition optional_model {A : Type}
  (validate : list (string * json) → result A)
  (d : list (string * json)) (k : string) : result (option A) :=
  match PyDict.get d k with
  | None | Some JNull => Ok None
  | Some (JDict m) => try! a ← validate m; Ok (Some a)
  | Some _ => Raise ValidationError
  end.

Fixpoint each_model {A : Type}
  (validate : list (string * json) → result A) (l : list json)
  : result (list A) :=
  match l with
  | [] => Ok []
  | JDict m :: l' =>
      try! a ← validate m;
      try! rest ← each_model validate l';
      Ok (a :: rest)
  | _ :: _ => Raise ValidationError
  end.

Definition list_of_models {A : Type}
  (validate : list (string * json) → result A)
  (d : list (string * json)) (k : string) : result (list A) :=
  match PyDict.get d k with
  | None => Ok []
  | Some (JList l) => each_model validate l
  | Some _ => Raise ValidationError
  end.

Definition coding (d : list (string * json)) : result FhirCoding :=
  try! sys ← optional_str d "system";
  try! c ← optional_str d "code";
  try! disp ← optional_str d "display";
  Ok (mkFhirCoding sys c disp).

Definition codeable_concept (d : list (string * json))
  : result FhirCodeableConcept :=
  try! t ← optional_str d "text";
  try! cs ← list_of_models coding d "coding";
  Ok (mkFhirCodeableConcept t cs).

Definition period (d : list (string * json)) : result FhirPeriod :=
  try! s ← optional_str d "start";
  try! e ← optional_str d "end";
  Ok (mkFhirPeriod s e).

Definition reference (d : list (string * json)) : result FhirReference :=
  try! r ← optional_str d "reference";
  Ok (mkFhirReference r).

Definition identifier (d : list (string * json)) : result FhirIdentifier :=
  try! s ← optional_str d "system";
  try! v ← optional_str d "value";
  Ok (mkFhirIdentifier s v).

Definition related_artifact (d : list (string * json))
  : result FhirRelatedArtifact :=
  try! t ← optional_str d "type";
  try! disp ← optional_str d "display";
  Ok (mkFhirRelatedArtifact t disp).

Definition extension (d : list (string * json)) : result FhirExtension :=
  try! u ← optional_str d "url";
  try! a ← optional_model related_artifact d "valueRelatedArtifact";
  Ok (mkFhirExtension u a).

(** [FhirCondition.model_validate(raw)]. *)
Definition model_validate (raw : list (string * json))
  : result FhirCondition :=
  try! rt ← default_str raw "resourceType" "Condition";
  try! i ← required_str raw "id";
  try! idf ← list_of_models identifier raw "identifier";
  try! cs ← optional_model codeable_concept raw "clinicalStatus";
  try! c ← optional_model codeable_concept raw "code";
  try! op ← optional_model period raw "onsetPeriod";
  try! cat ← list_of_models codeable_concept raw "category";
  try! sub ← optional_model reference raw "subject";
  try! rec ← optional_model reference raw "recorder";
  try! ext ← list_of_models extension raw "extension";
  Ok (mkFhirCondition rt i idf cs c op cat sub rec ext).

End Pydantic.

Definition ICD10_SYSTEM : string := "http://hl7.org/fhir/sid/icd-10-cm".
Definition SNOMED_SYSTEM : string := "http://snomed.info/sct".
Definition ICD9_SYSTEM : string :=
  "http://terminology.hl7.org/CodeSystem/ICD-9CM-diagnosiscodes".
Definition IMO_SYSTEM : string :=
  "http://terminology.hl7.org/CodeSystem-IMO.html".

(* ================================================================== *)
(** * Python [datetime] *)
(* ================================================================== *)

(** A [datetime] value is its calendar fields and, when it is offset-aware,
    the UTC offset of its [tzinfo] in microseconds.  A [timedelta] is a
    number of microseconds; [total_seconds()] divides by [10^6], and the
    comparisons the code makes on that quotient ([0 < d < 86400]) agree
    with the same comparisons on microseconds. *)
Record datetime := mkDatetime {
  dt_year : Z; dt_month : Z; dt_day : Z;
  dt_hour : Z; dt_minute : Z; dt_second : Z; dt_microsecond : Z;
  dt_utcoffset : option Z }.

Module Datetime.

Definition is_leap (y : Z) : bool :=
  (y mod 4 =? 0) && (negb (y mod 100 =? 0) || (y mod 400 =? 0)).

Definition days_before_year (y : Z) : Z :=
  let p := y - 1 in p * 365 + p / 4 - p / 100 + p / 400.

Definition DAYS_BEFORE_MONTH (m : Z) : Z :=
  nth (Z.to_nat m)
    [-1; 0; 31; 59; 90; 120; 151; 181; 212; 243; 273; 304; 334] 0.

Definition days_before_month (y m : Z) : Z :=
  DAYS_BEFORE_MONTH m + (if (2 <? m) && is_leap y then 1 else 0).

Definition days_in_month (y m : Z) : Z :=
  if (m =? 2) && is_leap y then 29
  else nth (Z.to_nat m) [-1; 31; 28; 31; 30; 31; 30; 31; 31; 30; 31; 30; 31] 0.

(** The field ranges that the constructor of [datetime] checks. *)
Definition fields_ok (d : datetime) : Prop :=
  1 ≤ dt_year d ≤ 9999 ∧ 1 ≤ dt_month d ≤ 12
  ∧ 1 ≤ dt_day d ≤ days_in_month (dt_year d) (dt_month d)
  ∧ 0 ≤ dt_hour d < 24 ∧ 0 ≤ dt_minute d < 60 ∧ 0 ≤ dt_second d < 60
  ∧ 0 ≤ dt_microsecond d < 1000000.

(** [d.toordinal()]. *)
Definition toordinal (d : datetime) : Z :=
  days_before_year (dt_year d) + days_before_month (dt_year d) (dt_month d)
  + dt_day d.

(** Microseconds between the wall-clock readings of [a] and [b]. *)
Definition wall_delta (a b : datetime) : Z :=
  ((toordinal a - toordinal b) * 86400
   + (dt_second a + dt_minute a * 60 + dt_hour a * 3600)
   - (dt_second b + dt_minute b * 60 + dt_hour b * 3600)) * 1000000
  + (dt_microsecond a - dt_microsecond b).

(** [a - b], in microseconds. *)
Definition sub (a b : datetime) : result Z :=
  match dt_utcoffset a, dt_utcoffset b with
  | None, None => Ok (wall_delta a b)
  | Some oa, Some ob => Ok (wall_delta a b + ob - oa)
  | _, _ => Raise TypeError
  end.

Definition format_offset (off : Z) : string :=
  let sign := if off <? 0 then "-" else "+" in
  let a := Z.abs off in
  let hh := a / 3600000000 in
  let r := a mod 3600000000 in
  let mm := r / 60000000 in
  let ss := r mod 60000000 in
  sign +:+ PyStr.zpad 2 hh +:+ ":" +:+ PyStr.zpad 2 mm
  +:+ (if ss =? 0 then ""
       else ":" +:+ PyStr.zpad 2 (ss / 1000000)
            +:+ (if ss mod 1000000 =? 0 then ""
                 else "." +:+ PyStr.zpad 6 (ss mod 1000000))).

(** [d.isoformat()]. *)
Definition isoformat (d : datetime) : string :=
  PyStr.zpad 4 (dt_year d) +:+ "-" +:+ PyStr.zpad 2 (dt_month d) +:+ "-"
  +:+ PyStr.zpad 2 (dt_day d) +:+ "T" +:+ PyStr.zpad 2 (dt_hour d) +:+ ":"
  +:+ PyStr.zpad 2 (dt_minute d) +:+ ":" +:+ PyStr.zpad 2 (dt_second d)
  +:+ (if dt_microsecond d =? 0 then ""
       else "." +:+ PyStr.zpad 6 (dt_microsecond d))
  +:+ (match dt_utcoffset d with
       | None => ""
       | Some off => format_offset off
       end).

(** [datetime.now(timezone.utc)] when the system clock shows the
    wall-clock fields of [clock] in UTC. *)
Definition now_utc (clock : datetime) : datetime :=
  mkDatetime (dt_year clock) (dt_month clock) (dt_day clock)
    (dt_hour clock) (dt_minute clock) (dt_second clock)
    (dt_microsecond clock) (Some 0).

End Datetime.

(* ================================================================== *)
(** * The record model ([condition_model.py]) *)
(* ================================================================== *)

Record ConditionRecord := mkConditionRecord {
  resource_id : string;
  fhir_condition : FhirCondition;
  icd10_codes : gset string;
  snomed_codes : gset string;
  icd9_codes : gset string;
  imo_codes : gset string;
  all_codes : gset string;
  normalized_status : string;
  searchable_text : string;
  display_name : string;
  onset_start : option datetime;
  onset_end : option datetime;
  quality_flags : list string;
  derived_from_ids : list string;
  is_removed : bool;
  removal_reason : option string;
  removal_timestamp : option datetime;
  ingestion_batch : option Z }.

(** Severity and description of each quality flag. *)
Definition QUALITY_FLAG_METADATA : list (string * (string * string)) :=
  [ ("admin_code", ("high", "Non-clinical admin entry"));
    ("vague_entry", ("high", "Encounter/procedure code, not a condition"));
    ("missing_clinical_status", ("medium", "No active/resolved status provided"));
    ("inconsistent_status", ("medium", "End date vs. clinical status mismatch"));
    ("short_duration", ("low", "Condition duration under 24 hours"));
    ("missing_icd10", ("low", "No ICD-10 code, SNOMED only")) ].

(* ================================================================== *)
(** * The condition store ([condition_store.py]) *)
(* ================================================================== *)

(** The store is the dictionary [_records]; the lock serialises the
    methods, so each method is one atomic state transformer. *)
Module ConditionStore.

(** [ConditionStore()]. *)
Definition empty : list (string * ConditionRecord) := [].

(** [store.add(record)]. *)
Definition add (record : ConditionRecord) (s : list (string * ConditionRecord))
  : bool * list (string * ConditionRecord) :=
  if PyDict.mem s (resource_id record) then (false, s)
  else (true, PyDict.set s (resource_id record) record).

Definition get_by_id (s : list (string * ConditionRecord)) (rid : string)
  : option ConditionRecord :=
  PyDict.get s rid.

Definition get_all_active (s : list (string * ConditionRecord))
  : list ConditionRecord :=
  List.filter (fun r => negb (is_removed r)) (PyDict.values s).

Definition get_all_removed (s : list (string * ConditionRecord))
  : list ConditionRecord :=
  List.filter (fun r => is_removed r) (PyDict.values s).

(** The three assignments of [soft_remove] on one record. *)
Definition mark_removed (now : datetime) (reason : string)
  (r : ConditionRecord) : ConditionRecord :=
  mkConditionRecord (resource_id r) (fhir_condition r) (icd10_codes r)
    (snomed_codes r) (icd9_codes r) (imo_codes r) (all_codes r)
    (normalized_status r) (searchable_text r) (display_name r)
    (onset_start r) (onset_end r) (quality_flags r) (derived_from_ids r)
    true (Some reason) (Some now) (ingestion_batch r).

(** [store.soft_remove(resource_id, reason)]; [clock] is what the system
    clock shows when the method reads it. *)
Definition soft_remove (clock : datetime) (rid reason : string)
  (s : list (string * ConditionRecord))
  : bool * list (string * ConditionRecord) :=
  match PyDict.get s rid with
  | None => (false, s)
  | Some record =>
      if is_removed record then (false, s)
      else (true, PyDict.set s rid
                    (mark_removed (Datetime.now_utc clock) reason record))
  end.

Definition iterate (s : list (string * ConditionRecord))
  : list ConditionRecord :=
  PyDict.values s.

Definition total_count (s : list (string * ConditionRecord)) : nat :=
  length s.

Definition active_count (s : list (string * ConditionRecord)) : nat :=
  length (List.filter (fun r => negb (is_removed r)) (PyDict.values s)).

Definition removed_count (s : list (string * ConditionRecord)) : nat :=
  length (List.filter (fun r => is_removed r) (PyDict.values s)).

End ConditionStore.

(* ================================================================== *)
(** * Stable sorting, as Python's [sorted] *)
(* ================================================================== *)

(** [sorted(l, key=key)] is [sorted_by (fun a b => a < b) key l] and
    [sorted(l, key=key, reverse=True)] is [sorted_by (fun a b => b < a) key l]:
    [before a b] says that key [a] must come strictly before key [b]; elements
    whose keys are not ordered by [before] keep their input order. *)
Section sorted.
Context {A K : Type} (before : K → K → bool) (key : A → K).

Fixpoint insert_by (x : A) (l : list A) : list A :=
  match l with
  | [] => [x]
  | y :: l' =>
      if before (key y) (key x) then y :: insert_by x l' else x :: y :: l'
  end.

Definition sorted_by (l : list A) : list A := foldr insert_by [] l.

(** [b] may stand after [a]: the key of [b] does not have to come
    before the key of [a]. *)
Definition in_order (a b : A) : Prop := before (key b) (key a) = false.
End sorted.

(* ================================================================== *)
(** * The monitoring ledger ([monitoring.py]) *)
(* ================================================================== *)

Record BatchMetrics := mkBatchMetrics {
  batch_number : Z;
  received : nat;
  added : nat;
  skipped_duplicate : nat;
  errored : nat;
  flags : gmap string nat }.

Record CorrectionEntry := mkCorrectionEntry {
  entry_timestamp : string;
  entry_action : string;
  entry_target : string;
  entry_reason : string;
  entry_records_affected : nat }.

(** The dashboard; the latency samples are floating-point readings of a
    performance counter and are not part of the model. *)
Record MonitoringDashboard := mkMonitoringDashboard {
  ingestion_batches : list BatchMetrics;
  quality_flags_total : gmap string nat;
  corrections : list CorrectionEntry }.

Module Monitoring.

(** [MonitoringDashboard()]. *)
Definition empty : MonitoringDashboard := mkMonitoringDashboard [] ∅ [].

(** [dashboard.record_batch(metrics)]. *)
Definition record_batch (metrics : BatchMetrics) (d : MonitoringDashboard)
  : MonitoringDashboard :=
  mkMonitoringDashboard
    (ingestion_batches d ++ [metrics])
    (map_fold (fun flag_name count total =>
                 <[flag_name := (default 0 (total !! flag_name) + count)%nat]> total)
              (quality_flags_total d) (flags metrics))
    (corrections d).

(** [dashboard.record_correction(action, target, reason, records_affected)];
    [clock] is what the system clock shows when the method reads it. *)
Definition record_correction (clock : datetime)
  (action target reason : string) (records_affected : nat)
  (d : MonitoringDashboard) : MonitoringDashboard :=
  mkMonitoringDashboard
    (ingestion_batches d)
    (quality_flags_total d)
    (corrections d
     ++ [mkCorrectionEntry (Datetime.isoformat (Datetime.now_utc clock))
           action target reason records_affected]).

End Monitoring.

(* ================================================================== *)
(** * The program, relative to two primitives of the Python runtime *)
(* ================================================================== *)

Section Program.

(** [datetime.fromisoformat]: which strings it accepts depends on the
    Python version; [None] stands for its [ValueError]. *)
Variable fromisoformat : string → option datetime.

(** [next(iter(s))] on a set: Python leaves the iteration order of a set
    unspecified; all the code may rely on is that a non-empty set yields
    one of its elements, which the claims about grouping assume of
    [set_next]. *)
Variable set_next : gset string → string.

(* ---------------------------------------------------------------- *)
(** ** Ingestion ([ingestion.py]) *)
(* ---------------------------------------------------------------- *)

Definition ADMIN_CODE_INDICATORS : list string :=
  ["admin code"; "*new member"; "prompt authorization"].

Definition VAGUE_ENTRY_KEYWORDS : list string :=
  ["encounter for"; "elective procedure"; "initial encounter"].

Definition CLINICAL_STATUS_NORMALIZATION : list (string * string) :=
  [ ("active", "active");
    ("active (qualifier value)", "active");
    ("resolved", "resolved") ].

(** The codings of the primary code, [[]] when there is no code. *)
Definition codings_of (condition : FhirCondition) : list FhirCoding :=
  match code condition with
  | Some c => concept_coding c
  | None => []
  end.

(** One turn of the loop of [_extract_codes_by_system]. *)
Definition extract_step (acc : gmap string (gset string) * gset string)
  (coding : FhirCoding) : gmap string (gset string) * gset string :=
  match coding_code coding, coding_system coding with
  | Some (String a c), Some (String b s) =>
      (<[String b s := default ∅ (acc.1 !! String b s) ∪ {[String a c]}]> acc.1,
       acc.2 ∪ {[String a c]})
  | _, _ => acc
  end.

Definition _extract_codes_by_system (condition : FhirCondition)
  : gmap string (gset string) :=
  let codes : gmap string (gset string) :=
    <[ICD10_SYSTEM := ∅]> (<[SNOMED_SYSTEM := ∅]>
      (<[ICD9_SYSTEM := ∅]> (<[IMO_SYSTEM := ∅]> ∅))) in
  let r := foldl extract_step (codes, ∅) (codings_of condition) in
  <["_all" := r.2]> r.1.

Definition _normalize_clinical_status (condition : FhirCondition) : string :=
  match clinicalStatus condition with
  | None => "unknown"
  | Some cs =>
      let raw := PyStr.lower (PyStr.strip (default "" (concept_text cs))) in
      match PyDict.get CLINICAL_STATUS_NORMALIZATION raw with
      | Some v => v
      | None => if String.eqb raw "" then "unknown" else raw
      end
  end.

Definition coding_parts (coding : FhirCoding) : list string :=
  (if PyStr.truthy (coding_display coding)
   then [default "" (coding_display coding)] else [])
  ++ (if PyStr.truthy (coding_code coding)
      then [default "" (coding_code coding)] else []).

Definition _build_searchable_text (condition : FhirCondition) : string :=
  let parts :=
    match code condition with
    | None => []
    | Some c =>
        (if PyStr.truthy (concept_text c)
         then [default "" (concept_text c)] else [])
        ++ concat (map coding_parts (concept_coding c))
    end in
  PyStr.lower (PyStr.join " " parts).

Definition _pick_display_name (condition : FhirCondition) : string :=
  match code condition with
  | None => "Unknown condition"
  | Some c =>
      if PyStr.truthy (concept_text c) then default "" (concept_text c)
      else
        match List.find (fun cd => PyStr.truthy (coding_display cd))
                (concept_coding c) with
        | Some cd => default "" (coding_display cd)
        | None => "Unknown condition"
        end
  end.

(** One bound of the onset period: absent, empty and unparsable strings
    all give [None]. *)
Definition parse_bound (o : option string) : option datetime :=
  if PyStr.truthy o then fromisoformat (default "" o) else None.

Definition _parse_onset_dates (condition : FhirCondition)
  : option datetime * option datetime :=
  match onsetPeriod condition with
  | None => (None, None)
  | Some p => (parse_bound (period_start p), parse_bound (period_end p))
  end.

Definition any_in (words : list string) (text : string) : bool :=
  existsb (fun w => PyStr.contains w text) words.

(** The flags are appended in the order of the source; the subtraction
    of the two onset dates may raise [TypeError]. *)
Definition _detect_quality_flags (condition : FhirCondition)
  (code_sets : gmap string (gset string)) (normalized_status : string)
  (onset_start onset_end : option datetime) : result (list string) :=
  let searchable := _build_searchable_text condition in
  let f1 :=
    match clinicalStatus condition with
    | None => ["missing_clinical_status"]
    | Some _ => []
    end in
  let has_end_date := match onset_end with Some _ => true | None => false end in
  let f2 :=
    if String.eqb normalized_status "active" && has_end_date
    then ["inconsistent_status"]
    else if String.eqb normalized_status "resolved" && negb has_end_date
         then ["inconsistent_status"]
         else [] in
  let f3 := if any_in ADMIN_CODE_INDICATORS searchable
            then ["admin_code"] else [] in
  let f4 := if any_in VAGUE_ENTRY_KEYWORDS searchable
            then ["vague_entry"] else [] in
  try! f5 ←
    match onset_start, onset_end with
    | Some s, Some e =>
        try! duration ← Datetime.sub e s;
        Ok (if (0 <? duration) && (duration <? 86400 * 1000000)
            then ["short_duration"] else [])
    | _, _ => Ok []
    end;
  let f6 :=
    if bool_decide (default ∅ (code_sets !! ICD10_SYSTEM) = ∅)
    then ["missing_icd10"] else [] in
  Ok (f1 ++ f2 ++ f3 ++ f4 ++ f5 ++ f6).

Definition DERIVED_FROM_EXTENSION_URL : string :=
  "http://hl7.org/fhir/StructureDefinition/artifact-relatedArtifact".

Definition derived_from_id (ext : FhirExtension) : list string :=
  match extension_url ext with
  | Some u =>
      if String.eqb u DERIVED_FROM_EXTENSION_URL then
        match extension_valueRelatedArtifact ext with
        | Some artifact =>
            match artifact_type artifact, artifact_display artifact with
            | Some t, Some (String a r) =>
                if String.eqb t "derived-from"
                   && PyStr.startswith (String a r) "Condition/"
                then [PyStr.removeprefix (String a r) "Condition/"]
                else []
            | _, _ => []
            end
        | None => []
        end
      else []
  | None => []
  end.

Definition _extract_derived_from_ids (condition : FhirCondition)
  : list string :=
  concat (map derived_from_id (extension condition)).

Definition build_condition_record (raw : list (string * json))
  (batch_number : Z) : result ConditionRecord :=
  try! condition ← Pydantic.model_validate raw;
  let code_sets := _extract_codes_by_system condition in
  let onset := _parse_onset_dates condition in
  let normalized_status := _normalize_clinical_status condition in
  try! quality ← _detect_quality_flags condition code_sets
                   normalized_status onset.1 onset.2;
  Ok (mkConditionRecord
        (id condition)
        condition
        (default ∅ (code_sets !! ICD10_SYSTEM))
        (default ∅ (code_sets !! SNOMED_SYSTEM))
        (default ∅ (code_sets !! ICD9_SYSTEM))
        (default ∅ (code_sets !! IMO_SYSTEM))
        (default ∅ (code_sets !! "_all"))
        normalized_status
        (_build_searchable_text condition)
        (_pick_display_name condition)
        onset.1
        onset.2
        quality
        (_extract_derived_from_ids condition)
        false None None
        (Some batch_number)).

(** The state of the loop of [ingest_batch]: the metrics under
    construction, [flag_counts] and the store. *)
Record IngestState := mkIngestState {
  ing_metrics : BatchMetrics;
  ing_flag_counts : gmap string nat;
  ing_store : list (string * ConditionRecord) }.

Definition count_flag (fc : gmap string nat) (flag : string)
  : gmap string nat :=
  <[flag := (default 0 (fc !! flag) + 1)%nat]> fc.

(** One turn of the loop of [ingest_batch]. *)
Definition ingest_step (batch_num : Z) (st : IngestState)
  (raw : list (string * json)) : IngestState :=
  let m := ing_metrics st in
  match build_condition_record raw batch_num with
  | Raise _ =>
      mkIngestState
        (mkBatchMetrics (batch_number m) (received m) (added m)
           (skipped_duplicate m) (S (errored m)) (flags m))
        (ing_flag_counts st) (ing_store st)
  | Ok record =>
      match ConditionStore.add record (ing_store st) with
      | (true, store') =>
          mkIngestState
            (mkBatchMetrics (batch_number m) (received m) (S (added m))
               (skipped_duplicate m) (errored m) (flags m))
            (foldl count_flag (ing_flag_counts st) (quality_flags record))
            store'
      | (false, store') =>
          mkIngestState
            (mkBatchMetrics (batch_number m) (received m) (added m)
               (S (skipped_duplicate m)) (errored m) (flags m))
            (ing_flag_counts st) store'
      end
  end.

Definition ingest_batch (raw_conditions : list (list (string * json)))
  (batch_num : Z) (store : list (string * ConditionRecord))
  (dashboard : MonitoringDashboard)
  : BatchMetrics * list (string * ConditionRecord) * MonitoringDashboard :=
  let metrics :=
    mkBatchMetrics batch_num (length raw_conditions) 0 0 0 ∅ in
  let st := foldl (ingest_step batch_num)
              (mkIngestState metrics ∅ store) raw_conditions in
  let m := ing_metrics st in
  let metrics' :=
    mkBatchMetrics (batch_number m) (received m) (added m)
      (skipped_duplicate m) (errored m) (ing_flag_counts st) in
  (metrics', ing_store st, Monitoring.record_batch metrics' dashboard).

(* ---------------------------------------------------------------- *)
(** ** Corrections ([corrections.py]) *)
(* ---------------------------------------------------------------- *)

Record RemovalPredicate := mkRemovalPredicate {
  pred_name : string;
  pred_description : string;
  pred_text_patterns : list string;
  pred_icd10_codes : gset string;
  pred_snomed_codes : gset string;
  pred_quality_flags : list string }.

Definition PREDICATES : list (string * RemovalPredicate) :=
  [ ("tuberculosis",
     mkRemovalPredicate "tuberculosis"
       "All TB-related conditions (latent TB, history of TB)"
       ["tuberculosis"; "latent tb"; "hx of latent tb"]
       ({["Z22.7"]} ∪ {["Z86.15"]})
       ({["11999007"]} ∪ {["428934008"]})
       []);
    ("admin_codes",
     mkRemovalPredicate "admin_codes"
       "Non-clinical administrative entries"
       [] ∅ ∅ ["admin_code"]) ].

(** The four tests are tried in the order of the source; each [return
    True] is one disjunct. *)
Definition _matches_predicate (record : ConditionRecord)
  (pred : RemovalPredicate) : bool :=
  existsb (fun pattern => PyStr.contains pattern (searchable_text record))
    (pred_text_patterns pred)
  || (bool_decide (pred_icd10_codes pred ≠ ∅)
      && bool_decide (icd10_codes record ∩ pred_icd10_codes pred ≠ ∅))
  || (bool_decide (pred_snomed_codes pred ≠ ∅)
      && bool_decide (snomed_codes record ∩ pred_snomed_codes pred ≠ ∅))
  || existsb (fun flag => bool_decide (flag ∈ quality_flags record))
       (pred_quality_flags pred).

(** The engine holds the store and the dashboard. *)
Record CorrectionEngine := mkCorrectionEngine {
  store : list (string * ConditionRecord);
  dashboard : MonitoringDashboard }.

(** The dictionary every removal returns; [removed_conditions] is present
    on success only. *)
Record RemovalResult := mkRemovalResult {
  success : bool;
  message : string;
  records_removed : nat;
  removed_conditions : option (list string);
  active_remaining : nat }.

Definition _no_match (target : string) (eng : CorrectionEngine)
  : RemovalResult :=
  mkRemovalResult false
    ("No active conditions found matching " +:+ String "034" target
     +:+ String "034" ".")
    0 None (ConditionStore.active_count (store eng)).

Definition _already_removed (target : string) (eng : CorrectionEngine)
  : RemovalResult :=
  mkRemovalResult false
    ("Condition " +:+ String "034" target +:+ String "034"
     " is already removed.")
    0 None (ConditionStore.active_count (store eng)).

(** One turn of the loop of [_apply_removals]; the clock is read once by
    every [soft_remove] that succeeds, so the reading used is the one
    after [length removed] earlier ones. *)
Definition removal_step (clock : nat → datetime) (reason : string)
  (acc : list string * list (string * ConditionRecord))
  (record : ConditionRecord)
  : list string * list (string * ConditionRecord) :=
  match ConditionStore.soft_remove (clock (length acc.1))
          (resource_id record) reason acc.2 with
  | (true, s') =>
      (acc.1 ++ [display_name record +:+ " ("
                 +:+ PyStr.take 8 (resource_id record) +:+ ")"], s')
  | (false, s') => (acc.1, s')
  end.

(** [clock n] is the [n]-th reading of the system clock during the
    call. *)
Definition _apply_removals (clock : nat → datetime)
  (matched : list ConditionRecord) (action target reason : string)
  (eng : CorrectionEngine) : RemovalResult * CorrectionEngine :=
  match matched with
  | [] => (_no_match target eng, eng)
  | _ :: _ =>
      let r := foldl (removal_step clock reason) ([], store eng) matched in
      let removed := r.1 in
      let eng' :=
        mkCorrectionEngine r.2
          (Monitoring.record_correction (clock (length removed))
             action target reason (length removed) (dashboard eng)) in
      let active := ConditionStore.active_count (store eng') in
      (mkRemovalResult true
         ("Removed " +:+ PyStr.of_nat (length removed)
          +:+ " condition(s). " +:+ PyStr.of_nat active
          +:+ " active remaining.")
         (length removed) (Some removed) active,
       eng')
  end.

Definition remove_by_text (clock : nat → datetime) (target reason : string)
  (eng : CorrectionEngine) : RemovalResult * CorrectionEngine :=
  let target_lower := PyStr.lower target in
  let matched :=
    List.filter (fun r => PyStr.contains target_lower (searchable_text r))
      (ConditionStore.get_all_active (store eng)) in
  _apply_removals clock matched "remove_by_text" target reason eng.

Definition remove_by_code (clock : nat → datetime) (code reason : string)
  (eng : CorrectionEngine) : RemovalResult * CorrectionEngine :=
  let matched :=
    List.filter (fun r => bool_decide (code ∈ all_codes r))
      (ConditionStore.get_all_active (store eng)) in
  _apply_removals clock matched "remove_by_code" code reason eng.

Definition remove_by_id (clock : nat → datetime) (rid reason : string)
  (eng : CorrectionEngine) : RemovalResult * CorrectionEngine :=
  match ConditionStore.get_by_id (store eng) rid with
  | None => (_no_match rid eng, eng)
  | Some record =>
      if is_removed record then (_already_removed rid eng, eng)
      else _apply_removals clock [record] "remove_by_id" rid reason eng
  end.

Definition remove_by_predicate (clock : nat → datetime)
  (predicate_name reason : string) (eng : CorrectionEngine)
  : RemovalResult * CorrectionEngine :=
  match PyDict.get PREDICATES predicate_name with
  | None =>
      let available :=
        PyStr.join ", "
          (sorted_by PyStr.lt (fun k : string => k) (PyDict.keys PREDICATES)) in
      (mkRemovalResult false
         ("Unknown predicate " +:+ String "034" predicate_name
          +:+ String "034" ". Available: " +:+ available)
         0 None (ConditionStore.active_count (store eng)),
       eng)
  | Some pred =>
      let matched :=
        List.filter (fun r => _matches_predicate r pred)
          (ConditionStore.get_all_active (store eng)) in
      _apply_removals clock matched "remove_by_predicate" predicate_name
        reason eng
  end.

Definition get_available_predicates : list (string * string) :=
  map (fun kv => (kv.1, pred_description kv.2)) PREDICATES.

(* ---------------------------------------------------------------- *)
(** ** Retrieval ([retrieval.py]) *)
(* ---------------------------------------------------------------- *)

Record ConditionGroup := mkConditionGroup {
  canonical_code : string;
  code_system_label : string;
  group_display_name : string;
  group_all_codes : gmap string (gset string);
  statuses : gset string;
  encounter_count : nat;
  earliest_onset : option string;
  latest_onset : option string;
  group_quality_flags : gset string;
  has_overlapping_dates : bool;
  consolidated_record_count : nat;
  derived_from_source_count : nat }.

Definition _canonical_code (record : ConditionRecord) : string * string :=
  if bool_decide (icd10_codes record ≠ ∅)
  then (set_next (icd10_codes record), "ICD-10")
  else if bool_decide (snomed_codes record ≠ ∅)
  then (set_next (snomed_codes record), "SNOMED")
  else if bool_decide (icd9_codes record ≠ ∅)
  then (set_next (icd9_codes record), "ICD-9")
  else (PyStr.lower (display_name record), "text").

Definition label_if_any (label : string) (codes : gset string)
  (m : gmap string (gset string)) : gmap string (gset string) :=
  if bool_decide (codes ≠ ∅) then <[label := codes]> m else m.

Definition _code_labels (record : ConditionRecord)
  : gmap string (gset string) :=
  label_if_any "IMO" (imo_codes record)
    (label_if_any "ICD-9" (icd9_codes record)
       (label_if_any "SNOMED" (snomed_codes record)
          (label_if_any "ICD-10" (icd10_codes record) ∅))).

Definition _matches_text (record : ConditionRecord) (query : string) : bool :=
  PyStr.contains (PyStr.lower query) (searchable_text record).

(** The dictionary [system_map] of [_matches_code] for one record. *)
Definition system_map (record : ConditionRecord)
  : list (string * gset string) :=
  [ ("icd10", icd10_codes record);
    ("icd-10", icd10_codes record);
    ("snomed", snomed_codes record);
    ("icd9", icd9_codes record);
    ("icd-9", icd9_codes record);
    ("imo", imo_codes record) ].

Definition _matches_code (record : ConditionRecord) (code : string)
  (code_system : option string) : bool :=
  match (if PyStr.truthy code_system
         then PyDict.get (system_map record)
                (PyStr.lower (default "" code_system))
         else None) with
  | Some target => bool_decide (code ∈ target)
  | None => bool_decide (code ∈ all_codes record)
  end.

Definition _matches_status (record : ConditionRecord) (status : string)
  : bool :=
  String.eqb (normalized_status record) (PyStr.lower status).

(** The loop over [range(1, len(sorted_periods))]. *)
Fixpoint adjacent_overlap (periods : list (string * string)) : bool :=
  match periods with
  | previous :: ((current :: _) as rest) =>
      PyStr.lt current.1 previous.2 || adjacent_overlap rest
  | _ => false
  end.

Definition _detect_overlapping_onset_periods
  (onset_periods : list (string * string)) : bool :=
  adjacent_overlap (sorted_by PyStr.lt fst onset_periods).

(** The group created for the first record of a canonical code. *)
Definition new_group (code label : string) (record : ConditionRecord)
  : ConditionGroup :=
  mkConditionGroup code label (display_name record) (_code_labels record)
    ∅ 0 None None ∅ false 0 0.

Definition merge_labels (into from : gmap string (gset string))
  : gmap string (gset string) :=
  map_fold (fun sys_label codes acc =>
              <[sys_label := default ∅ (acc !! sys_label) ∪ codes]> acc)
    into from.

(** The updates that one record makes to its group. *)
Definition update_group (record : ConditionRecord) (g : ConditionGroup)
  : ConditionGroup :=
  let derived := negb (bool_decide (derived_from_ids record = [])) in
  let onset_str :=
    match onset_start record with
    | Some d => Some (PyStr.take 10 (Datetime.isoformat d))
    | None => None
    end in
  mkConditionGroup
    (canonical_code g) (code_system_label g) (group_display_name g)
    (merge_labels (group_all_codes g) (_code_labels record))
    (statuses g ∪ {[normalized_status record]})
    (S (encounter_count g))
    (match onset_str, earliest_onset g with
     | Some o, None => Some o
     | Some o, Some e => if PyStr.lt o e then Some o else Some e
     | None, e => e
     end)
    (match onset_str, latest_onset g with
     | Some o, None => Some o
     | Some o, Some l => if PyStr.lt l o then Some o else Some l
     | None, l => l
     end)
    (group_quality_flags g ∪ list_to_set (quality_flags record))
    (has_overlapping_dates g)
    (if derived then S (consolidated_record_count g)
     else consolidated_record_count g)
    (if derived
     then (derived_from_source_count g + length (derived_from_ids record))%nat
     else derived_from_source_count g).

(** The onset period that a record contributes, if it has both dates. *)
Definition onset_period (record : ConditionRecord)
  : list (string * string) :=
  match onset_start record, onset_end record with
  | Some s, Some e => [(Datetime.isoformat s, Datetime.isoformat e)]
  | _, _ => []
  end.

(** One turn of the first loop of [group_by_canonical_code], on the two
    dictionaries [groups] and [onset_periods_by_group]. *)
Definition group_step
  (acc : list (string * ConditionGroup)
         * list (string * list (string * string)))
  (record : ConditionRecord)
  : list (string * ConditionGroup) * list (string * list (string * string)) :=
  let cl := _canonical_code record in
  let code := cl.1 in
  let acc1 :=
    if PyDict.mem acc.1 code then acc
    else (PyDict.set acc.1 code (new_group code cl.2 record),
          PyDict.set acc.2 code []) in
  let group := default (new_group code cl.2 record) (PyDict.get acc1.1 code) in
  let periods := default [] (PyDict.get acc1.2 code) in
  (PyDict.set acc1.1 code (update_group record group),
   PyDict.set acc1.2 code (periods ++ onset_period record)).

(** The second loop: flag the groups whose periods overlap. *)
Definition flag_overlap (periods_by_group : list (string * list (string * string)))
  (kg : string * ConditionGroup) : ConditionGroup :=
  let periods := default [] (PyDict.get periods_by_group kg.1) in
  let g := kg.2 in
  if (2 <=? length periods)%nat && _detect_overlapping_onset_periods periods
  then mkConditionGroup
         (canonical_code g) (code_system_label g) (group_display_name g)
         (group_all_codes g) (statuses g) (encounter_count g)
         (earliest_onset g) (latest_onset g) (group_quality_flags g)
         true (consolidated_record_count g) (derived_from_source_count g)
  else g.

Definition group_by_canonical_code (records : list ConditionRecord)
  : list ConditionGroup :=
  let r := foldl group_step ([], []) records in
  sorted_by (fun a b : nat => (b <? a)%nat) encounter_count
    (map (flag_overlap r.2) r.1).

(** The records that [retrieve] hands to the grouping: the active
    records that pass every filter given.  An absent or empty filter is
    not applied. *)
Definition retrieve_candidates (s : list (string * ConditionRecord))
  (query code code_system status : option string) : list ConditionRecord :=
  let c0 := ConditionStore.get_all_active s in
  let c1 := if PyStr.truthy query
            then List.filter (fun r => _matches_text r (default "" query)) c0
            else c0 in
  let c2 := if PyStr.truthy code
            then List.filter
                   (fun r => _matches_code r (default "" code) code_system) c1
            else c1 in
  if PyStr.truthy status
  then List.filter (fun r => _matches_status r (default "" status)) c2
  else c2.

End Program.

(* ================================================================== *)
(** * Invariants and notions used in the statements *)
(* ================================================================== *)

(** Every store that the program builds keys each record by its own
    [resource_id], and no key occurs twice. *)
Definition store_wf (s : list (string * ConditionRecord)) : Prop :=
  NoDup (PyDict.keys s) ∧ ∀ k r, (k, r) ∈ s → resource_id r = k.

(** The record stored under [k] has been soft-removed. *)
Definition removed_in (s : list (string * ConditionRecord)) (k : string)
  : Prop :=
  ∃ r, PyDict.get s k = Some r ∧ is_removed r = true.

(** The records of a batch that build, in input order. *)
Definition built_records (fromisoformat : string → option datetime)
  (batch_num : Z) (raws : list (list (string * json)))
  : list ConditionRecord :=
  omap (fun raw =>
          match build_condition_record fromisoformat raw batch_num with
          | Ok r => Some r
          | Raise _ => None
          end) raws.

(** Occurrences of a flag in the flag lists of some records. *)
Definition flag_occurrences (flag : string) (rs : list ConditionRecord) : nat :=
  sum_list (map (fun r => count_occ string_dec (quality_flags r) flag) rs).

(** A flag that is appended when its test holds. *)
Definition flag_if (b : bool) (flag : string) : list string :=
  if b then [flag] else [].

(** The test of [inconsistent_status]. *)
Definition status_mismatch (normalized_status : string)
  (onset_end : option datetime) : bool :=
  (String.eqb normalized_status "active" && bool_decide (is_Some onset_end))
  || (String.eqb normalized_status "resolved"
      && negb (bool_decide (is_Some onset_end))).

(** The test of [short_duration], in microseconds. *)
Definition lasts_under_a_day (onset_start onset_end : option datetime) : bool :=
  match onset_start, onset_end with
  | Some s, Some e =>
      match Datetime.sub e s with
      | Ok d => (0 <? d) && (d <? 86400 * 1000000)
      | Raise _ => false
      end
  | _, _ => false
  end.

(** The entry under which the store keeps a record. *)
Definition entry (r : ConditionRecord) : string * ConditionRecord :=
  (resource_id r, r).

(** The records of [rs] that [add] accepts when the keys [seen] are taken:
    those whose id is not in [seen] and has not occurred earlier in [rs]. *)
Fixpoint fresh_records (seen : list string) (rs : list ConditionRecord)
  : list ConditionRecord :=
  match rs with
  | [] => []
  | r :: rs' =>
      if bool_decide (resource_id r ∈ seen) then fresh_records seen rs'
      else r :: fresh_records (seen ++ [resource_id r]) rs'
  end.

(** The inputs of a batch that fail to build. *)
Definition failed_inputs (fromisoformat : string → option datetime)
  (batch_num : Z) (raws : list (list (string * json)))
  : list (list (string * json)) :=
  List.filter
    (fun raw => negb (is_ok (build_condition_record fromisoformat raw batch_num)))
    raws.

(** A loop state of [ingest_batch] with [dr] more inputs received and
    [de] more errors counted. *)
Definition more_counted (dr de : nat) (st : IngestState) : IngestState :=
  mkIngestState
    (mkBatchMetrics (batch_number (ing_metrics st))
       (dr + received (ing_metrics st)) (added (ing_metrics st))
       (skipped_duplicate (ing_metrics st)) (de + errored (ing_metrics st))
       (flags (ing_metrics st)))
    (ing_flag_counts st) (ing_store st).

(** The metrics of a batch with one more input, which failed. *)
Definition with_one_failure (m : BatchMetrics) : BatchMetrics :=
  mkBatchMetrics (batch_number m) (S (received m)) (added m)
    (skipped_duplicate m) (S (errored m)) (flags m).

(** The key under which [group_by_canonical_code] files a record. *)
Definition group_key (set_next : gset string → string) (r : ConditionRecord)
  : string :=
  (_canonical_code set_next r).1.

(** The records grouped under [code], in input order. *)
Definition members (set_next : gset string → string) (code : string)
  (records : list ConditionRecord) : list ConditionRecord :=
  List.filter (fun r => String.eqb (group_key set_next r) code) records.

(** The complete onset periods of the records grouped under [code]. *)
Definition member_periods (set_next : gset string → string) (code : string)
  (records : list ConditionRecord) : list (string * string) :=
  concat (map onset_period (members set_next code records)).

(** What the first loop of [group_by_canonical_code] maintains: a group
    exists for exactly the canonical codes seen; it carries its own key,
    is not flagged yet and has counted its members; the periods stored
    under a key are those of its members, in input order. *)
Record grouping_inv (set_next : gset string → string)
  (records : list ConditionRecord)
  (acc : list (string * ConditionGroup)
         * list (string * list (string * string))) : Prop := {
  inv_nodup : NoDup (PyDict.keys acc.1);
  inv_keys : ∀ k, is_Some (PyDict.get acc.1 k)
                  ↔ ∃ r, r ∈ records ∧ group_key set_next r = k;
  inv_group : ∀ k g, PyDict.get acc.1 k = Some g →
                canonical_code g = k
                ∧ has_overlapping_dates g = false
                ∧ encounter_count g = length (members set_next k records);
  inv_periods : ∀ k, is_Some (PyDict.get acc.1 k) →
                  PyDict.get acc.2 k
                  = Some (member_periods set_next k records) }.

(* ================================================================== *)
(** * A concrete runtime and sample data, for running the model *)
(* ================================================================== *)

(** One admissible iteration order: a set yields its least listed
    element. *)
Definition set_first (s : gset string) : string :=
  default "" (head (elements s)).

Module IsoBasic.

Definition digit_val (c : ascii) : option Z :=
  let n := PyStr.ord c in
  if ((48 <=? n) && (n <=? 57))%N then Some (Z.of_N n - 48) else None.

(** Read exactly [n] decimal digits. *)
Fixpoint number (n : nat) (acc : Z) (s : string) : option (Z * string) :=
  match n with
  | O => Some (acc, s)
  | S n' =>
      match s with
      | String c s' =>
          match digit_val c with
          | Some d => number n' (acc * 10 + d) s'
          | None => None
          end
      | EmptyString => None
      end
  end.

Definition sep (c : ascii) (s : string) : option string :=
  match s with
  | String c' s' => if Ascii.eqb c c' then Some s' else None
  | EmptyString => None
  end.

(** The two forms that every version of [datetime.fromisoformat] reads:
    [YYYY-MM-DD] and [YYYY-MM-DDTHH:MM:SS]. *)
Definition parse (s : string) : option datetime :=
  '(y, s) ← number 4 0 s;
  s ← sep "-" s;
  '(m, s) ← number 2 0 s;
  s ← sep "-" s;
  '(d, s) ← number 2 0 s;
  if negb ((1 <=? y) && (1 <=? m) && (m <=? 12) && (1 <=? d)
           && (d <=? Datetime.days_in_month y m))
  then None
  else
    match s with
    | EmptyString => Some (mkDatetime y m d 0 0 0 0 None)
    | _ =>
        s ← sep "T" s;
        '(hh, s) ← number 2 0 s;
        s ← sep ":" s;
        '(mi, s) ← number 2 0 s;
        s ← sep ":" s;
        '(ss, s) ← number 2 0 s;
        match s with
        | EmptyString =>
            if (hh <? 24) && (mi <? 60) && (ss <? 60)
            then Some (mkDatetime y m d hh mi ss 0 None) else None
        | _ => None
        end
    end.

End IsoBasic.

Module Sample.

Definition condition (rid : string) : FhirCondition :=
  mkFhirCondition "Condition" rid [] None None None [] None None [].

(** An active record with the given label, codes and onset period. *)
Definition record (rid name : string) (icd10 snomed imo : gset string)
  (onset : option datetime * option datetime) : ConditionRecord :=
  mkConditionRecord rid (condition rid)
    icd10 snomed ∅ imo (icd10 ∪ snomed ∪ imo)
    "active" (PyStr.lower name) name onset.1 onset.2 [] []
    false None None (Some 1).

Definition day (y m d : Z) : option datetime :=
  Some (mkDatetime y m d 0 0 0 0 None).

Definition clock : datetime := mkDatetime 2024 5 17 9 30 0 0 None.

Definition asthma : ConditionRecord :=
  record "cond-0001" "Asthma" {["J45.909"]} ∅ ∅ (None, None).
Definition asthma_again : ConditionRecord :=
  record "cond-0001" "Asthma, unspecified" {["J45.909"]} {["195967001"]} ∅
    (None, None).
Definition asthma_january : ConditionRecord :=
  record "cond-0002" "Asthma" {["J45.909"]} ∅ ∅
    (day 2020 1 1, day 2020 6 1).
Definition asthma_march : ConditionRecord :=
  record "cond-0003" "Unspecified asthma" {["J45.909"]} ∅ ∅
    (day 2020 3 1, day 2020 9 1).
Definition chest_pain : ConditionRecord :=
  record "cond-0004" "Chest Pain" ∅ ∅ {["IMO-30573"]} (None, None).
Definition pulmonary_tb : ConditionRecord :=
  record "cond-0005" "Pulmonary tuberculosis" ∅ ∅ ∅ (None, None).
Definition latent_tb : ConditionRecord :=
  record "cond-0006" "Hx of latent TB" ∅ {["11999007"]} ∅ (None, None).

(** Raw inputs. *)
Definition raw_condition (rid status : string) (period : list (string * json))
  : list (string * json) :=
  [ ("resourceType", JStr "Condition");
    ("id", JStr rid);
    ("clinicalStatus", JDict [("text", JStr status)]);
    ("code",
     JDict [ ("text", JStr "Asthma");
             ("coding",
              JList [ JDict [ ("system", JStr ICD10_SYSTEM);
                              ("code", JStr "J45.909");
                              ("display", JStr "Unspecified asthma") ] ]) ]);
    ("onsetPeriod", JDict period) ].

Definition raw_active : list (string * json) :=
  raw_condition "cond-0101" "Active (Qualifier value)" [].
Definition raw_inactive : list (string * json) :=
  raw_condition "cond-0102" "Inactive" [].
Definition raw_one_hour : list (string * json) :=
  raw_condition "cond-0103" "active"
    [ ("start", JStr "2021-03-04T10:00:00");
      ("end", JStr "2021-03-04T11:00:00") ].
Definition raw_25_hours : list (string * json) :=
  raw_condition "cond-0104" "resolved"
    [ ("start", JStr "2021-03-04T10:00:00");
      ("end", JStr "2021-03-05T11:00:00") ].
(** No identity: not a valid condition. *)
Definition raw_no_id : list (string * json) :=
  [ ("resourceType", JStr "Condition");
    ("clinicalStatus", JDict [("text", JStr "active")]) ].
(** The id of [raw_active] once more. *)
Definition raw_duplicate : list (string * json) :=
  raw_condition "cond-0101" "resolved" [].

Definition batch : list (list (string * json)) :=
  [raw_active; raw_no_id; raw_one_hour; raw_duplicate; raw_25_hours].

(** The record built from a raw input by the concrete runtime. *)
Definition built (raw : list (string * json)) : ConditionRecord :=
  match build_condition_record IsoBasic.parse raw 1 with
  | Ok r => r
  | Raise _ => asthma
  end.

End Sample.

(* ================================================================== *)
(** * More of the program *)
(* ================================================================== *)

(** The dictionary that [CorrectionEngine.list_corrections] returns. *)
Record CorrectionsListing := mkCorrectionsListing {
  listing_corrections : list CorrectionEntry;
  listing_total_corrections : nat;
  listing_total_records_removed : nat }.

Definition list_corrections (eng : CorrectionEngine) : CorrectionsListing :=
  mkCorrectionsListing (corrections (dashboard eng))
    (length (corrections (dashboard eng)))
    (ConditionStore.removed_count (store eng)).

(** [grouped[:max_results]]: a negative bound counts from the end. *)
Definition slice_to {A : Type} (n : Z) (l : list A) : list A :=
  if n <? 0 then take (length l - Z.to_nat (- n)) l else take (Z.to_nat n) l.

Section Startup.

Variable fromisoformat : string → option datetime.
Variable set_next : gset string → string.

(** [random.Random(seed).shuffle]: some rearrangement of the list that
    depends on the seed. *)
Variable shuffle :
  Z → list (list (string * json)) → list (list (string * json)).

(** [split_into_batches(all_conditions, seed)] of [ingestion.py]. *)
Definition split_into_batches (all_conditions : list (list (string * json)))
  (seed : Z)
  : list (list (string * json)) * list (list (string * json)) :=
  let shuffled := shuffle seed all_conditions in
  let mid := (length shuffled / 2 + length shuffled mod 2)%nat in
  (take mid shuffled, drop mid shuffled).

(** What [run_ingestion_simulation] of [main.py] does to the store and the
    dashboard once the file of conditions is read: the two halves are
    ingested as batches 1 and 2. *)
Definition run_ingestion_simulation
  (all_conditions : list (list (string * json)))
  (store : list (string * ConditionRecord)) (dashboard : MonitoringDashboard)
  : list (string * ConditionRecord) * MonitoringDashboard :=
  let batches := split_into_batches all_conditions 42 in
  let day1 := ingest_batch fromisoformat batches.1 1 store dashboard in
  let day2 := ingest_batch fromisoformat batches.2 2 day1.1.2 day1.2 in
  (day2.1.2, day2.2).

(** The groups that [retrieve] formats: [grouped[:max_results]] of the
    candidates. *)
Definition retrieve_limited (s : list (string * ConditionRecord))
  (query code code_system status : option string) (max_results : Z)
  : list ConditionGroup :=
  slice_to max_results
    (group_by_canonical_code set_next
       (retrieve_candidates s query code code_system status)).

End Startup.

(* ================================================================== *)
(** * Histories of operations, for the invariants *)
(* ================================================================== *)

(** The two methods that change a store. *)
Inductive StoreOp : Type :=
  | OpAdd (record : ConditionRecord)
  | OpSoftRemove (clock : datetime) (rid reason : string).

Definition store_step (s : list (string * ConditionRecord)) (op : StoreOp)
  : list (string * ConditionRecord) :=
  match op with
  | OpAdd record => (ConditionStore.add record s).2
  | OpSoftRemove clock rid reason =>
      (ConditionStore.soft_remove clock rid reason s).2
  end.

(** The removals of the correction engine; each carries the readings of
    the clock during its call. *)
Inductive EngineOp : Type :=
  | DoRemoveText (clock : nat → datetime) (target reason : string)
  | DoRemoveCode (clock : nat → datetime) (code reason : string)
  | DoRemoveId (clock : nat → datetime) (rid reason : string)
  | DoRemovePredicate (clock : nat → datetime) (name reason : string).

Definition engine_step (eng : CorrectionEngine) (op : EngineOp)
  : CorrectionEngine :=
  match op with
  | DoRemoveText clock target reason =>
      (remove_by_text clock target reason eng).2
  | DoRemoveCode clock code reason =>
      (remove_by_code clock code reason eng).2
  | DoRemoveId clock rid reason =>
      (remove_by_id clock rid reason eng).2
  | DoRemovePredicate clock name reason =>
      (remove_by_predicate clock name reason eng).2
  end.

(** Records reported as affected by the corrections of a dashboard. *)
Definition records_affected_total (d : MonitoringDashboard) : nat :=
  sum_list (map entry_records_affected (corrections d)).

(** The label under which a removal reports a record. *)
Definition removal_label (r : ConditionRecord) : string :=
  display_name r +:+ " (" +:+ PyStr.take 8 (resource_id r) +:+ ")".

(** The records that a bulk removal with test [P] matches. *)
Definition matching_active (P : ConditionRecord → bool)
  (s : list (string * ConditionRecord)) : list ConditionRecord :=
  List.filter P (ConditionStore.get_all_active s).

(** An engine over a store of two active records, with an empty
    dashboard. *)
Definition sample_engine : CorrectionEngine :=
  mkCorrectionEngine [entry Sample.asthma; entry Sample.latent_tb]
    Monitoring.empty.

(** [r'] is [r], possibly soft-removed since. *)
Definition same_or_removed (r r' : ConditionRecord) : Prop :=
  r' = r ∨ (is_removed r = false
            ∧ ∃ t reason, r' = ConditionStore.mark_removed t reason r).

(** What the removals of the engine may do to its state: the store stays
    well-formed with the same keys, every record is kept or soft-removed,
    the audit trail only grows and accounts for every record removed, and
    the ingestion metrics stay as they are. *)
Record removal_effect (eng eng' : CorrectionEngine) : Prop := {
  effect_wf : store_wf (store eng');
  effect_keys : PyDict.keys (store eng') = PyDict.keys (store eng);
  effect_audit :
    (ConditionStore.removed_count (store eng')
     + records_affected_total (dashboard eng)
     = ConditionStore.removed_count (store eng)
       + records_affected_total (dashboard eng'))%nat;
  effect_trail :
    ∃ new, corrections (dashboard eng')
           = corrections (dashboard eng) ++ new;
  effect_batches :
    ingestion_batches (dashboard eng') = ingestion_batches (dashboard eng)
    ∧ quality_flags_total (dashboard eng')
      = quality_flags_total (dashboard eng);
  effect_records :
    ∀ k r, PyDict.get (store eng) k = Some r →
           ∃ r', PyDict.get (store eng') k = Some r' ∧ same_or_removed r r' }.

(* ================================================================== *)
(** * The state of a running server *)
(* ================================================================== *)

(** The integer part of [dashboard.get_system_status(store_active,
    store_removed)]; [avg_retrieval_latency_ms], a float computed from the
    latency samples, is left out as the samples are. *)
Record SystemStatus := mkSystemStatus {
  status_total_conditions_loaded : nat;
  status_total_active : nat;
  status_total_removed : nat;
  status_ingestion_batches : list BatchMetrics;
  status_quality_flags_total : gmap string nat;
  status_corrections_applied : nat;
  status_conditions_removed : nat }.

Definition get_system_status (d : MonitoringDashboard)
  (store_active store_removed : nat) : SystemStatus :=
  mkSystemStatus
    (sum_list (map received (ingestion_batches d)))
    store_active
    store_removed
    (ingestion_batches d)
    (quality_flags_total d)
    (length (corrections d))
    (sum_list (map entry_records_affected (corrections d))).

(** [CorrectionEngine.get_status]. *)
Definition get_status (eng : CorrectionEngine) : SystemStatus :=
  get_system_status (dashboard eng)
    (ConditionStore.active_count (store eng))
    (ConditionStore.removed_count (store eng)).

(** The calls that change the state [main] sets up: the ingestion of a
    batch, and the removals of the engine, which shares the store and the
    dashboard. *)
Inductive SystemOp : Type :=
  | DoIngest (raw_conditions : list (list (string * json))) (batch_num : Z)
  | DoRemove (op : EngineOp).

Definition system_step (fromisoformat : string → option datetime)
  (eng : CorrectionEngine) (op : SystemOp) : CorrectionEngine :=
  match op with
  | DoIngest raw_conditions batch_num =>
      let r := ingest_batch fromisoformat raw_conditions batch_num
                 (store eng) (dashboard eng) in
      mkCorrectionEngine r.1.2 r.2
  | DoRemove op => engine_step eng op
  end.

(** [main]: an empty store and an empty dashboard, shared by the engine. *)
Definition fresh_system : CorrectionEngine :=
  mkCorrectionEngine ConditionStore.empty Monitoring.empty.

(** The dashboard agrees with the store: as many records are stored as
    the batches added, as many are removed as the corrections report, the
    flag totals are the flags on the stored records, and every batch
    accounts for what it received. *)
Record ledger_matches_store (eng : CorrectionEngine) : Prop := {
  ledger_wf : store_wf (store eng);
  ledger_added :
    ConditionStore.total_count (store eng)
    = sum_list (map added (ingestion_batches (dashboard eng)));
  ledger_removed :
    ConditionStore.removed_count (store eng)
    = records_affected_total (dashboard eng);
  ledger_flags :
    ∀ f, (default 0 (quality_flags_total (dashboard eng) !! f)
          = flag_occurrences f (ConditionStore.iterate (store eng)))%nat;
  ledger_received :
    Forall (fun b => received b
                     = (added b + skipped_duplicate b + errored b)%nat)
      (ingestion_batches (dashboard eng)) }.

(** One admissible shuffle, for running the model: the list reversed. *)
Definition shuffle_reversed (seed : Z) (l : list (list (string * json)))
  : list (list (string * json)) :=
  rev l.

(** The condition that a raw input validates to. *)
Definition sample_condition (raw : list (string * json)) : FhirCondition :=
  match Pydantic.model_validate raw with
  | Ok c => c
  | Raise _ => Sample.condition "cond-0000"
  end.

(** The condition has a label of its own: a non-empty text of its primary
    code or a non-empty display of one of its codings. *)
Definition has_label (c : FhirCondition) : Prop :=
  ∃ cc, code c = Some cc
        ∧ (PyStr.truthy (concept_text cc) = true
           ∨ ∃ cd, cd ∈ concept_coding cc
                   ∧ PyStr.truthy (coding_display cd) = true).

(** The day of onset that a record contributes to its group:
    [onset_start.isoformat()[:10]]. *)
Definition onset_day (r : ConditionRecord) : option string :=
  match onset_start r with
  | Some d => Some (PyStr.take 10 (Datetime.isoformat d))
  | None => None
  end.

(** The update of [earliest_onset] (with [before o e] for [o < e]) and of
    [latest_onset] (with [before o l] for [o > l]) by one day of onset. *)
Definition best_by (before : string → string → bool)
  (best day : option string) : option string :=
  match day, best with
  | Some o, None => Some o
  | Some o, Some b => if before o b then Some o else Some b
  | None, b => b
  end.

(** The group of two asthma records, as the concrete runtime computes
    it. *)
Definition sample_group : ConditionGroup :=
  default (new_group "" "" Sample.asthma)
    (head (group_by_canonical_code set_first
             [Sample.asthma_january; Sample.asthma_march])).

(* ================================================================== *)
(** * The correction tool ([mcp_tools.py]) *)
(* ================================================================== *)

(** The dictionary that [correct_conditions] hands to [json.dumps]. *)
Inductive ToolPayload : Type :=
  | PayloadRemoval (result : RemovalResult)
  | PayloadCorrections (listing : CorrectionsListing)
  | PayloadPredicates (predicates : list (string * string))
  | PayloadStatus (status : SystemStatus).

(** What [correct_conditions] returns: a plain text, or the JSON text of
    a dictionary, kept here as the dictionary. *)
Inductive ToolReply : Type :=
  | ReplyText (text : string)
  | ReplyJson (payload : ToolPayload).

(** [correct_conditions(action, target, code, resource_id, reason)] on the
    engine that [wire] installed. *)
Definition correct_conditions (clock : nat → datetime) (action : string)
  (target code resource_id : option string) (reason : string)
  (eng : CorrectionEngine) : ToolReply * CorrectionEngine :=
  if String.eqb action "remove_text" then
    if negb (PyStr.truthy target)
    then (ReplyText "Error: 'target' is required for remove_text action.",
          eng)
    else let r := remove_by_text clock (default "" target) reason eng in
         (ReplyJson (PayloadRemoval r.1), r.2)
  else if String.eqb action "remove_code" then
    if negb (PyStr.truthy code)
    then (ReplyText "Error: 'code' is required for remove_code action.", eng)
    else let r := remove_by_code clock (default "" code) reason eng in
         (ReplyJson (PayloadRemoval r.1), r.2)
  else if String.eqb action "remove_id" then
    if negb (PyStr.truthy resource_id)
    then (ReplyText "Error: 'resource_id' is required for remove_id action.",
          eng)
    else let r := remove_by_id clock (default "" resource_id) reason eng in
         (ReplyJson (PayloadRemoval r.1), r.2)
  else if String.eqb action "remove_predicate" then
    if negb (PyStr.truthy target)
    then (ReplyText
            "Error: 'target' (predicate name) is required for remove_predicate action.",
          eng)
    else let r := remove_by_predicate clock (default "" target) reason eng in
         (ReplyJson (PayloadRemoval r.1), r.2)
  else if String.eqb action "list_corrections" then
    (ReplyJson (PayloadCorrections (list_corrections eng)), eng)
  else if String.eqb action "list_predicates" then
    (ReplyJson (PayloadPredicates get_available_predicates), eng)
  else if String.eqb action "status" then
    (ReplyJson (PayloadStatus (get_status eng)), eng)
  else
    (ReplyText
       ("Unknown action: '" +:+ action +:+ "'. "
        +:+ "Valid actions: remove_text, remove_code, remove_id, remove_predicate, "
        +:+ "list_corrections, list_predicates, status"),
     eng).

(** What a removal reports agrees with what it did: a failure leaves the
    engine as it was; a success removed [records_removed] records, at
    least one, and wrote one audit entry with that number and the reason
    given. *)
Record removal_outcome (reason : string) (eng : CorrectionEngine)
  (out : RemovalResult * CorrectionEngine) : Prop := {
  outcome_failure : success out.1 = false → out.2 = eng;
  outcome_success :
    success out.1 = true →
    (1 ≤ records_removed out.1)%nat
    ∧ ConditionStore.removed_count (store out.2)
      = (ConditionStore.removed_count (store eng) + records_removed out.1)%nat
    ∧ active_remaining out.1 = ConditionStore.active_count (store out.2)
    ∧ ∃ e, corrections (dashboard out.2) = corrections (dashboard eng) ++ [e]
           ∧ entry_records_affected e = records_removed out.1
           ∧ entry_reason e = reason }.

(* ================================================================== *)
(** * Overlapping onset periods, in the words of the claim *)
(* ================================================================== *)

(** The (start, end) pairs of the records that have both dates, in the
    order of the records. *)
Definition complete_periods (rs : list ConditionRecord)
  : list (datetime * datetime) :=
  omap (fun r =>
          match onset_start r, onset_end r with
          | Some s, Some e => Some (s, e)
          | _, _ => None
          end) rs.

(** The ISO-8601 texts of a pair. *)
Definition period_text (p : datetime * datetime) : string * string :=
  (Datetime.isoformat p.1, Datetime.isoformat p.2).

(** [a] is strictly before [b] in time; an offset-naive and an
    offset-aware date have no order in time. *)
Definition earlier (a b : datetime) : bool :=
  match Datetime.sub a b with
  | Ok d => d <? 0
  | Raise _ => false
  end.

(** Some pair starts before the end of the pair just before it. *)
Fixpoint starts_before_previous_end {T : Type} (before : T → T → bool)
  (periods : list (T * T)) : bool :=
  match periods with
  | previous :: ((current :: _) as rest) =>
      before current.1 previous.2 || starts_before_previous_end before rest
  | _ => false
  end.

(** The overlap test as the claim words it, with the pairs sorted and
    compared in time. *)
Definition overlap_in_time (rs : list ConditionRecord) : bool :=
  (2 <=? length (complete_periods rs))%nat
  && starts_before_previous_end earlier
       (sorted_by earlier fst (complete_periods rs)).

(** A well-formed date without a UTC offset. *)
Definition naive_ok (d : datetime) : Prop :=
  Datetime.fields_ok d ∧ dt_utcoffset d = None.

(** Three asthma records whose onset dates carry a UTC offset: from
    00:00 to 10:00 at UTC, from 09:00 to 11:00 at UTC-5 (14:00 to 16:00
    at UTC), and from 12:00 to 15:00 at UTC+5 (07:00 to 10:00 at UTC). *)
Definition stamp (hour offset_hours : Z) : option datetime :=
  Some (mkDatetime 2020 1 1 hour 0 0 0 (Some (offset_hours * 3600000000))).

Definition asthma_utc : ConditionRecord :=
  Sample.record "cond-0011" "Asthma" {["J45.909"]} ∅ ∅
    (stamp 0 0, stamp 10 0).
Definition asthma_utc_minus_5 : ConditionRecord :=
  Sample.record "cond-0012" "Asthma" {["J45.909"]} ∅ ∅
    (stamp 9 (-5), stamp 11 (-5)).
Definition asthma_utc_plus_5 : ConditionRecord :=
  Sample.record "cond-0013" "Asthma" {["J45.909"]} ∅ ∅
    (stamp 12 5, stamp 15 5).

(* ================================================================== *)
(** * Properties of the dictionaries *)
(* ================================================================== *)

Local Close Scope Z_scope.

Section dict_facts.
Context {V : Type}.
Implicit Types (d : list (string * V)) (k : string) (v : V).

Lemma dict_get_set_eq d k v : PyDict.get (PyDict.set d k v) k = Some v.
Proof.
  induction d as [|[k' v'] d IH]; simpl.
  - by rewrite String.eqb_refl.
  - destruct (String.eqb k' k) eqn:E; simpl; rewrite E; auto.
Qed.

Lemma dict_get_set_ne d k k' v :
  k ≠ k' → PyDict.get (PyDict.set d k v) k' = PyDict.get d k'.
Proof.
  intros Hne. induction d as [|[k0 v0] d IH]; simpl.
  - apply String.eqb_neq in Hne. by rewrite Hne.
  - destruct (String.eqb k0 k) eqn:E; simpl.
    + apply String.eqb_eq in E. subst k0.
      apply String.eqb_neq in Hne. by rewrite Hne.
    + by rewrite IH.
Qed.

Lemma dict_get_set d k k' v :
  PyDict.get (PyDict.set d k v) k'
  = if decide (k = k') then Some v else PyDict.get d k'.
Proof.
  case_decide as E.
  - subst. apply dict_get_set_eq.
  - by apply dict_get_set_ne.
Qed.

Lemma dict_mem_get d k :
  PyDict.mem d k = true ↔ is_Some (PyDict.get d k).
Proof.
  unfold PyDict.mem. destruct (PyDict.get d k); split; intros H;
    try done; try (by eexists).
Qed.

Lemma dict_mem_false d k : PyDict.mem d k = false ↔ PyDict.get d k = None.
Proof. unfold PyDict.mem. by destruct (PyDict.get d k). Qed.

Lemma dict_get_None_keys d k : PyDict.get d k = None ↔ k ∉ PyDict.keys d.
Proof.
  induction d as [|[k' v'] d IH]; simpl.
  - split; [intros _; apply not_elem_of_nil | done].
  - rewrite not_elem_of_cons. destruct (String.eqb k' k) eqn:E.
    + apply String.eqb_eq in E. subst. split; [done | intros [? _]; done].
    + apply String.eqb_neq in E. rewrite IH. split; [by intros ?; split; [congruence|] | by intros [_ ?]].
Qed.

Lemma dict_get_Some_elem d k v : PyDict.get d k = Some v → (k, v) ∈ d.
Proof.
  induction d as [|[k' v'] d IH]; simpl; [done|].
  destruct (String.eqb k' k) eqn:E.
  - apply String.eqb_eq in E. intros [= ->]. subst. apply elem_of_cons. by left.
  - intros H. apply elem_of_cons. right. auto.
Qed.

Lemma dict_elem_get d k v :
  NoDup (PyDict.keys d) → (k, v) ∈ d → PyDict.get d k = Some v.
Proof.
  induction d as [|[k' v'] d IH]; simpl; intros Hnd Hin.
  - by apply elem_of_nil in Hin.
  - apply NoDup_cons in Hnd as [Hk Hnd].
    apply elem_of_cons in Hin as [[= -> ->]|Hin].
    + by rewrite String.eqb_refl.
    + destruct (String.eqb k' k) eqn:E; [|by apply IH].
      apply String.eqb_eq in E. subst k'. exfalso. apply Hk.
      apply list_elem_of_fmap. by exists (k, v).
Qed.

(** Assigning to a new key appends the entry. *)
Lemma dict_set_new d k v :
  PyDict.get d k = None → PyDict.set d k v = d ++ [(k, v)].
Proof.
  induction d as [|[k' v'] d IH]; simpl; [done|].
  destruct (String.eqb k' k); [done|]. intros H. by rewrite IH.
Qed.

(** Assigning to an existing key replaces the entry that [get] reads,
    where it stands. *)
Lemma dict_set_old d k v0 v :
  PyDict.get d k = Some v0 →
  ∃ d1 d2, d = d1 ++ (k, v0) :: d2 ∧ PyDict.set d k v = d1 ++ (k, v) :: d2.
Proof.
  induction d as [|[k' v'] d IH]; simpl; [done|].
  destruct (String.eqb k' k) eqn:E.
  - apply String.eqb_eq in E. subst k'. intros [= ->]. by exists [], d.
  - intros H. destruct (IH H) as (d1 & d2 & -> & ->).
    by exists ((k', v') :: d1), d2.
Qed.

Lemma dict_keys_set_old d k v :
  is_Some (PyDict.get d k) → PyDict.keys (PyDict.set d k v) = PyDict.keys d.
Proof.
  intros [v0 H]. destruct (dict_set_old d k v0 v H) as (d1 & d2 & -> & ->).
  unfold PyDict.keys. by rewrite !map_app.
Qed.

Lemma dict_keys_set_new d k v :
  PyDict.get d k = None → PyDict.keys (PyDict.set d k v) = PyDict.keys d ++ [k].
Proof.
  intros H. rewrite dict_set_new by done. unfold PyDict.keys.
  by rewrite map_app.
Qed.
End dict_facts.

(* ================================================================== *)
(** * Properties of the condition store *)
(* ================================================================== *)

Section store_facts.
Implicit Types (s : list (string * ConditionRecord)) (r : ConditionRecord).

Lemma count_replace (P : ConditionRecord → bool) s1 s2 k r0 r :
  length (List.filter P (PyDict.values (s1 ++ (k, r) :: s2)))
  + (if P r0 then 1 else 0)
  = length (List.filter P (PyDict.values (s1 ++ (k, r0) :: s2)))
    + (if P r then 1 else 0).
Proof.
  unfold PyDict.values. rewrite !map_app, !List.filter_app, !length_app. simpl.
  destruct (P r0), (P r); simpl; lia.
Qed.

Lemma add_spec r s :
  ConditionStore.add r s
  = if PyDict.get s (resource_id r) is Some _ then (false, s)
    else (true, s ++ [(resource_id r, r)]).
Proof.
  unfold ConditionStore.add, PyDict.mem.
  destruct (PyDict.get s (resource_id r)) eqn:E; [done|].
  by rewrite dict_set_new.
Qed.

Lemma active_count_app s1 s2 :
  ConditionStore.active_count (s1 ++ s2)
  = ConditionStore.active_count s1 + ConditionStore.active_count s2.
Proof.
  unfold ConditionStore.active_count, PyDict.values.
  by rewrite map_app, List.filter_app, length_app.
Qed.

Lemma store_wf_empty : store_wf ConditionStore.empty.
Proof.
  split; [constructor|]. intros k r H. by apply elem_of_nil in H.
Qed.

Lemma store_wf_add r s : store_wf s → store_wf (ConditionStore.add r s).2.
Proof.
  intros [Hnd Hk]. rewrite add_spec.
  destruct (PyDict.get s (resource_id r)) eqn:E; simpl; [done|].
  split.
  - unfold PyDict.keys. rewrite map_app. simpl.
    apply NoDup_app. split_and!; [done| |apply NoDup_singleton].
    intros k Hin ->%list_elem_of_singleton.
    by apply dict_get_None_keys in E.
  - intros k r' [H|H%list_elem_of_singleton]%elem_of_app; [by apply Hk|].
    by injection H as -> ->.
Qed.

Lemma store_wf_soft_remove clock rid reason s :
  store_wf s → store_wf (ConditionStore.soft_remove clock rid reason s).2.
Proof.
  intros [Hnd Hk]. unfold ConditionStore.soft_remove.
  destruct (PyDict.get s rid) as [r0|] eqn:E; [|done].
  destruct (is_removed r0); [done|]. simpl.
  split.
  - rewrite dict_keys_set_old; [done | by eexists].
  - destruct (dict_set_old s rid r0
                (ConditionStore.mark_removed (Datetime.now_utc clock) reason r0) E)
      as (d1 & d2 & Hs & ->).
    intros k r' Hin. rewrite Hs in Hk.
    apply elem_of_app in Hin as [Hin|Hin].
    + apply Hk, elem_of_app. by left.
    + apply elem_of_cons in Hin as [[= -> ->]|Hin].
      * simpl. apply (Hk rid r0), elem_of_app. right. apply elem_of_cons. by left.
      * apply Hk, elem_of_app. right. apply elem_of_cons. by right.
Qed.
End store_facts.

(* ================================================================== *)
(** * Claims about the condition store *)
(* ================================================================== *)

(** C8. [add] inserts a record exactly when its [resource_id] is not yet a
    key of the store and returns whether it inserted; the other keys are
    not touched.  When two records with the same fresh id are added one
    after the other, the first call returns true, the second returns false
    and changes nothing, the first record is the one stored, and the
    number of active records has grown by exactly one (the first record
    being active, as every newly built record is). *)
Theorem C8_add_first_write_wins
  (r : ConditionRecord) (s : list (string * ConditionRecord)) :
  ((ConditionStore.add r s).1 = true ↔ PyDict.get s (resource_id r) = None)
  ∧ ((ConditionStore.add r s).1 = true →
     PyDict.get (ConditionStore.add r s).2 (resource_id r) = Some r
     ∧ ConditionStore.total_count (ConditionStore.add r s).2
       = S (ConditionStore.total_count s))
  ∧ ((ConditionStore.add r s).1 = false → (ConditionStore.add r s).2 = s)
  ∧ (∀ k, k ≠ resource_id r →
       PyDict.get (ConditionStore.add r s).2 k = PyDict.get s k)
  ∧ (∀ r2 : ConditionRecord,
       resource_id r2 = resource_id r →
       PyDict.get s (resource_id r) = None →
       is_removed r = false →
       (ConditionStore.add r s).1 = true
       ∧ ConditionStore.add r2 (ConditionStore.add r s).2
         = (false, (ConditionStore.add r s).2)
       ∧ PyDict.get (ConditionStore.add r2 (ConditionStore.add r s).2).2
           (resource_id r) = Some r
       ∧ ConditionStore.active_count
           (ConditionStore.add r2 (ConditionStore.add r s).2).2
         = S (ConditionStore.active_count s)).
Proof.
  rewrite add_spec.
  destruct (PyDict.get s (resource_id r)) as [r0|] eqn:E; simpl.
  - split_and!; try done.
  - assert (Hget : PyDict.get (s ++ [(resource_id r, r)]) (resource_id r) = Some r).
    { rewrite <- (dict_set_new s _ r E). apply dict_get_set_eq. }
    split_and!; try done.
    + intros _. split; [done|].
      unfold ConditionStore.total_count. rewrite length_app. simpl. lia.
    + intros k Hk. rewrite <- (dict_set_new s _ r E).
      by apply dict_get_set_ne.
    + intros r2 Hid _ Hact. rewrite add_spec, Hid, Hget. simpl.
      split_and!; try done.
      rewrite active_count_app. unfold ConditionStore.active_count at 2.
      simpl. rewrite Hact. simpl. lia.
Qed.

(** C9. [soft_remove] returns true exactly when the id names a stored
    record that is not yet removed.  In that case the stored record becomes
    the same record with [is_removed] set, the reason recorded and a UTC
    time stamp, every other key keeps its record, and one record moves from
    the active count to the removed count.  In every other case (unknown id
    or record already removed) it returns false and the store is unchanged,
    so a second removal of the same id fails and [removed_count] is not
    counted twice. *)
Theorem C9_soft_remove_once
  (clock : datetime) (rid reason : string)
  (s : list (string * ConditionRecord)) :
  ((ConditionStore.soft_remove clock rid reason s).1 = true
   ↔ ∃ r, PyDict.get s rid = Some r ∧ is_removed r = false)
  ∧ (∀ r, PyDict.get s rid = Some r → is_removed r = false →
       ∃ r', PyDict.get (ConditionStore.soft_remove clock rid reason s).2 rid
             = Some r'
             ∧ r' = ConditionStore.mark_removed (Datetime.now_utc clock) reason r
             ∧ is_removed r' = true
             ∧ removal_reason r' = Some reason
             ∧ removal_timestamp r' = Some (Datetime.now_utc clock)
             ∧ dt_utcoffset (Datetime.now_utc clock) = Some 0%Z
             ∧ ConditionStore.removed_count
                 (ConditionStore.soft_remove clock rid reason s).2
               = S (ConditionStore.removed_count s)
             ∧ S (ConditionStore.active_count
                    (ConditionStore.soft_remove clock rid reason s).2)
               = ConditionStore.active_count s)
  ∧ (∀ k, k ≠ rid →
       PyDict.get (ConditionStore.soft_remove clock rid reason s).2 k
       = PyDict.get s k)
  ∧ ((ConditionStore.soft_remove clock rid reason s).1 = false →
     (ConditionStore.soft_remove clock rid reason s).2 = s)
  ∧ (∀ clock2 reason2,
       (ConditionStore.soft_remove clock rid reason s).1 = true →
       ConditionStore.soft_remove clock2 rid reason2
         (ConditionStore.soft_remove clock rid reason s).2
       = (false, (ConditionStore.soft_remove clock rid reason s).2)).
Proof.
  unfold ConditionStore.soft_remove.
  destruct (PyDict.get s rid) as [r0|] eqn:E.
  2:{ simpl. split_and!; try done. split; [done|]. by intros (r & ? & _). }
  destruct (is_removed r0) eqn:Hr; simpl.
  { split_and!; try done.
    - split; [done|]. intros (r & [= <-] & ?). congruence.
    - intros r [= <-] ?. congruence. }
  split_and!.
  - split; [|done]. intros _. by exists r0.
  - intros r [= <-] _. eexists. split; [apply dict_get_set_eq|].
    split_and!; try done.
    + destruct (dict_set_old s rid r0
        (ConditionStore.mark_removed (Datetime.now_utc clock) reason r0) E)
        as (d1 & d2 & Hs & ->).
      rewrite Hs. unfold ConditionStore.removed_count.
      pose proof (count_replace (fun r => is_removed r) d1 d2 rid r0
        (ConditionStore.mark_removed (Datetime.now_utc clock) reason r0)) as H.
      simpl in H. rewrite Hr in H. lia.
    + destruct (dict_set_old s rid r0
        (ConditionStore.mark_removed (Datetime.now_utc clock) reason r0) E)
        as (d1 & d2 & Hs & ->).
      rewrite Hs. unfold ConditionStore.active_count.
      pose proof (count_replace (fun r => negb (is_removed r)) d1 d2 rid r0
        (ConditionStore.mark_removed (Datetime.now_utc clock) reason r0)) as H.
      simpl in H. rewrite Hr in H. simpl in H. lia.
  - intros k Hk. by apply dict_get_set_ne.
  - done.
  - intros clock2 reason2 _. by rewrite dict_get_set_eq.
Qed.

Lemma C8_add_first_write_wins_witness :
  ConditionStore.add Sample.asthma_again
    (ConditionStore.add Sample.asthma ConditionStore.empty).2
  = (false, (ConditionStore.add Sample.asthma ConditionStore.empty).2)
  ∧ ConditionStore.active_count
      (ConditionStore.add Sample.asthma_again
         (ConditionStore.add Sample.asthma ConditionStore.empty).2).2
    = 1.
Proof.
  destruct (C8_add_first_write_wins Sample.asthma ConditionStore.empty)
    as (_ & _ & _ & _ & H).
  destruct (H Sample.asthma_again) as (_ & H2 & _ & H4);
    [reflexivity | reflexivity | reflexivity |].
  exact (conj H2 H4).
Defined.

Lemma C9_soft_remove_once_witness :
  ∃ r', PyDict.get
          (ConditionStore.soft_remove Sample.clock "cond-0001" "entered in error"
             [("cond-0001", Sample.asthma)]).2 "cond-0001" = Some r'
        ∧ is_removed r' = true
        ∧ ConditionStore.removed_count
            (ConditionStore.soft_remove Sample.clock "cond-0001"
               "entered in error" [("cond-0001", Sample.asthma)]).2 = 1.
Proof.
  destruct (C9_soft_remove_once Sample.clock "cond-0001" "entered in error"
              [("cond-0001", Sample.asthma)]) as (_ & H & _).
  destruct (H Sample.asthma) as (r' & H1 & _ & H2 & _ & _ & _ & H3 & _);
    [reflexivity | reflexivity |].
  exists r'. exact (conj H1 (conj H2 H3)).
Defined.

(** C10. When a code filter names a coding system whose lower-cased name is
    none of [icd10], [icd-10], [snomed], [icd9], [icd-9], [imo], the filter
    matches the code against [all_codes]: it gives the same answer as the
    filter without a system, for every record, and so a retrieval selects
    the same candidates with the unrecognised system as without one. *)
Theorem C10_unrecognized_system_is_unscoped
  (record : ConditionRecord) (code sys : string) :
  PyStr.lower sys ∉ ["icd10"; "icd-10"; "snomed"; "icd9"; "icd-9"; "imo"] →
  _matches_code record code (Some sys) = _matches_code record code None
  ∧ _matches_code record code (Some sys)
    = bool_decide (code ∈ all_codes record)
  ∧ ∀ (s : list (string * ConditionRecord)) (query status : option string),
      retrieve_candidates s query (Some code) (Some sys) status
      = retrieve_candidates s query (Some code) None status.
Proof.
  intros Hsys.
  assert (Hall : ∀ r, _matches_code r code (Some sys)
                      = bool_decide (code ∈ all_codes r)).
  { intros r. unfold _matches_code.
    destruct (PyStr.truthy (Some sys)); [|done].
    change (default "" (Some sys)) with sys.
    assert (PyDict.get (system_map r) (PyStr.lower sys) = None) as ->; [|done].
    by apply dict_get_None_keys. }
  split_and!; [by rewrite Hall | apply Hall |].
  intros s query status. unfold retrieve_candidates.
  destruct (PyStr.truthy (Some code)); [|done].
  assert (∀ l, List.filter (fun r => _matches_code r code (Some sys)) l
               = List.filter (fun r => _matches_code r code None) l) as ->;
    [|done].
  intros l. apply List.filter_ext. intros r. by rewrite Hall.
Qed.

Lemma C10_unrecognized_system_is_unscoped_witness :
  _matches_code Sample.asthma_again "195967001" (Some "LOINC") = true
  ∧ _matches_code Sample.asthma_again "195967001" (Some "icd10") = false.
Proof.
  destruct (C10_unrecognized_system_is_unscoped Sample.asthma_again
              "195967001" "LOINC") as (_ & H & _).
  { vm_compute. intros H. repeat (apply elem_of_cons in H as [H|H]; [discriminate H|]).
    by apply elem_of_nil in H. }
  split; [rewrite H|]; by vm_compute.
Defined.

(* ================================================================== *)
(** * Properties of substring search *)
(* ================================================================== *)

Lemma string_app_cons (c : ascii) (a b : string) :
  String c a +:+ b = String c (a +:+ b).
Proof. reflexivity. Qed.

Lemma prefix_spec (p s : string) :
  String.prefix p s = true ↔ ∃ b, s = p +:+ b.
Proof.
  revert s. induction p as [|c p IH]; intros s.
  - split; [intros _; by exists s | by destruct s].
  - destruct s as [|c' s]; cbn [String.prefix].
    + split; [done | by intros (b & ?)].
    + destruct (ascii_dec c c') as [->|Hne].
      * rewrite IH. split; intros (b & Hb); exists b.
        -- by rewrite string_app_cons, Hb.
        -- rewrite string_app_cons in Hb. by injection Hb.
      * split; [done|]. intros (b & Hb). rewrite string_app_cons in Hb.
        injection Hb as -> _. done.
Qed.

Lemma string_app_assoc (a b c : string) : (a +:+ b) +:+ c = a +:+ b +:+ c.
Proof.
  induction a as [|x a IH]; [done|]. by rewrite !string_app_cons, IH.
Qed.

Lemma contains_spec (p s : string) :
  PyStr.contains p s = true ↔ ∃ a b, s = a +:+ p +:+ b.
Proof.
  induction s as [|c s IH].
  - cbn [PyStr.contains]. rewrite orb_false_r, prefix_spec. split.
    + intros (b & Hb). by exists "", b.
    + intros ([|x a] & b & Hb); [by exists b | done].
  - cbn [PyStr.contains]. rewrite orb_true_iff, prefix_spec, IH. split.
    + intros [(b & Hb)|(a & b & Hb)].
      * by exists "", b.
      * exists (String c a), b. by rewrite string_app_cons, Hb.
    + intros ([|x a] & b & Hb).
      * left. by exists b.
      * right. rewrite string_app_cons in Hb. injection Hb as -> Hs.
        by exists a, b.
Qed.

(** A text that contains a string contains its substrings. *)
Lemma contains_part (a p b s : string) :
  PyStr.contains (a +:+ p +:+ b) s = true → PyStr.contains p s = true.
Proof.
  rewrite !contains_spec. intros (a' & b' & ->).
  exists (a' +:+ a), (b +:+ b'). by rewrite !string_app_assoc.
Qed.

(* ================================================================== *)
(** * The order of ISO-8601 texts *)
(* ================================================================== *)

Lemma compare_app (a a' x x' : string) :
  String.length a = String.length a' →
  String.compare (a +:+ x) (a' +:+ x')
  = match String.compare a a' with
    | Eq => String.compare x x'
    | c => c
    end.
Proof.
  revert a'. induction a as [|c a IH]; intros [|c' a'] Hlen; try done.
  rewrite !string_app_cons. cbn [String.compare].
  destruct (Ascii.compare c c'); [|done|done].
  apply IH. by injection Hlen.
Qed.

Lemma length_app_string (a b : string) :
  String.length (a +:+ b) = String.length a + String.length b.
Proof.
  induction a as [|c a IH]; [done|].
  rewrite string_app_cons. cbn [String.length]. by rewrite IH.
Qed.

Lemma length_zpad (w : nat) (n : Z) : String.length (PyStr.zpad w n) = w.
Proof.
  revert n. induction w as [|w IH]; intros n; [done|].
  cbn [PyStr.zpad]. rewrite length_app_string, IH. cbn. lia.
Qed.

Lemma compare_digit (n m : Z) :
  Ascii.compare (PyStr.digit n) (PyStr.digit m)
  = Z.compare (n mod 10) (m mod 10).
Proof.
  unfold Ascii.compare, PyStr.digit.
  pose proof (Z.mod_pos_bound n 10 ltac:(lia)) as Hn.
  pose proof (Z.mod_pos_bound m 10 ltac:(lia)) as Hm.
  rewrite !N_ascii_embedding by lia.
  rewrite <- N2Z.inj_compare, !N2Z.inj_add, !Z2N.id by lia.
  apply Z.add_compare_mono_l.
Qed.

Lemma compare_zpad (w : nat) (n m : Z) :
  (0 ≤ n < 10 ^ Z.of_nat w)%Z → (0 ≤ m < 10 ^ Z.of_nat w)%Z →
  String.compare (PyStr.zpad w n) (PyStr.zpad w m) = Z.compare n m.
Proof.
  revert n m. induction w as [|w IH]; intros n m Hn Hm.
  - cbn in *. assert (n = 0%Z) as -> by lia. by assert (m = 0%Z) as -> by lia.
  - cbn [PyStr.zpad]. rewrite compare_app by (by rewrite !length_zpad).
    rewrite Nat2Z.inj_succ, Z.pow_succ_r in Hn, Hm by lia.
    rewrite IH by (split; [apply Z.div_pos | apply Z.div_lt_upper_bound]; lia).
    cbn [String.compare]. rewrite compare_digit.
    pose proof (Z.div_mod n 10 ltac:(lia)) as En.
    pose proof (Z.div_mod m 10 ltac:(lia)) as Em.
    pose proof (Z.mod_pos_bound n 10 ltac:(lia)) as Bn.
    pose proof (Z.mod_pos_bound m 10 ltac:(lia)) as Bm.
    destruct (Z.compare_spec (n / 10) (m / 10)) as [Hq|Hq|Hq].
    + destruct (Z.compare_spec (n mod 10) (m mod 10)) as [Hr|Hr|Hr];
        symmetry; [apply Z.compare_eq_iff | apply Z.compare_lt_iff
                  | apply Z.compare_gt_iff]; lia.
    + symmetry. apply Z.compare_lt_iff. lia.
    + symmetry. apply Z.compare_gt_iff. lia.
Qed.

Local Open Scope Z_scope.

Lemma compare_sep (c : ascii) (r r' : string) :
  String.compare (String c "" +:+ r) (String c "" +:+ r') = String.compare r r'.
Proof.
  rewrite !string_app_cons. cbn [String.compare].
  unfold Ascii.compare. by rewrite N.compare_refl.
Qed.

Lemma compare_zpad_then (w : nat) (n m : Z) (r r' : string) :
  0 ≤ n < 10 ^ Z.of_nat w → 0 ≤ m < 10 ^ Z.of_nat w →
  String.compare (PyStr.zpad w n +:+ r) (PyStr.zpad w m +:+ r')
  = match n ?= m with
    | Eq => String.compare r r'
    | c => c
    end.
Proof.
  intros Hn Hm. rewrite compare_app by (by rewrite !length_zpad).
  by rewrite compare_zpad.
Qed.

Ltac pow10 :=
  match goal with
  | |- context [10 ^ Z.of_nat ?w] =>
      let v := eval vm_compute in (10 ^ Z.of_nat w) in
      change (10 ^ Z.of_nat w) with v
  end.

Lemma compare_microseconds (u v : Z) :
  0 ≤ u < 1000000 → 0 ≤ v < 1000000 →
  String.compare
    ((if u =? 0 then "" else "." +:+ PyStr.zpad 6 u) +:+ "")
    ((if v =? 0 then "" else "." +:+ PyStr.zpad 6 v) +:+ "")
  = (u ?= v).
Proof.
  intros Hu Hv.
  destruct (Z.eqb_spec u 0) as [->|Hu0], (Z.eqb_spec v 0) as [->|Hv0].
  - done.
  - symmetry. apply Z.compare_lt_iff. lia.
  - symmetry. apply Z.compare_gt_iff. lia.
  - rewrite !string_app_assoc, compare_sep, compare_zpad_then by (pow10; lia).
    by destruct (u ?= v).
Qed.

Lemma days_in_month_le (y m : Z) : Datetime.days_in_month y m ≤ 31.
Proof.
  unfold Datetime.days_in_month. destruct (_ && _); [lia|].
  generalize (Z.to_nat m). intros n.
  do 13 (destruct n as [|n]; [by vm_compute|]). by destruct n.
Qed.

(** The text order of two offset-naive time stamps is the order of their
    fields, read from the year down to the microsecond. *)
Lemma isoformat_compare (a b : datetime) :
  Datetime.fields_ok a → Datetime.fields_ok b →
  dt_utcoffset a = None → dt_utcoffset b = None →
  String.compare (Datetime.isoformat a) (Datetime.isoformat b)
  = match dt_year a ?= dt_year b with
    | Eq =>
        match dt_month a ?= dt_month b with
        | Eq =>
            match dt_day a ?= dt_day b with
            | Eq =>
                match dt_hour a ?= dt_hour b with
                | Eq =>
                    match dt_minute a ?= dt_minute b with
                    | Eq =>
                        match dt_second a ?= dt_second b with
                        | Eq => dt_microsecond a ?= dt_microsecond b
                        | c => c
                        end
                    | c => c
                    end
                | c => c
                end
            | c => c
            end
        | c => c
        end
    | c => c
    end.
Proof.
  intros (Hy & Hm & Hd & Hh & Hmi & Hs & Hu) (Hy' & Hm' & Hd' & Hh' & Hmi' & Hs' & Hu')
    Ha Hb.
  pose proof (days_in_month_le (dt_year a) (dt_month a)) as Hda.
  pose proof (days_in_month_le (dt_year b) (dt_month b)) as Hdb.
  unfold Datetime.isoformat. rewrite Ha, Hb.
  rewrite compare_zpad_then by (pow10; lia).
  rewrite (compare_sep "-").
  rewrite compare_zpad_then by (pow10; lia).
  rewrite (compare_sep "-").
  rewrite compare_zpad_then by (pow10; lia).
  rewrite (compare_sep "T").
  rewrite compare_zpad_then by (pow10; lia).
  rewrite (compare_sep ":").
  rewrite compare_zpad_then by (pow10; lia).
  rewrite (compare_sep ":").
  rewrite compare_zpad_then by (pow10; lia).
  by rewrite compare_microseconds.
Qed.

(* ================================================================== *)
(** * The calendar *)
(* ================================================================== *)

Lemma year_length (y : Z) :
  Datetime.days_before_year (y + 1)
  = Datetime.days_before_year y + 365 + (if Datetime.is_leap y then 1 else 0).
Proof.
  unfold Datetime.days_before_year, Datetime.is_leap.
  replace (y + 1 - 1) with y by lia.
  destruct (Z.eqb_spec (y mod 4) 0), (Z.eqb_spec (y mod 100) 0),
    (Z.eqb_spec (y mod 400) 0); cbn [negb orb andb];
    Z.div_mod_to_equations; lia.
Qed.

Lemma days_before_year_mono (y1 y2 : Z) :
  y1 ≤ y2 → Datetime.days_before_year y1 ≤ Datetime.days_before_year y2.
Proof.
  intros H. unfold Datetime.days_before_year.
  Z.div_mod_to_equations. lia.
Qed.

Ltac month_cases m :=
  let H := fresh "Hm" in
  assert (m = 1 ∨ m = 2 ∨ m = 3 ∨ m = 4 ∨ m = 5 ∨ m = 6 ∨ m = 7 ∨ m = 8
          ∨ m = 9 ∨ m = 10 ∨ m = 11 ∨ m = 12) as H by lia;
  destruct H as [H|[H|[H|[H|[H|[H|[H|[H|[H|[H|[H|H]]]]]]]]]]];
  rewrite H in *.

Ltac month_tables :=
  repeat match goal with
         | |- context [Z.to_nat ?k] =>
             let v := eval vm_compute in (Z.to_nat k) in
             change (Z.to_nat k) with v
         end;
  cbn.

Lemma within_year (y m d : Z) :
  1 ≤ m ≤ 12 → 1 ≤ d ≤ Datetime.days_in_month y m →
  1 ≤ Datetime.days_before_month y m + d
    ≤ 365 + (if Datetime.is_leap y then 1 else 0).
Proof.
  intros Hm. unfold Datetime.days_in_month, Datetime.days_before_month,
    Datetime.DAYS_BEFORE_MONTH.
  destruct (Datetime.is_leap y); month_cases m; month_tables; lia.
Qed.

Lemma month_mono (y m m' d : Z) :
  1 ≤ m → m < m' → m' ≤ 12 → d ≤ Datetime.days_in_month y m →
  Datetime.days_before_month y m + d ≤ Datetime.days_before_month y m'.
Proof.
  intros H1 H2 H3. unfold Datetime.days_in_month, Datetime.days_before_month,
    Datetime.DAYS_BEFORE_MONTH.
  assert (1 ≤ m ≤ 12) as Hm by lia. assert (1 ≤ m' ≤ 12) as Hm' by lia.
  destruct (Datetime.is_leap y); month_cases m; month_cases m'; try lia;
    month_tables; lia.
Qed.

(** Earlier dates have smaller ordinals. *)
Lemma toordinal_lt (a b : datetime) :
  Datetime.fields_ok a → Datetime.fields_ok b →
  dt_year a < dt_year b
  ∨ (dt_year a = dt_year b ∧ dt_month a < dt_month b)
  ∨ (dt_year a = dt_year b ∧ dt_month a = dt_month b ∧ dt_day a < dt_day b) →
  Datetime.toordinal a < Datetime.toordinal b.
Proof.
  intros (Hy & Hm & Hd & _) (Hy' & Hm' & Hd' & _) H.
  unfold Datetime.toordinal.
  destruct H as [H|[[Hyy H]|(Hyy & Hmm & H)]].
  - pose proof (within_year _ _ _ Hm Hd) as Ha.
    pose proof (within_year _ _ _ Hm' Hd') as Hb.
    pose proof (year_length (dt_year a)) as Hlen.
    pose proof (days_before_year_mono (dt_year a + 1) (dt_year b) ltac:(lia)).
    lia.
  - rewrite Hyy in *.
    pose proof (month_mono (dt_year b) (dt_month a) (dt_month b) (dt_day a)
                  ltac:(lia) H ltac:(lia) ltac:(lia)).
    lia.
  - rewrite Hyy, Hmm. lia.
Qed.

(** On well-formed offset-naive time stamps the order of the ISO-8601
    texts is the order in time. *)
Lemma isoformat_lt_chronological (a b : datetime) :
  Datetime.fields_ok a → Datetime.fields_ok b →
  dt_utcoffset a = None → dt_utcoffset b = None →
  PyStr.lt (Datetime.isoformat a) (Datetime.isoformat b) = true
  ↔ Datetime.wall_delta a b < 0.
Proof.
  intros Ha Hb Na Nb. unfold PyStr.lt, String.ltb.
  rewrite (isoformat_compare a b Ha Hb Na Nb).
  pose proof (toordinal_lt a b Ha Hb) as Hab.
  pose proof (toordinal_lt b a Hb Ha) as Hba.
  destruct Ha as (Hy & Hm & Hd & Hh & Hmi & Hs & Hu).
  destruct Hb as (Hy' & Hm' & Hd' & Hh' & Hmi' & Hs' & Hu').
  unfold Datetime.wall_delta.
  destruct (Z.compare_spec (dt_year a) (dt_year b)) as [E1|L1|G1];
    [|split; [intros _|done]; specialize (Hab ltac:(lia)); lia
     |split; [done|]; specialize (Hba ltac:(lia)); lia].
  destruct (Z.compare_spec (dt_month a) (dt_month b)) as [E2|L2|G2];
    [|split; [intros _|done]; specialize (Hab ltac:(lia)); lia
     |split; [done|]; specialize (Hba ltac:(lia)); lia].
  destruct (Z.compare_spec (dt_day a) (dt_day b)) as [E3|L3|G3];
    [|split; [intros _|done]; specialize (Hab ltac:(lia)); lia
     |split; [done|]; specialize (Hba ltac:(lia)); lia].
  assert (Datetime.toordinal a = Datetime.toordinal b) as ->.
  { unfold Datetime.toordinal. by rewrite E1, E2, E3. }
  destruct (Z.compare_spec (dt_hour a) (dt_hour b)) as [E4|L4|G4];
    [|split; [intros _|done]; lia | split; [done|]; lia].
  destruct (Z.compare_spec (dt_minute a) (dt_minute b)) as [E5|L5|G5];
    [|split; [intros _|done]; lia | split; [done|]; lia].
  destruct (Z.compare_spec (dt_second a) (dt_second b)) as [E6|L6|G6];
    [|split; [intros _|done]; lia | split; [done|]; lia].
  destruct (Z.compare_spec (dt_microsecond a) (dt_microsecond b));
    (split; [intros ?|intros ?]; try done; lia).
Qed.

Local Close Scope Z_scope.

(* ================================================================== *)
(** * Properties of the stable sort *)
(* ================================================================== *)

Section sorted_facts.
Context {A K : Type} (before : K → K → bool) (key : A → K).

Lemma insert_by_perm x l : insert_by before key x l ≡ₚ x :: l.
Proof.
  induction l as [|y l IH]; simpl; [done|].
  destruct (before (key y) (key x)); [|done].
  rewrite IH. apply Permutation_swap.
Qed.

Lemma sorted_by_perm l : sorted_by before key l ≡ₚ l.
Proof.
  induction l as [|x l IH]; simpl; [done|].
  by rewrite insert_by_perm, IH.
Qed.

Lemma sorted_by_elem x l : x ∈ sorted_by before key l ↔ x ∈ l.
Proof. by rewrite sorted_by_perm. Qed.

Lemma sorted_by_length l : length (sorted_by before key l) = length l.
Proof. by rewrite sorted_by_perm. Qed.

Hypothesis before_asym : ∀ a b, before a b = true → before b a = false.

Lemma insert_by_HdRel y x l :
  before (key y) (key x) = true → HdRel (in_order before key) y l →
  HdRel (in_order before key) y (insert_by before key x l).
Proof.
  intros Hyx Hhd. destruct l as [|z l]; simpl.
  - constructor. by apply before_asym.
  - destruct (before (key z) (key x)).
    + constructor. by inversion Hhd.
    + constructor. by apply before_asym.
Qed.

Lemma insert_by_sorted x l :
  Sorted (in_order before key) l → Sorted (in_order before key) (insert_by before key x l).
Proof.
  induction 1 as [|y l Hs IH Hhd]; simpl.
  - by repeat constructor.
  - destruct (before (key y) (key x)) eqn:E.
    + constructor; [done|]. by apply insert_by_HdRel.
    + constructor; [by constructor|]. by constructor.
Qed.

Lemma sorted_by_sorted l : Sorted (in_order before key) (sorted_by before key l).
Proof.
  induction l as [|x l IH]; simpl; [constructor|].
  by apply insert_by_sorted.
Qed.
End sorted_facts.

Section stable.
Context {A K : Type} (before : K → K → bool) (key : A → K).
Context (P : A → bool).
Hypothesis same_rank :
  ∀ x y, P x = true → P y = true → before (key y) (key x) = false.

Lemma insert_by_filter x l :
  List.filter P (insert_by before key x l) = List.filter P (x :: l).
Proof.
  induction l as [|y l IH]; [done|].
  cbn [insert_by]. destruct (before (key y) (key x)) eqn:E; [|done].
  cbn [List.filter] in *. rewrite IH.
  destruct (P x) eqn:Px, (P y) eqn:Py; try done.
  by rewrite same_rank in E.
Qed.

(** Elements that the order does not separate keep their input order. *)
Lemma sorted_by_stable l :
  List.filter P (sorted_by before key l) = List.filter P l.
Proof.
  induction l as [|x l IH]; [done|].
  cbn [sorted_by foldr]. rewrite insert_by_filter.
  cbn [List.filter]. by rewrite <- IH.
Qed.
End stable.


Lemma PyStr_lt_asym a b : PyStr.lt a b = true → PyStr.lt b a = false.
Proof.
  unfold PyStr.lt, String.ltb. rewrite (String.compare_antisym a b).
  by destruct (String.compare b a).
Qed.

Lemma PyStr_lt_irrefl a : PyStr.lt a a = false.
Proof.
  destruct (PyStr.lt a a) eqn:E; [|done]. by rewrite (PyStr_lt_asym a a E) in E.
Qed.

Lemma nat_gt_asym (a b : nat) : (b <? a) = true → (a <? b) = false.
Proof. intros H%Nat.ltb_lt. apply Nat.ltb_ge. lia. Qed.

Lemma adjacent_overlap_spec (l : list (string * string)) :
  adjacent_overlap l = true
  ↔ ∃ i p q, l !! i = Some p ∧ l !! S i = Some q ∧ PyStr.lt q.1 p.2 = true.
Proof.
  induction l as [|p [|q l] IH].
  - simpl. split; [done|]. by intros (i & p & q & H & _).
  - simpl. split; [done|]. intros (i & p' & q & _ & H & _). by destruct i.
  - change (adjacent_overlap (p :: q :: l))
      with (PyStr.lt q.1 p.2 || adjacent_overlap (q :: l)).
    rewrite orb_true_iff, IH. split.
    + intros [H|(i & p' & q' & H1 & H2 & H3)].
      * by exists 0, p, q.
      * by exists (S i), p', q'.
    + intros (i & p' & q' & H1 & H2 & H3). destruct i as [|i].
      * injection H1 as <-. injection H2 as <-. by left.
      * right. by exists i, p', q'.
Qed.

(* ================================================================== *)
(** * Properties of the grouping loop *)
(* ================================================================== *)

Lemma dict_set_set {V : Type} (d : list (string * V)) k v v' :
  PyDict.set (PyDict.set d k v) k v' = PyDict.set d k v'.
Proof.
  induction d as [|[k0 v0] d IH]; simpl.
  - by rewrite String.eqb_refl.
  - destruct (String.eqb k0 k) eqn:E; simpl; rewrite E; [done|]. by rewrite IH.
Qed.

Lemma dict_keys_set {V : Type} (d : list (string * V)) k v :
  PyDict.keys (PyDict.set d k v)
  = if PyDict.mem d k then PyDict.keys d else PyDict.keys d ++ [k].
Proof.
  unfold PyDict.mem. destruct (PyDict.get d k) eqn:E.
  - apply dict_keys_set_old. by eexists.
  - by apply dict_keys_set_new.
Qed.

Lemma dict_NoDup_set {V : Type} (d : list (string * V)) k v :
  NoDup (PyDict.keys d) → NoDup (PyDict.keys (PyDict.set d k v)).
Proof.
  intros Hnd. rewrite dict_keys_set. unfold PyDict.mem.
  destruct (PyDict.get d k) eqn:E; [done|].
  apply NoDup_app. split_and!; [done | | apply NoDup_singleton].
  intros k' Hin ->%list_elem_of_singleton. by apply dict_get_None_keys in E.
Qed.

Section grouping_facts.
Context (set_next : gset string → string).

Implicit Types (r : ConditionRecord) (records : list ConditionRecord).

Lemma members_none k records :
  (∀ r, r ∈ records → group_key set_next r ≠ k) →
  members set_next k records = [].
Proof.
  unfold members. induction records as [|r records IH]; simpl; [done|].
  intros H. destruct (String.eqb (group_key set_next r) k) eqn:E.
  - apply String.eqb_eq in E. exfalso. apply (H r); [|done].
    apply elem_of_cons. by left.
  - apply IH. intros r' Hr'. apply H. apply elem_of_cons. by right.
Qed.

Lemma members_snoc k records r :
  members set_next k (records ++ [r])
  = members set_next k records
    ++ (if String.eqb (group_key set_next r) k then [r] else []).
Proof.
  unfold members. rewrite List.filter_app. simpl.
  by destruct (String.eqb (group_key set_next r) k).
Qed.

(** The two dictionaries after one more record. *)
Lemma group_step_groups acc r :
  (group_step set_next acc r).1
  = PyDict.set acc.1 (group_key set_next r)
      (update_group r
         (default (new_group (group_key set_next r) (_canonical_code set_next r).2 r)
            (PyDict.get acc.1 (group_key set_next r)))).
Proof.
  unfold group_step, PyDict.mem, group_key.
  destruct (PyDict.get acc.1 (_canonical_code set_next r).1) eqn:E; simpl.
  - by rewrite E.
  - by rewrite dict_get_set_eq, dict_set_set.
Qed.

Lemma group_step_periods acc r :
  (group_step set_next acc r).2
  = PyDict.set acc.2 (group_key set_next r)
      ((if PyDict.mem acc.1 (group_key set_next r)
        then default [] (PyDict.get acc.2 (group_key set_next r)) else [])
       ++ onset_period r).
Proof.
  unfold group_step, group_key.
  destruct (PyDict.mem acc.1 (_canonical_code set_next r).1); simpl; [done|].
  by rewrite dict_get_set_eq, dict_set_set.
Qed.

Lemma member_periods_snoc k records r :
  member_periods set_next k (records ++ [r])
  = member_periods set_next k records
    ++ (if String.eqb (group_key set_next r) k then onset_period r else []).
Proof.
  unfold member_periods. rewrite members_snoc, map_app, concat_app.
  destruct (String.eqb (group_key set_next r) k); simpl; by rewrite ?app_nil_r.
Qed.

Lemma grouping_invariant records :
  grouping_inv set_next records (foldl (group_step set_next) ([], []) records).
Proof.
  induction records as [|r records IH] using rev_ind.
  - split; simpl.
    + constructor.
    + intros k. split; [by intros [? ?]|].
      intros (r & Hr & _). by apply elem_of_nil in Hr.
    + done.
    + by intros k [? ?].
  - rewrite foldl_snoc. destruct IH as [Hnd Hkeys Hgroup Hper].
    set (acc := foldl (group_step set_next) ([], []) records) in *.
    assert (Hfresh : PyDict.get acc.1 (group_key set_next r) = None →
                     members set_next (group_key set_next r) records = []).
    { intros E. apply members_none. intros r' Hr' Hc.
      assert (is_Some (PyDict.get acc.1 (group_key set_next r))) as [? ?];
        [|congruence].
      apply Hkeys. by exists r'. }
    split.
    + rewrite group_step_groups. by apply dict_NoDup_set.
    + intros k. rewrite group_step_groups, dict_get_set.
      case_decide as Hk.
      * split; [|by eexists]. intros _. exists r. split; [|done].
        apply elem_of_app. right. by apply list_elem_of_singleton.
      * rewrite Hkeys. split.
        -- intros (r' & Hr' & Hc). exists r'. split; [|done].
           apply elem_of_app. by left.
        -- intros (r' & [Hr'|Hr'%list_elem_of_singleton]%elem_of_app & Hc);
             [by exists r'|]. subst r'. done.
    + intros k g. rewrite group_step_groups, dict_get_set.
      rewrite members_snoc, length_app.
      case_decide as Hk.
      * intros [= <-]. subst k. rewrite String.eqb_refl. simpl.
        destruct (PyDict.get acc.1 (group_key set_next r)) as [g0|] eqn:E;
          simpl.
        -- destruct (Hgroup _ _ E) as (-> & -> & ->).
           split_and!; try done; lia.
        -- rewrite (Hfresh eq_refl). done.
      * intros Hg. destruct (Hgroup _ _ Hg) as (-> & -> & ->).
        apply String.eqb_neq in Hk. rewrite Hk. simpl.
        split_and!; try done; lia.
    + intros k. rewrite group_step_groups, group_step_periods, !dict_get_set.
      rewrite member_periods_snoc.
      case_decide as Hk.
      * subst k. intros _. rewrite String.eqb_refl. f_equal. f_equal.
        unfold PyDict.mem.
        destruct (PyDict.get acc.1 (group_key set_next r)) as [g0|] eqn:E.
        -- rewrite Hper by (by eexists). done.
        -- unfold member_periods. by rewrite (Hfresh eq_refl).
      * intros Hs. rewrite Hper by done.
        apply String.eqb_neq in Hk. rewrite Hk. by rewrite app_nil_r.
Qed.
End grouping_facts.

Section grouping_output.
Context (set_next : gset string → string).
Implicit Types (r : ConditionRecord) (records : list ConditionRecord)
  (g : ConditionGroup).

Lemma flag_overlap_code periods kg :
  canonical_code (flag_overlap periods kg) = canonical_code kg.2.
Proof. unfold flag_overlap. by destruct (_ && _). Qed.

Lemma flag_overlap_count periods kg :
  encounter_count (flag_overlap periods kg) = encounter_count kg.2.
Proof. unfold flag_overlap. by destruct (_ && _). Qed.

Lemma flag_overlap_flag periods kg :
  has_overlapping_dates (flag_overlap periods kg)
  = ((2 <=? length (default [] (PyDict.get periods kg.1)))
     && _detect_overlapping_onset_periods
          (default [] (PyDict.get periods kg.1)))
    || has_overlapping_dates kg.2.
Proof. unfold flag_overlap. by destruct (_ && _). Qed.

(** The groups returned are the groups of the loop, each one flagged or
    not by the second loop. *)
Lemma group_by_elem records g :
  g ∈ group_by_canonical_code set_next records
  ↔ ∃ k g0,
      PyDict.get (foldl (group_step set_next) ([], []) records).1 k = Some g0
      ∧ g = flag_overlap
              (foldl (group_step set_next) ([], []) records).2 (k, g0).
Proof.
  unfold group_by_canonical_code. rewrite sorted_by_elem.
  pose proof (grouping_invariant set_next records) as [Hnd _ _ _].
  rewrite list_elem_of_fmap. split.
  - intros ([k g0] & -> & Hin). exists k, g0. split; [|done].
    by apply dict_elem_get.
  - intros (k & g0 & Hget & ->). exists (k, g0). split; [done|].
    by apply dict_get_Some_elem.
Qed.

Lemma group_by_spec records g :
  g ∈ group_by_canonical_code set_next records →
  (∃ r, r ∈ records ∧ group_key set_next r = canonical_code g)
  ∧ encounter_count g
    = length (members set_next (canonical_code g) records)
  ∧ has_overlapping_dates g
    = (2 <=? length (member_periods set_next (canonical_code g) records))
      && _detect_overlapping_onset_periods
           (member_periods set_next (canonical_code g) records).
Proof.
  intros (k & g0 & Hget & ->)%group_by_elem.
  pose proof (grouping_invariant set_next records) as [_ Hkeys Hgroup Hper].
  destruct (Hgroup _ _ Hget) as (Hc & Hf & Hn).
  rewrite flag_overlap_code, flag_overlap_count, flag_overlap_flag. simpl.
  rewrite Hc, Hf, Hn, Hper by (by eexists). simpl.
  split_and!; [|done|by rewrite orb_false_r].
  apply Hkeys. by eexists.
Qed.

Lemma group_by_exists records r :
  r ∈ records →
  ∃ g, g ∈ group_by_canonical_code set_next records
       ∧ canonical_code g = group_key set_next r.
Proof.
  intros Hr.
  pose proof (grouping_invariant set_next records) as [_ Hkeys Hgroup _].
  destruct (proj2 (Hkeys (group_key set_next r))) as [g0 Hget];
    [by exists r|].
  eexists. split.
  - apply group_by_elem. by exists (group_key set_next r), g0.
  - rewrite flag_overlap_code. simpl. by apply Hgroup.
Qed.

Lemma group_by_codes_NoDup records :
  NoDup (map canonical_code (group_by_canonical_code set_next records)).
Proof.
  unfold group_by_canonical_code.
  rewrite (Permutation_map canonical_code (sorted_by_perm _ _ _)).
  pose proof (grouping_invariant set_next records) as [Hnd _ Hgroup _].
  rewrite map_map.
  erewrite map_ext_in; [exact Hnd|].
  intros [k g0] Hin%list_elem_of_In. rewrite flag_overlap_code. simpl.
  apply Hgroup. by apply dict_elem_get.
Qed.
End grouping_output.

(* ================================================================== *)
(** * Claims about retrieval and grouping *)
(* ================================================================== *)

Section retrieval_claims.
Context (set_next : gset string → string).
Hypothesis set_next_elem : ∀ s : gset string, s ≠ ∅ → set_next s ∈ s.

Lemma set_next_singleton (x : string) : set_next {[x]} = x.
Proof.
  assert (set_next {[x]} ∈ ({[x]} : gset string)) as H.
  { apply set_next_elem, non_empty_singleton_L. }
  by apply elem_of_singleton in H.
Qed.

(** C5. The canonical code of a record is a code of its ICD-10 set when
    that set is not empty, else a code of its SNOMED set, else a code of
    its ICD-9 set, else its lower-cased display name, with the matching
    system label; the IMO codes play no part.  Grouping files each record
    under its canonical code: every record has a group with that code,
    every group has the code of one of the records, and no two groups
    share a code. *)
Theorem C5_canonical_code_priority :
  (∀ r : ConditionRecord,
     (icd10_codes r ≠ ∅ →
      (_canonical_code set_next r).1 ∈ icd10_codes r
      ∧ (_canonical_code set_next r).2 = "ICD-10")
     ∧ (icd10_codes r = ∅ → snomed_codes r ≠ ∅ →
        (_canonical_code set_next r).1 ∈ snomed_codes r
        ∧ (_canonical_code set_next r).2 = "SNOMED")
     ∧ (icd10_codes r = ∅ → snomed_codes r = ∅ → icd9_codes r ≠ ∅ →
        (_canonical_code set_next r).1 ∈ icd9_codes r
        ∧ (_canonical_code set_next r).2 = "ICD-9")
     ∧ (icd10_codes r = ∅ → snomed_codes r = ∅ → icd9_codes r = ∅ →
        _canonical_code set_next r
        = (PyStr.lower (display_name r), "text")))
  ∧ (∀ (records : list ConditionRecord) (r : ConditionRecord),
       r ∈ records →
       ∃ g, g ∈ group_by_canonical_code set_next records
            ∧ canonical_code g = (_canonical_code set_next r).1)
  ∧ (∀ (records : list ConditionRecord) (g : ConditionGroup),
       g ∈ group_by_canonical_code set_next records →
       ∃ r, r ∈ records ∧ canonical_code g = (_canonical_code set_next r).1)
  ∧ (∀ records : list ConditionRecord,
       NoDup (map canonical_code (group_by_canonical_code set_next records))).
Proof.
  split_and!.
  - intros r. unfold _canonical_code. split_and!.
    + intros H. rewrite bool_decide_eq_true_2 by done. simpl. auto.
    + intros -> H. rewrite bool_decide_eq_false_2 by (by intros []).
      rewrite bool_decide_eq_true_2 by done. simpl. auto.
    + intros -> -> H. rewrite !bool_decide_eq_false_2 by (by intros []).
      rewrite bool_decide_eq_true_2 by done. simpl. auto.
    + intros -> -> ->. by rewrite !bool_decide_eq_false_2 by (by intros []).
  - intros records r Hr. by apply group_by_exists.
  - intros records g Hg. destruct (group_by_spec _ _ _ Hg) as ((r & ? & ?) & _).
    by exists r.
  - apply group_by_codes_NoDup.
Qed.

End retrieval_claims.

Lemma set_first_elem (s : gset string) : s ≠ ∅ → set_first s ∈ s.
Proof.
  intros Hs. unfold set_first.
  destruct (elements s) as [|x l] eqn:E.
  - by apply elements_empty_inv, leibniz_equiv in E.
  - simpl. apply elem_of_elements. rewrite E. apply elem_of_cons. by left.
Qed.

Lemma C5_canonical_code_priority_witness :
  (_canonical_code set_first Sample.asthma_again).1 ∈ ({["J45.909"]} : gset string)
  ∧ _canonical_code set_first Sample.chest_pain = ("chest pain", "text").
Proof.
  destruct (C5_canonical_code_priority set_first set_first_elem) as (H & _).
  split.
  - destruct (H Sample.asthma_again) as (H1 & _).
    destruct H1 as [H1 _];
      [apply (non_empty_singleton_L (C:=gset string) "J45.909") | exact H1].
  - destruct (H Sample.chest_pain) as (_ & _ & _ & H4).
    apply H4; reflexivity.
Defined.

(* ================================================================== *)
(** * The order of the onset periods *)
(* ================================================================== *)

Lemma complete_periods_elem (rs : list ConditionRecord) (s e : datetime) :
  (s, e) ∈ complete_periods rs
  ↔ ∃ r, r ∈ rs ∧ onset_start r = Some s ∧ onset_end r = Some e.
Proof.
  unfold complete_periods. rewrite list_elem_of_omap.
  split; intros (r & Hr & H); exists r; (split; [done|]).
  - destruct (onset_start r), (onset_end r); try done. by injection H as -> ->.
  - destruct H as [-> ->]. done.
Qed.

(** The periods that the loop files under a key are the texts of the
    complete periods of the members. *)
Lemma member_periods_complete (set_next : gset string → string) k records :
  member_periods set_next k records
  = map period_text (complete_periods (members set_next k records)).
Proof.
  unfold member_periods, complete_periods.
  induction (members set_next k records) as [|r ms IH]; [done|].
  cbn [map concat omap list_omap]. rewrite IH. unfold onset_period.
  by destruct (onset_start r), (onset_end r).
Qed.

Lemma adjacent_overlap_generic (l : list (string * string)) :
  adjacent_overlap l = starts_before_previous_end PyStr.lt l.
Proof.
  induction l as [|p [|q l] IH]; [done|done|].
  change (adjacent_overlap (p :: q :: l))
    with (PyStr.lt q.1 p.2 || adjacent_overlap (q :: l)).
  by rewrite IH.
Qed.

(** On well-formed offset-naive dates the order of the texts is the order
    in time. *)
Lemma earlier_text (a b : datetime) :
  naive_ok a → naive_ok b →
  PyStr.lt (Datetime.isoformat a) (Datetime.isoformat b) = earlier a b.
Proof.
  intros [Ha Na] [Hb Nb].
  pose proof (isoformat_lt_chronological a b Ha Hb Na Nb) as H.
  unfold earlier, Datetime.sub. rewrite Na, Nb.
  destruct (PyStr.lt _ _).
  - symmetry. apply Z.ltb_lt. by apply H.
  - symmetry. apply Z.ltb_ge. destruct (Z.lt_ge_cases (Datetime.wall_delta a b) 0) as [Hlt|Hge];
      [by apply H in Hlt | done].
Qed.

Section sorted_map.
Context {A B K K' : Type} (f : A → B).
Context (before : K → K → bool) (key : A → K).
Context (before' : K' → K' → bool) (key' : B → K').
Context (P : A → Prop).
Hypothesis agree :
  ∀ x y, P x → P y → before' (key' (f x)) (key' (f y)) = before (key x) (key y).

Lemma insert_by_map x l :
  P x → Forall P l →
  insert_by before' key' (f x) (map f l) = map f (insert_by before key x l).
Proof.
  intros Hx Hl. induction Hl as [|y l Hy Hl IH]; [done|].
  cbn [map insert_by]. rewrite (agree y x Hy Hx).
  destruct (before (key y) (key x)); cbn [map]; [by rewrite IH | done].
Qed.

Lemma sorted_by_map l :
  Forall P l →
  sorted_by before' key' (map f l) = map f (sorted_by before key l).
Proof.
  induction 1 as [|x l Hx Hl IH]; [done|].
  cbn [map sorted_by foldr].
  change (foldr (insert_by before' key') [] (map f l))
    with (sorted_by before' key' (map f l)).
  change (foldr (insert_by before key) [] l) with (sorted_by before key l).
  rewrite IH. apply insert_by_map; [done|].
  by rewrite (sorted_by_perm before key l).
Qed.
End sorted_map.

Lemma starts_map (l : list (datetime * datetime)) :
  Forall (fun p => naive_ok p.1 ∧ naive_ok p.2) l →
  starts_before_previous_end PyStr.lt (map period_text l)
  = starts_before_previous_end earlier l.
Proof.
  induction 1 as [|p l Hp Hl IH]; [done|].
  destruct Hl as [|q l Hq Hl]; [done|].
  change (starts_before_previous_end PyStr.lt
            (map period_text (p :: q :: l)))
    with (PyStr.lt (period_text q).1 (period_text p).2
          || starts_before_previous_end PyStr.lt (map period_text (q :: l))).
  change (starts_before_previous_end earlier (p :: q :: l))
    with (earlier q.1 p.2 || starts_before_previous_end earlier (q :: l)).
  rewrite IH. unfold period_text at 1 2. cbn [fst snd].
  by rewrite (earlier_text q.1 p.2) by (by destruct Hp, Hq).
Qed.

Section overlap_claim.
Context (set_next : gset string → string).
Hypothesis set_next_elem : ∀ s : gset string, s ≠ ∅ → set_next s ∈ s.

(** C4. A group is flagged [has_overlapping_dates] exactly when at least
    two of its member records have both an onset start and an onset end
    and, once the (start, end) pairs of those records are sorted by start,
    some pair starts strictly before the end of the pair just before it;
    with fewer than two such pairs the group is never flagged.  The code
    sorts and compares the ISO-8601 texts of the dates: the sort is a
    stable sort on the text of the start, so the sorted list is a
    rearrangement of the pairs in which no start is greater than the next
    one and pairs with the same start keep their input order.  When the
    dates of the pairs are well-formed and offset-naive, the order of the
    texts is the order in time, and the flag is the overlap test with the
    pairs sorted and compared in time.  Two records coded ICD-10 J45.909
    with onsets 2020-01-01 to 2020-06-01 and 2020-03-01 to 2020-09-01 give
    one group with [encounter_count] 2 and the flag set. *)
Theorem C4_overlap_detection :
  (∀ (records : list ConditionRecord) (g : ConditionGroup),
     g ∈ group_by_canonical_code set_next records →
     let ms := members set_next (canonical_code g) records in
     let texts := map period_text (complete_periods ms) in
     (∀ s e, (s, e) ∈ complete_periods ms
             ↔ ∃ r, r ∈ ms ∧ onset_start r = Some s ∧ onset_end r = Some e)
     ∧ (has_overlapping_dates g = true
        ↔ 2 ≤ length (complete_periods ms)
          ∧ ∃ i p q,
              sorted_by PyStr.lt fst texts !! i = Some p
              ∧ sorted_by PyStr.lt fst texts !! S i = Some q
              ∧ PyStr.lt q.1 p.2 = true)
     ∧ (length (complete_periods ms) < 2 → has_overlapping_dates g = false)
     ∧ sorted_by PyStr.lt fst texts ≡ₚ texts
     ∧ Sorted (fun p q : string * string => PyStr.lt q.1 p.1 = false)
         (sorted_by PyStr.lt fst texts)
     ∧ (∀ start : string,
          List.filter (fun p : string * string => String.eqb p.1 start)
            (sorted_by PyStr.lt fst texts)
          = List.filter (fun p : string * string => String.eqb p.1 start)
              texts)
     ∧ (Forall (fun p => naive_ok p.1 ∧ naive_ok p.2) (complete_periods ms) →
        has_overlapping_dates g = overlap_in_time ms))
  ∧ (∀ a b : datetime,
       Datetime.fields_ok a → Datetime.fields_ok b →
       dt_utcoffset a = None → dt_utcoffset b = None →
       PyStr.lt (Datetime.isoformat a) (Datetime.isoformat b) = true
       ↔ ∃ d, Datetime.sub a b = Ok d ∧ (d < 0)%Z)
  ∧ (∀ r1 r2 : ConditionRecord,
       icd10_codes r1 = {["J45.909"]} →
       icd10_codes r2 = {["J45.909"]} →
       onset_start r1 = Some (mkDatetime 2020 1 1 0 0 0 0 None) →
       onset_end r1 = Some (mkDatetime 2020 6 1 0 0 0 0 None) →
       onset_start r2 = Some (mkDatetime 2020 3 1 0 0 0 0 None) →
       onset_end r2 = Some (mkDatetime 2020 9 1 0 0 0 0 None) →
       ∃ g, group_by_canonical_code set_next [r1; r2] = [g]
            ∧ canonical_code g = "J45.909"
            ∧ encounter_count g = 2
            ∧ has_overlapping_dates g = true).
Proof.
  split_and!.
  - intros records g Hg ms texts.
    destruct (group_by_spec _ _ _ Hg) as (_ & _ & Hflag).
    rewrite member_periods_complete in Hflag. fold ms in Hflag.
    fold texts in Hflag. rewrite Hflag.
    unfold _detect_overlapping_onset_periods.
    assert (Hlen : length texts = length (complete_periods ms)).
    { unfold texts. by rewrite length_map. }
    rewrite Hlen.
    split; [intros s e; apply complete_periods_elem|].
    split; [|split; [|split; [|split; [|split]]]].
    + rewrite andb_true_iff, Nat.leb_le, adjacent_overlap_spec. done.
    + intros Hlt. apply andb_false_iff. left. apply Nat.leb_gt. lia.
    + apply sorted_by_perm.
    + apply (sorted_by_sorted PyStr.lt fst), PyStr_lt_asym.
    + intros start. apply sorted_by_stable.
      intros x y Hx%String.eqb_eq Hy%String.eqb_eq.
      rewrite Hx, Hy. apply PyStr_lt_irrefl.
    + intros Hnaive. unfold overlap_in_time. f_equal.
      rewrite adjacent_overlap_generic. unfold texts.
      rewrite (sorted_by_map period_text earlier fst PyStr.lt fst
                 (fun p => naive_ok p.1 ∧ naive_ok p.2)).
      * apply starts_map.
        by rewrite (sorted_by_perm earlier fst (complete_periods ms)).
      * intros x y [Hx _] [Hy _]. by apply earlier_text.
      * done.
  - intros a b Ha Hb Na Nb.
    rewrite (isoformat_lt_chronological a b Ha Hb Na Nb).
    unfold Datetime.sub. rewrite Na, Nb. split.
    + intros Hlt. by eexists.
    + by intros (d & [= <-] & Hlt).
  - intros r1 r2 Hc1 Hc2 Hs1 He1 Hs2 He2.
    assert (H1 : _canonical_code set_next r1 = ("J45.909", "ICD-10")).
    { unfold _canonical_code. rewrite Hc1, (set_next_singleton set_next set_next_elem).
      rewrite bool_decide_eq_true_2; [done|]. apply non_empty_singleton_L. }
    assert (H2 : _canonical_code set_next r2 = ("J45.909", "ICD-10")).
    { unfold _canonical_code. rewrite Hc2, (set_next_singleton set_next set_next_elem).
      rewrite bool_decide_eq_true_2; [done|]. apply non_empty_singleton_L. }
    unfold group_by_canonical_code. cbn [foldl].
    rewrite !group_step_groups, !group_step_periods.
    unfold group_key. rewrite H1, H2.
    cbn [fst snd PyDict.get PyDict.set PyDict.mem].
    rewrite !String.eqb_refl.
    cbn [fst snd PyDict.get PyDict.set PyDict.mem from_option].
    rewrite ?String.eqb_refl.
    rewrite group_step_groups. unfold group_key. rewrite H1.
    cbn [fst snd PyDict.get PyDict.set PyDict.mem from_option].
    rewrite ?String.eqb_refl. unfold Datatypes.id.
    unfold onset_period. rewrite Hs1, He1, Hs2, He2.
    cbn [map app sorted_by foldr insert_by].
    eexists. split; [reflexivity|].
    rewrite flag_overlap_code, flag_overlap_count, flag_overlap_flag.
    cbn [fst snd PyDict.get from_option]. rewrite String.eqb_refl.
    split_and!; [reflexivity | reflexivity |].
    apply orb_true_iff. left. by vm_compute.
Qed.
End overlap_claim.

(** Read in time, the claim fails for dates that carry different UTC
    offsets, which the texts of an onset period may do.  The period from
    09:00 to 11:00 at UTC-5 begins four hours after the period from 00:00
    to 10:00 at UTC has ended, and the group is flagged; the period from
    12:00 to 15:00 at UTC+5 begins three hours before that period ends,
    and the group is not flagged. *)
Lemma C4_text_order_is_not_time_order :
  (∃ g, group_by_canonical_code set_first [asthma_utc; asthma_utc_minus_5]
        = [g]
        ∧ has_overlapping_dates g = true
        ∧ overlap_in_time
            (members set_first (canonical_code g)
               [asthma_utc; asthma_utc_minus_5]) = false)
  ∧ (∃ g, group_by_canonical_code set_first [asthma_utc; asthma_utc_plus_5]
          = [g]
          ∧ has_overlapping_dates g = false
          ∧ overlap_in_time
              (members set_first (canonical_code g)
                 [asthma_utc; asthma_utc_plus_5]) = true)
  ∧ Datetime.sub (mkDatetime 2020 1 1 9 0 0 0 (Some (-5 * 3600000000)%Z))
      (mkDatetime 2020 1 1 10 0 0 0 (Some 0%Z))
    = Ok (4 * 3600000000)%Z
  ∧ Datetime.sub (mkDatetime 2020 1 1 12 0 0 0 (Some (5 * 3600000000)%Z))
      (mkDatetime 2020 1 1 10 0 0 0 (Some 0%Z))
    = Ok (-3 * 3600000000)%Z.
Proof.
  split_and!.
  - eexists. split; [vm_compute; reflexivity|].
    split; vm_compute; reflexivity.
  - eexists. split; [vm_compute; reflexivity|].
    split; vm_compute; reflexivity.
  - vm_compute. reflexivity.
  - vm_compute. reflexivity.
Qed.

Lemma C4_overlap_detection_witness :
  ∃ g, group_by_canonical_code set_first
         [Sample.asthma_january; Sample.asthma_march] = [g]
       ∧ encounter_count g = 2
       ∧ has_overlapping_dates g = true
       ∧ 2 ≤ length (complete_periods
                       (members set_first (canonical_code g)
                          [Sample.asthma_january; Sample.asthma_march])).
Proof.
  destruct (C4_overlap_detection set_first set_first_elem)
    as (Hgen & _ & Hex).
  destruct (Hex Sample.asthma_january Sample.asthma_march)
    as (g & Hg & Hc & Hn & Hf); [reflexivity..|].
  exists g. split_and!; [exact Hg | exact Hn | exact Hf |].
  pose proof (Hgen [Sample.asthma_january; Sample.asthma_march] g) as H.
  cbn zeta in H. destruct H as (_ & Hiff & _).
  - rewrite Hg. apply list_elem_of_singleton. reflexivity.
  - apply Hiff in Hf as [Hlen _]. exact Hlen.
Defined.

(* ================================================================== *)
(** * Properties of record building *)
(* ================================================================== *)

Lemma required_str_missing (d : list (string * json)) k :
  PyDict.get d k = None → Pydantic.required_str d k = Raise ValidationError.
Proof. unfold Pydantic.required_str. by intros ->. Qed.

Lemma model_validate_no_id raw :
  PyDict.get raw "id" = None →
  Pydantic.model_validate raw = Raise ValidationError.
Proof.
  intros H. unfold Pydantic.model_validate.
  destruct (Pydantic.default_str raw "resourceType" "Condition") as [rt|[]] eqn:E;
    simpl; [|done|].
  - by rewrite required_str_missing.
  - unfold Pydantic.default_str in E.
    destruct (PyDict.get raw "resourceType") as [[]|]; discriminate.
Qed.

(** A record is built from a valid condition by the helper functions. *)
Lemma build_ok (fromisoformat : string → option datetime) raw n r :
  build_condition_record fromisoformat raw n = Ok r →
  ∃ c,
    Pydantic.model_validate raw = Ok c
    ∧ fhir_condition r = c
    ∧ resource_id r = id c
    ∧ normalized_status r = _normalize_clinical_status c
    ∧ onset_start r = (_parse_onset_dates fromisoformat c).1
    ∧ onset_end r = (_parse_onset_dates fromisoformat c).2
    ∧ is_removed r = false
    ∧ _detect_quality_flags c (_extract_codes_by_system c)
        (normalized_status r) (onset_start r) (onset_end r)
      = Ok (quality_flags r).
Proof.
  unfold build_condition_record.
  destruct (Pydantic.model_validate raw) as [c|e]; simpl; [|done].
  destruct (_detect_quality_flags _ _ _ _ _) as [fl|e] eqn:E; simpl; [|done].
  intros [= <-]. exists c. simpl. by split_and!.
Qed.

Lemma detect_flags_shape c code_sets ns os oe fl :
  _detect_quality_flags c code_sets ns os oe = Ok fl →
  ∃ b3 b4 : bool,
    fl = flag_if (bool_decide (clinicalStatus c = None))
           "missing_clinical_status"
         ++ flag_if (status_mismatch ns oe) "inconsistent_status"
         ++ flag_if b3 "admin_code"
         ++ flag_if b4 "vague_entry"
         ++ flag_if (lasts_under_a_day os oe) "short_duration"
         ++ flag_if (bool_decide (default ∅ (code_sets !! ICD10_SYSTEM) = ∅))
              "missing_icd10".
Proof.
  unfold _detect_quality_flags, status_mismatch, lasts_under_a_day.
  intros H.
  exists (any_in ADMIN_CODE_INDICATORS (_build_searchable_text c)),
         (any_in VAGUE_ENTRY_KEYWORDS (_build_searchable_text c)).
  revert H.
  destruct (clinicalStatus c), (ns =? "active")%string,
    (ns =? "resolved")%string, os as [s|], oe as [e|];
    try destruct (Datetime.sub e s) as [d|err]; simpl;
    try discriminate; intros [= <-];
    rewrite ?bool_decide_eq_true_2 by (by eexists);
    rewrite ?bool_decide_eq_false_2 by (by intros [? ?]);
    try done.
Qed.

Lemma elem_of_flag_if (x flag : string) b :
  x ∈ flag_if b flag ↔ b = true ∧ x = flag.
Proof.
  destruct b; simpl.
  - rewrite list_elem_of_singleton. split; [by intros -> | by intros [_ ->]].
  - split; [by intros ?%elem_of_nil | by intros [? _]].
Qed.

(* ================================================================== *)
(** * Claims about record building *)
(* ================================================================== *)

(** C3, as the specification states it, fails: a clinical status that the
    synonym table does not list is kept as it is (trimmed and lower-cased),
    so ["Inactive"] gives the normalized status ["inactive"], which is none
    of [active], [resolved], [unknown]. *)
Lemma C3_status_not_always_known :
  ¬ (∀ (fromisoformat : string → option datetime)
       (raw : list (string * json)) (n : Z) (r : ConditionRecord),
       build_condition_record fromisoformat raw n = Ok r →
       normalized_status r = "active" ∨ normalized_status r = "resolved"
       ∨ normalized_status r = "unknown").
Proof.
  intros H.
  destruct (build_condition_record IsoBasic.parse Sample.raw_inactive 1)
    as [r|e] eqn:E; [|by vm_compute in E].
  assert (Hns : normalized_status r = "inactive").
  { vm_compute in E. by injection E as <-. }
  destruct (H IsoBasic.parse Sample.raw_inactive 1%Z r E) as [H1|[H1|H1]];
    rewrite Hns in H1; discriminate H1.
Qed.

Section build_claims.
Context (fromisoformat : string → option datetime).

(** C3 (amended). The normalized status of a built record is the text of
    the clinical status, trimmed and lower-cased, and then: [active] when
    that text is ["active"] or ["active (qualifier value)"], [resolved]
    when it is ["resolved"], [unknown] when it is empty or when the
    condition has no clinical status, and the trimmed lower-cased text
    itself in every other case.  In particular
    ["Active (Qualifier value)"] gives [active]. *)
Theorem C3_status_normalization
  (raw : list (string * json)) (n : Z) (r : ConditionRecord) :
  build_condition_record fromisoformat raw n = Ok r →
  Pydantic.model_validate raw = Ok (fhir_condition r)
  ∧ (clinicalStatus (fhir_condition r) = None →
     normalized_status r = "unknown")
  ∧ (∀ cs, clinicalStatus (fhir_condition r) = Some cs →
       ((PyStr.lower (PyStr.strip (default "" (concept_text cs))) = "active"
         ∨ PyStr.lower (PyStr.strip (default "" (concept_text cs)))
           = "active (qualifier value)") →
        normalized_status r = "active")
       ∧ (PyStr.lower (PyStr.strip (default "" (concept_text cs)))
          = "resolved" →
          normalized_status r = "resolved")
       ∧ (PyStr.lower (PyStr.strip (default "" (concept_text cs))) = "" →
          normalized_status r = "unknown")
       ∧ (PyStr.lower (PyStr.strip (default "" (concept_text cs)))
          ∉ ["active"; "active (qualifier value)"; "resolved"; ""] →
          normalized_status r
          = PyStr.lower (PyStr.strip (default "" (concept_text cs))))
       ∧ (concept_text cs = Some "Active (Qualifier value)" →
          normalized_status r = "active")).
Proof.
  intros (c & Hv & Hc & _ & Hns & _)%build_ok. subst c.
  rewrite Hns. unfold _normalize_clinical_status.
  split_and!; [done | by intros -> |].
  intros cs ->.
  set (t := PyStr.lower (PyStr.strip (default "" (concept_text cs)))).
  split_and!.
  - by intros [-> | ->].
  - by intros ->.
  - by intros ->.
  - intros Hn.
    assert (PyDict.get CLINICAL_STATUS_NORMALIZATION t = None) as ->.
    { apply dict_get_None_keys. intros Hin. apply Hn.
      simpl in Hin. rewrite !elem_of_cons in Hin. rewrite !elem_of_cons.
      tauto. }
    destruct (String.eqb_spec t ""); [|done].
    exfalso. apply Hn. rewrite !elem_of_cons. tauto.
  - subst t. by intros ->.
Qed.

(** C6. In the flags of a built record, [inconsistent_status] is present
    exactly when the normalized status is [active] and an end date was
    parsed, or the status is [resolved] and there is no end date;
    [short_duration] is present exactly when both onset dates are there
    and the end lies after the start by less than 24 hours (more than 0
    and fewer than 86400 seconds, counted in microseconds).  A difference
    of 3600 seconds is flagged, one of 90000 seconds is not.  No flag
    occurs twice. *)
Theorem C6_quality_flags
  (raw : list (string * json)) (n : Z) (r : ConditionRecord) :
  build_condition_record fromisoformat raw n = Ok r →
  ("inconsistent_status" ∈ quality_flags r
   ↔ (normalized_status r = "active" ∧ is_Some (onset_end r))
     ∨ (normalized_status r = "resolved" ∧ onset_end r = None))
  ∧ ("short_duration" ∈ quality_flags r
     ↔ ∃ s e d, onset_start r = Some s ∧ onset_end r = Some e
                ∧ Datetime.sub e s = Ok d
                ∧ (0 < d < 86400 * 1000000)%Z)
  ∧ (∀ s e, onset_start r = Some s → onset_end r = Some e →
            Datetime.sub e s = Ok (3600 * 1000000)%Z →
            "short_duration" ∈ quality_flags r)
  ∧ (∀ s e, onset_start r = Some s → onset_end r = Some e →
            Datetime.sub e s = Ok (90000 * 1000000)%Z →
            "short_duration" ∉ quality_flags r)
  ∧ NoDup (quality_flags r).
Proof.
  intros (c & _ & _ & _ & _ & _ & _ & _ & Hfl)%build_ok.
  apply detect_flags_shape in Hfl as (b3 & b4 & Hfl).
  assert (Hinc : "inconsistent_status" ∈ quality_flags r
                 ↔ status_mismatch (normalized_status r) (onset_end r) = true).
  { rewrite Hfl, !elem_of_app, !elem_of_flag_if. split.
    - intros [[_ [=]]|[[? _]|[[_ [=]]|[[_ [=]]|[[_ [=]]|[_ [=]]]]]]]. done.
    - intros ?. right. left. done. }
  assert (Hshort : "short_duration" ∈ quality_flags r
                   ↔ lasts_under_a_day (onset_start r) (onset_end r) = true).
  { rewrite Hfl, !elem_of_app, !elem_of_flag_if. split.
    - intros [[_ [=]]|[[_ [=]]|[[_ [=]]|[[_ [=]]|[[? _]|[_ [=]]]]]]]. done.
    - intros ?. do 4 right. left. done. }
  assert (Hday : lasts_under_a_day (onset_start r) (onset_end r) = true
                 ↔ ∃ s e d, onset_start r = Some s ∧ onset_end r = Some e
                            ∧ Datetime.sub e s = Ok d
                            ∧ (0 < d < 86400 * 1000000)%Z).
  { unfold lasts_under_a_day. split.
    - destruct (onset_start r) as [s|]; [|done].
      destruct (onset_end r) as [e|]; [|done].
      destruct (Datetime.sub e s) as [d|] eqn:Hd; [|done].
      intros [H1%Z.ltb_lt H2%Z.ltb_lt]%andb_true_iff.
      exists s, e, d. by split_and!.
    - intros (s & e & d & -> & -> & -> & H1 & H2).
      apply andb_true_iff. split; by apply Z.ltb_lt. }
  split_and!.
  - rewrite Hinc. unfold status_mismatch.
    rewrite orb_true_iff, !andb_true_iff, negb_true_iff, String.eqb_eq,
      String.eqb_eq, bool_decide_eq_true, bool_decide_eq_false.
    rewrite <- eq_None_not_Some. done.
  - by rewrite Hshort.
  - intros s e Hs He Hd. rewrite Hshort, Hday.
    exists s, e, (3600 * 1000000)%Z.
    split_and!; [done | done | exact Hd | lia | lia].
  - intros s e Hs He Hd. rewrite Hshort, Hday.
    intros (s' & e' & d & Hs' & He' & Hd' & H1 & H2).
    rewrite Hs in Hs'. rewrite He in He'.
    injection Hs' as <-. injection He' as <-. rewrite Hd in Hd'.
    injection Hd' as <-. lia.
  - rewrite Hfl. unfold flag_if.
    destruct (bool_decide _), (status_mismatch _ _), b3, b4,
      (lasts_under_a_day _ _), (bool_decide _);
      simpl; apply (bool_decide_unpack _); vm_compute; exact I.
Qed.
End build_claims.

Lemma C3_status_normalization_witness :
  build_condition_record IsoBasic.parse Sample.raw_active 1
  = Ok (Sample.built Sample.raw_active)
  ∧ normalized_status (Sample.built Sample.raw_active) = "active".
Proof.
  assert (E : build_condition_record IsoBasic.parse Sample.raw_active 1
              = Ok (Sample.built Sample.raw_active))
    by (vm_compute; reflexivity).
  split; [exact E|].
  destruct (C3_status_normalization IsoBasic.parse _ _ _ E) as (_ & _ & H).
  destruct (H (mkFhirCodeableConcept (Some "Active (Qualifier value)") []))
    as (_ & _ & _ & _ & H5); [vm_compute; reflexivity|].
  apply H5. reflexivity.
Defined.

Lemma C6_quality_flags_witness :
  build_condition_record IsoBasic.parse Sample.raw_one_hour 1
  = Ok (Sample.built Sample.raw_one_hour)
  ∧ "short_duration" ∈ quality_flags (Sample.built Sample.raw_one_hour)
  ∧ "inconsistent_status" ∈ quality_flags (Sample.built Sample.raw_one_hour).
Proof.
  assert (E : build_condition_record IsoBasic.parse Sample.raw_one_hour 1
              = Ok (Sample.built Sample.raw_one_hour))
    by (vm_compute; reflexivity).
  split; [exact E|].
  destruct (C6_quality_flags IsoBasic.parse _ _ _ E) as (H1 & _ & H3 & _).
  split.
  - apply (H3 (mkDatetime 2021 3 4 10 0 0 0 None)
              (mkDatetime 2021 3 4 11 0 0 0 None));
      vm_compute; reflexivity.
  - apply H1. left. split; [vm_compute; reflexivity|].
    exists (mkDatetime 2021 3 4 11 0 0 0 None). vm_compute; reflexivity.
Defined.

(* ================================================================== *)
(** * Properties of batch ingestion *)
(* ================================================================== *)

Lemma size_add_fresh (a : string) (X : gset string) :
  a ∉ X → size ({[a]} ∪ X) = S (size X).
Proof.
  intros H. rewrite size_union by set_solver. by rewrite size_singleton.
Qed.

Lemma fresh_records_size (seen : list string) (rs : list ConditionRecord) :
  length (fresh_records seen rs)
  = size ((list_to_set (map resource_id rs) : gset string)
          ∖ list_to_set seen).
Proof.
  revert seen. induction rs as [|r rs IH]; intros seen.
  - cbn [fresh_records map length].
    rewrite list_to_set_nil, difference_disjoint_L by set_solver.
    by rewrite size_empty.
  - cbn [fresh_records map]. rewrite list_to_set_cons.
    case_bool_decide as Hin.
    + rewrite IH. f_equal. set_solver.
    + cbn [length]. rewrite IH, list_to_set_app_L, list_to_set_singleton.
      rewrite <- size_add_fresh with (a := resource_id r) by set_solver.
      f_equal. apply set_eq. intros x.
      destruct (decide (x = resource_id r)) as [->|]; set_solver.
Qed.

Lemma fresh_records_length_le (seen : list string) (rs : list ConditionRecord) :
  length (fresh_records seen rs) ≤ length rs.
Proof.
  revert seen. induction rs as [|r rs IH]; intros seen; simpl; [done|].
  case_bool_decide; simpl.
  - specialize (IH seen). lia.
  - specialize (IH (seen ++ [resource_id r])). lia.
Qed.

Lemma count_flag_fold (fc : gmap string nat) (l : list string) (f : string) :
  default 0 (foldl count_flag fc l !! f)
  = default 0 (fc !! f) + count_occ string_dec l f.
Proof.
  revert fc. induction l as [|x l IH]; intros fc; simpl; [lia|].
  rewrite IH. unfold count_flag.
  destruct (string_dec x f) as [->|Hne].
  - rewrite lookup_insert_eq. simpl. lia.
  - by rewrite lookup_insert_ne.
Qed.

Lemma flag_occurrences_cons f r rs :
  flag_occurrences f (r :: rs)
  = count_occ string_dec (quality_flags r) f + flag_occurrences f rs.
Proof. done. Qed.

Section ingest_facts.
Context (fromisoformat : string → option datetime) (n : Z).

Lemma ingest_step_raise st raw e :
  build_condition_record fromisoformat raw n = Raise e →
  ingest_step fromisoformat n st raw
  = mkIngestState
      (mkBatchMetrics (batch_number (ing_metrics st))
         (received (ing_metrics st)) (added (ing_metrics st))
         (skipped_duplicate (ing_metrics st)) (S (errored (ing_metrics st)))
         (flags (ing_metrics st)))
      (ing_flag_counts st) (ing_store st).
Proof. unfold ingest_step. by intros ->. Qed.

Lemma ingest_step_duplicate st raw r :
  build_condition_record fromisoformat raw n = Ok r →
  resource_id r ∈ PyDict.keys (ing_store st) →
  ingest_step fromisoformat n st raw
  = mkIngestState
      (mkBatchMetrics (batch_number (ing_metrics st))
         (received (ing_metrics st)) (added (ing_metrics st))
         (S (skipped_duplicate (ing_metrics st))) (errored (ing_metrics st))
         (flags (ing_metrics st)))
      (ing_flag_counts st) (ing_store st).
Proof.
  unfold ingest_step. intros -> Hin. rewrite add_spec.
  destruct (PyDict.get (ing_store st) (resource_id r)) eqn:G; [done|].
  by apply dict_get_None_keys in G.
Qed.

Lemma ingest_step_new st raw r :
  build_condition_record fromisoformat raw n = Ok r →
  resource_id r ∉ PyDict.keys (ing_store st) →
  ingest_step fromisoformat n st raw
  = mkIngestState
      (mkBatchMetrics (batch_number (ing_metrics st))
         (received (ing_metrics st)) (S (added (ing_metrics st)))
         (skipped_duplicate (ing_metrics st)) (errored (ing_metrics st))
         (flags (ing_metrics st)))
      (foldl count_flag (ing_flag_counts st) (quality_flags r))
      (ing_store st ++ [entry r]).
Proof.
  unfold ingest_step. intros -> Hin%dict_get_None_keys.
  by rewrite add_spec, Hin.
Qed.

(** The loop of [ingest_batch] in closed form. *)
Lemma ingest_fold (raws : list (list (string * json))) (st : IngestState) :
  ing_store (foldl (ingest_step fromisoformat n) st raws)
  = ing_store st
    ++ map entry (fresh_records (PyDict.keys (ing_store st))
                    (built_records fromisoformat n raws))
  ∧ (∀ f, default 0
            (ing_flag_counts (foldl (ingest_step fromisoformat n) st raws) !! f)
          = default 0 (ing_flag_counts st !! f)
            + flag_occurrences f
                (fresh_records (PyDict.keys (ing_store st))
                   (built_records fromisoformat n raws)))
  ∧ batch_number (ing_metrics (foldl (ingest_step fromisoformat n) st raws))
    = batch_number (ing_metrics st)
  ∧ received (ing_metrics (foldl (ingest_step fromisoformat n) st raws))
    = received (ing_metrics st)
  ∧ added (ing_metrics (foldl (ingest_step fromisoformat n) st raws))
    = added (ing_metrics st)
      + length (fresh_records (PyDict.keys (ing_store st))
                  (built_records fromisoformat n raws))
  ∧ skipped_duplicate
      (ing_metrics (foldl (ingest_step fromisoformat n) st raws))
    + length (fresh_records (PyDict.keys (ing_store st))
                (built_records fromisoformat n raws))
    = skipped_duplicate (ing_metrics st)
      + length (built_records fromisoformat n raws)
  ∧ errored (ing_metrics (foldl (ingest_step fromisoformat n) st raws))
    = errored (ing_metrics st) + length (failed_inputs fromisoformat n raws).
Proof.
  revert st. induction raws as [|raw raws IH]; intros st.
  - unfold built_records, failed_inputs, flag_occurrences. simpl.
    rewrite app_nil_r. split_and!; try done; intros; lia.
  - cbn [foldl]. unfold built_records, failed_inputs in *.
    cbn [omap list_omap List.filter].
    destruct (build_condition_record fromisoformat raw n) as [r|e] eqn:E;
      cbn [is_ok negb].
    + destruct (decide (resource_id r ∈ PyDict.keys (ing_store st)))
        as [Hin|Hin].
      * rewrite (ingest_step_duplicate st raw r E Hin).
        cbn [fresh_records]. rewrite bool_decide_eq_true_2 by done.
        destruct (IH (mkIngestState
                        (mkBatchMetrics (batch_number (ing_metrics st))
                           (received (ing_metrics st)) (added (ing_metrics st))
                           (S (skipped_duplicate (ing_metrics st)))
                           (errored (ing_metrics st)) (flags (ing_metrics st)))
                        (ing_flag_counts st) (ing_store st)))
          as (H1 & H2 & H3 & H4 & H5 & H6 & H7).
        cbn [ing_store ing_metrics ing_flag_counts batch_number received
               added skipped_duplicate errored] in *.
        split_and!; try done. cbn [length]. lia.
      * rewrite (ingest_step_new st raw r E Hin).
        cbn [fresh_records]. rewrite bool_decide_eq_false_2 by done.
        destruct (IH (mkIngestState
                        (mkBatchMetrics (batch_number (ing_metrics st))
                           (received (ing_metrics st))
                           (S (added (ing_metrics st)))
                           (skipped_duplicate (ing_metrics st))
                           (errored (ing_metrics st)) (flags (ing_metrics st)))
                        (foldl count_flag (ing_flag_counts st)
                           (quality_flags r))
                        (ing_store st ++ [entry r])))
          as (H1 & H2 & H3 & H4 & H5 & H6 & H7).
        cbn [ing_store ing_metrics ing_flag_counts batch_number received
               added skipped_duplicate errored] in *.
        unfold PyDict.keys in *. rewrite map_app in *.
        cbn [map entry fst] in *.
        split_and!; try done.
        -- rewrite H1, <- app_assoc. done.
        -- intros f. rewrite H2, count_flag_fold, flag_occurrences_cons. lia.
        -- cbn [length]. lia.
        -- cbn [length]. lia.
    + rewrite (ingest_step_raise st raw e E).
      destruct (IH (mkIngestState
                      (mkBatchMetrics (batch_number (ing_metrics st))
                         (received (ing_metrics st)) (added (ing_metrics st))
                         (skipped_duplicate (ing_metrics st))
                         (S (errored (ing_metrics st))) (flags (ing_metrics st)))
                      (ing_flag_counts st) (ing_store st)))
        as (H1 & H2 & H3 & H4 & H5 & H6 & H7).
      cbn [ing_store ing_metrics ing_flag_counts batch_number received
             added skipped_duplicate errored] in *.
      split_and!; try done. cbn [length]. lia.
Qed.
End ingest_facts.

Section ingest_skip.
Context (fromisoformat : string → option datetime) (n : Z).

Lemma ingest_step_more_counted dr de st raw :
  ingest_step fromisoformat n (more_counted dr de st) raw
  = more_counted dr de (ingest_step fromisoformat n st raw).
Proof.
  unfold ingest_step, more_counted.
  destruct (build_condition_record fromisoformat raw n) as [r|e];
    cbn [ing_metrics ing_store ing_flag_counts batch_number received added
           skipped_duplicate errored flags].
  - destruct (ConditionStore.add r (ing_store st)) as [[] s']; cbn; done.
  - cbn. by rewrite Nat.add_succ_r.
Qed.

Lemma ingest_fold_more_counted dr de raws st :
  foldl (ingest_step fromisoformat n) (more_counted dr de st) raws
  = more_counted dr de (foldl (ingest_step fromisoformat n) st raws).
Proof.
  revert st. induction raws as [|raw raws IH]; intros st; [done|].
  cbn [foldl]. by rewrite ingest_step_more_counted, IH.
Qed.

Lemma built_failed_length (raws : list (list (string * json))) :
  length raws
  = length (built_records fromisoformat n raws)
    + length (failed_inputs fromisoformat n raws).
Proof.
  unfold built_records, failed_inputs.
  induction raws as [|raw raws IH]; [done|].
  cbn [omap list_omap List.filter length].
  destruct (build_condition_record fromisoformat raw n); cbn; lia.
Qed.
End ingest_skip.

(* ================================================================== *)
(** * Claims about batch ingestion *)
(* ================================================================== *)

Section ingest_claims.
Context (fromisoformat : string → option datetime).

(** C2. Building a record fails when the input is not a valid condition,
    in particular when it has no [id]; the failure is the validation error
    of the input model.  [ingest_batch] is a total function, so no such
    failure reaches its caller: a batch with a failing input gives the
    store and the counters of the batch without that input, with one more
    input received and one more error counted. *)
Theorem C2_malformed_input_is_counted :
  (∀ (raw : list (string * json)) (n : Z),
     PyDict.get raw "id" = None →
     build_condition_record fromisoformat raw n = Raise ValidationError)
  ∧ (∀ (raw : list (string * json)) (n : Z) (e : exception),
       Pydantic.model_validate raw = Raise e →
       build_condition_record fromisoformat raw n = Raise e)
  ∧ (∀ (pre post : list (list (string * json))) (bad : list (string * json))
       (n : Z) (store : list (string * ConditionRecord))
       (dashboard : MonitoringDashboard) (e : exception),
       build_condition_record fromisoformat bad n = Raise e →
       ingest_batch fromisoformat (pre ++ bad :: post) n store dashboard
       = (with_one_failure
            (ingest_batch fromisoformat (pre ++ post) n store dashboard).1.1,
          (ingest_batch fromisoformat (pre ++ post) n store dashboard).1.2,
          Monitoring.record_batch
            (with_one_failure
               (ingest_batch fromisoformat (pre ++ post) n store dashboard).1.1)
            dashboard)).
Proof.
  split_and!.
  - intros raw n H. unfold build_condition_record.
    by rewrite model_validate_no_id.
  - intros raw n e H. unfold build_condition_record. by rewrite H.
  - intros pre post bad n store dashboard e Hbad.
    unfold ingest_batch. rewrite !foldl_app. cbn [foldl].
    rewrite !length_app. cbn [length].
    set (st0 := mkIngestState
                  (mkBatchMetrics n (length pre + length post) 0 0 0 ∅) ∅ store).
    assert (mkIngestState
              (mkBatchMetrics n (length pre + S (length post)) 0 0 0 ∅) ∅ store
            = more_counted 1 0 st0) as ->.
    { unfold more_counted, st0. cbn. by rewrite Nat.add_succ_r. }
    rewrite ingest_fold_more_counted.
    rewrite (ingest_step_raise fromisoformat n _ bad e Hbad).
    set (st1 := foldl (ingest_step fromisoformat n) st0 pre).
    assert (mkIngestState
              (mkBatchMetrics (batch_number (ing_metrics (more_counted 1 0 st1)))
                 (received (ing_metrics (more_counted 1 0 st1)))
                 (added (ing_metrics (more_counted 1 0 st1)))
                 (skipped_duplicate (ing_metrics (more_counted 1 0 st1)))
                 (S (errored (ing_metrics (more_counted 1 0 st1))))
                 (flags (ing_metrics (more_counted 1 0 st1))))
              (ing_flag_counts (more_counted 1 0 st1))
              (ing_store (more_counted 1 0 st1))
            = more_counted 1 1 st1) as -> by done.
    rewrite ingest_fold_more_counted. done.
Qed.

(** C7. [ingest_batch] appends exactly one entry, the metrics it returns,
    to the batches of the dashboard.  In these metrics [received] is the
    number of inputs and equals [added + skipped_duplicate + errored];
    [errored] counts the inputs that fail to build, [added] the records
    that were inserted, which are the built records whose id is neither
    in the store nor earlier in the batch (as many as there are distinct
    new ids), and [skipped_duplicate] the other built records; [flags]
    tallies the quality flags of the inserted records.  With one failing
    input and one duplicate id among [N] inputs the metrics are
    [N], [N - 2], [1], [1]. *)
Theorem C7_batch_metrics
  (raws : list (list (string * json))) (n : Z)
  (store store' : list (string * ConditionRecord))
  (dashboard dashboard' : MonitoringDashboard) (m : BatchMetrics) :
  ingest_batch fromisoformat raws n store dashboard = (m, store', dashboard') →
  ingestion_batches dashboard' = ingestion_batches dashboard ++ [m]
  ∧ corrections dashboard' = corrections dashboard
  ∧ received m = length raws
  ∧ received m = added m + skipped_duplicate m + errored m
  ∧ errored m = length (failed_inputs fromisoformat n raws)
  ∧ added m + skipped_duplicate m
    = length (built_records fromisoformat n raws)
  ∧ added m
    = size ((list_to_set
               (map resource_id (built_records fromisoformat n raws))
             : gset string)
            ∖ list_to_set (PyDict.keys store))
  ∧ store'
    = store ++ map entry (fresh_records (PyDict.keys store)
                            (built_records fromisoformat n raws))
  ∧ (∀ f, default 0 (flags m !! f)
          = flag_occurrences f
              (fresh_records (PyDict.keys store)
                 (built_records fromisoformat n raws)))
  ∧ (length (failed_inputs fromisoformat n raws) = 1 →
     size ((list_to_set
              (map resource_id (built_records fromisoformat n raws))
            : gset string)
           ∖ list_to_set (PyDict.keys store)) + 1
     = length (built_records fromisoformat n raws) →
     received m = length raws
     ∧ added m = length raws - 2
     ∧ skipped_duplicate m = 1
     ∧ errored m = 1).
Proof.
  unfold ingest_batch. intros [= <- <- <-].
  destruct (ingest_fold fromisoformat n raws
              (mkIngestState (mkBatchMetrics n (length raws) 0 0 0 ∅) ∅ store))
    as (H1 & H2 & H3 & H4 & H5 & H6 & H7).
  cbn [ing_store ing_metrics ing_flag_counts batch_number received added
         skipped_duplicate errored flags] in *.
  pose proof (built_failed_length fromisoformat n raws) as Hlen.
  pose proof (fresh_records_size (PyDict.keys store)
                (built_records fromisoformat n raws)) as Hsize.
  cbn [Monitoring.record_batch ingestion_batches corrections].
  split_and!; try done; lia.
Qed.
End ingest_claims.

Lemma C2_malformed_input_is_counted_witness :
  build_condition_record IsoBasic.parse Sample.raw_no_id 1
  = Raise ValidationError
  ∧ errored (ingest_batch IsoBasic.parse Sample.batch 1 ConditionStore.empty
               Monitoring.empty).1.1 = 1
  ∧ ConditionStore.total_count
      (ingest_batch IsoBasic.parse Sample.batch 1 ConditionStore.empty
         Monitoring.empty).1.2 = 3.
Proof.
  destruct (C2_malformed_input_is_counted IsoBasic.parse) as (H1 & _ & H3).
  assert (Hbad : build_condition_record IsoBasic.parse Sample.raw_no_id 1
                 = Raise ValidationError).
  { apply H1. reflexivity. }
  split; [exact Hbad|].
  change Sample.batch
    with ([Sample.raw_active]
          ++ Sample.raw_no_id
             :: [Sample.raw_one_hour; Sample.raw_duplicate; Sample.raw_25_hours]).
  rewrite (H3 _ _ _ _ _ _ _ Hbad).
  split; vm_compute; reflexivity.
Defined.

Lemma C7_batch_metrics_witness :
  received (ingest_batch IsoBasic.parse Sample.batch 1 ConditionStore.empty
              Monitoring.empty).1.1 = 5
  ∧ added (ingest_batch IsoBasic.parse Sample.batch 1 ConditionStore.empty
             Monitoring.empty).1.1 = 3
  ∧ skipped_duplicate
      (ingest_batch IsoBasic.parse Sample.batch 1 ConditionStore.empty
         Monitoring.empty).1.1 = 1
  ∧ errored (ingest_batch IsoBasic.parse Sample.batch 1 ConditionStore.empty
               Monitoring.empty).1.1 = 1.
Proof.
  assert (E : ingest_batch IsoBasic.parse Sample.batch 1 ConditionStore.empty
                Monitoring.empty
              = ((ingest_batch IsoBasic.parse Sample.batch 1
                    ConditionStore.empty Monitoring.empty).1.1,
                 (ingest_batch IsoBasic.parse Sample.batch 1
                    ConditionStore.empty Monitoring.empty).1.2,
                 (ingest_batch IsoBasic.parse Sample.batch 1
                    ConditionStore.empty Monitoring.empty).2)).
  { by destruct (ingest_batch _ _ _ _ _) as [[? ?] ?]. }
  destruct (C7_batch_metrics IsoBasic.parse _ _ _ _ _ _ _ E)
    as (_ & _ & _ & _ & _ & _ & _ & _ & _ & H).
  destruct H as (H1 & H2 & H3 & H4); [vm_compute; reflexivity..|].
  split_and!; [exact H1 | exact H2 | exact H3 | exact H4].
Defined.

(* ================================================================== *)
(** * Properties of the correction engine *)
(* ================================================================== *)

Lemma soft_remove_get clock rid reason (s : list (string * ConditionRecord)) k :
  PyDict.get (ConditionStore.soft_remove clock rid reason s).2 k
  = if decide (rid = k)
    then match PyDict.get s k with
         | Some r =>
             if is_removed r then Some r
             else Some (ConditionStore.mark_removed (Datetime.now_utc clock)
                          reason r)
         | None => None
         end
    else PyDict.get s k.
Proof.
  unfold ConditionStore.soft_remove. case_decide as Hk.
  - subst k. destruct (PyDict.get s rid) as [r|] eqn:E; simpl; [|done].
    destruct (is_removed r); simpl; [done|]. apply dict_get_set_eq.
  - destruct (PyDict.get s rid) as [r|] eqn:E; simpl; [|done].
    destruct (is_removed r); simpl; [done|]. by apply dict_get_set_ne.
Qed.

(** The store after the loop of [_apply_removals]: the active records
    whose id is among the matched ones are marked removed, nothing else
    changes. *)
Lemma removal_fold clock reason (matched : list ConditionRecord)
  (acc : list string * list (string * ConditionRecord)) (k : string) :
  (∀ r, PyDict.get acc.2 k = Some r → is_removed r = false →
        k ∈ map resource_id matched →
        ∃ t, PyDict.get (foldl (removal_step clock reason) acc matched).2 k
             = Some (ConditionStore.mark_removed t reason r))
  ∧ (∀ r, PyDict.get acc.2 k = Some r →
          is_removed r = true ∨ k ∉ map resource_id matched →
          PyDict.get (foldl (removal_step clock reason) acc matched).2 k
          = Some r)
  ∧ (PyDict.get acc.2 k = None →
     PyDict.get (foldl (removal_step clock reason) acc matched).2 k = None).
Proof.
  revert acc. induction matched as [|m matched IH]; intros acc.
  - simpl. split_and!; [|done|done].
    intros r _ _ Hin. by apply elem_of_nil in Hin.
  - cbn [foldl map].
    assert (Hstep : PyDict.get (removal_step clock reason acc m).2 k
                    = PyDict.get
                        (ConditionStore.soft_remove (clock (length acc.1))
                           (resource_id m) reason acc.2).2 k).
    { unfold removal_step.
      by destruct (ConditionStore.soft_remove _ _ _ _) as [[] ?]. }
    rewrite soft_remove_get in Hstep.
    destruct (IH (removal_step clock reason acc m)) as (IH1 & IH2 & IH3).
    split_and!.
    + intros r Hget Hact Hin. rewrite Hget, Hact in Hstep.
      case_decide as Hk.
      * eexists. apply IH2; [exact Hstep | by left].
      * apply IH1; [by rewrite Hstep | done |].
        apply elem_of_cons in Hin as [Hin|Hin]; [congruence | done].
    + intros r Hget Hor. rewrite Hget in Hstep.
      case_decide as Hk.
      * destruct Hor as [Hrem|Hnot].
        -- rewrite Hrem in Hstep. apply IH2; [done | by left].
        -- exfalso. apply Hnot. apply elem_of_cons. by left.
      * apply IH2; [done|]. destruct Hor as [?|Hnot]; [by left|].
        right. intros Hin. apply Hnot. apply elem_of_cons. by right.
    + intros Hget. rewrite Hget in Hstep. apply IH3.
      by case_decide.
Qed.

(** In a well-formed store, the ids of the active records that satisfy a
    test are the keys of such records. *)
Lemma matched_ids (P : ConditionRecord → bool)
  (s : list (string * ConditionRecord)) k r :
  store_wf s → PyDict.get s k = Some r → is_removed r = false →
  k ∈ map resource_id (List.filter P (ConditionStore.get_all_active s))
  ↔ P r = true.
Proof.
  intros [Hnd Hkey] Hget Hact. unfold ConditionStore.get_all_active.
  rewrite list_elem_of_fmap. split.
  - intros (r' & Hid & Hin).
    apply list_elem_of_In, List.filter_In in Hin as [Hin HP].
    apply List.filter_In in Hin as [Hin _].
    apply list_elem_of_In, list_elem_of_fmap in Hin as ([k' r''] & -> & Hin).
    simpl in *. pose proof (Hkey _ _ Hin) as Hk'. subst k k'.
    rewrite (dict_elem_get _ _ _ Hnd Hin) in Hget. by injection Hget as <-.
  - intros HP. exists r. split.
    + symmetry. apply Hkey. by apply dict_get_Some_elem.
    + apply list_elem_of_In, List.filter_In. split; [|done].
      apply List.filter_In. split; [|by rewrite Hact].
      apply list_elem_of_In, list_elem_of_fmap. exists (k, r).
      split; [done|]. by apply dict_get_Some_elem.
Qed.

Lemma inter_pair_nonempty (X : gset string) (a b : string) :
  X ∩ ({[a]} ∪ {[b]}) ≠ ∅ ↔ a ∈ X ∨ b ∈ X.
Proof.
  split.
  - intros (x & Hx)%set_choose_L. set_solver.
  - intros H Hempty. set_solver.
Qed.

Lemma predicates_tuberculosis :
  PyDict.get PREDICATES "tuberculosis"
  = Some (mkRemovalPredicate "tuberculosis"
            "All TB-related conditions (latent TB, history of TB)"
            ["tuberculosis"; "latent tb"; "hx of latent tb"]
            ({["Z22.7"]} ∪ {["Z86.15"]})
            ({["11999007"]} ∪ {["428934008"]})
            []).
Proof. reflexivity. Qed.

(** What the registry entry [tuberculosis] matches. *)
Lemma matches_tuberculosis (r : ConditionRecord) (pred : RemovalPredicate) :
  PyDict.get PREDICATES "tuberculosis" = Some pred →
  _matches_predicate r pred = true
  ↔ PyStr.contains "tuberculosis" (searchable_text r) = true
    ∨ PyStr.contains "latent tb" (searchable_text r) = true
    ∨ "Z22.7" ∈ icd10_codes r ∨ "Z86.15" ∈ icd10_codes r
    ∨ "11999007" ∈ snomed_codes r ∨ "428934008" ∈ snomed_codes r.
Proof.
  rewrite predicates_tuberculosis. intros H.
  apply (inj Some) in H. subst pred. unfold _matches_predicate.
  cbn [pred_text_patterns pred_icd10_codes pred_snomed_codes
         pred_quality_flags existsb].
  rewrite !orb_false_r, !orb_true_iff, !andb_true_iff, !bool_decide_eq_true.
  rewrite !inter_pair_nonempty.
  pose proof (contains_part "hx of " "latent tb" "" (searchable_text r)) as Hhx.
  change ("hx of " +:+ "latent tb" +:+ "") with "hx of latent tb" in Hhx.
  assert (N1 : ({["Z22.7"; "Z86.15"]} : gset string) ≠ ∅) by set_solver.
  assert (N2 : ({["11999007"; "428934008"]} : gset string) ≠ ∅) by set_solver.
  tauto.
Qed.

Lemma apply_removals_store clock matched action target reason eng :
  store (_apply_removals clock matched action target reason eng).2
  = (foldl (removal_step clock reason) ([], store eng) matched).2.
Proof. by destruct matched. Qed.

Lemma remove_by_predicate_store clock reason eng pred :
  PyDict.get PREDICATES "tuberculosis" = Some pred →
  store (remove_by_predicate clock "tuberculosis" reason eng).2
  = (foldl (removal_step clock reason) ([], store eng)
       (List.filter (fun r => _matches_predicate r pred)
          (ConditionStore.get_all_active (store eng)))).2.
Proof.
  intros H. unfold remove_by_predicate. rewrite H.
  apply apply_removals_store.
Qed.

(* ================================================================== *)
(** * Claims about corrections *)
(* ================================================================== *)

(** C1, as the specification states it, fails: the registry entry
    [tuberculosis] also lists the text pattern ["tuberculosis"], so an
    active record whose text is ["pulmonary tuberculosis"], with no code at
    all, is removed although its text does not contain ["latent tb"]. *)
Lemma C1_plain_tuberculosis_is_removed :
  ¬ (∀ (clock : nat → datetime) (reason : string) (eng : CorrectionEngine)
       (k : string) (r : ConditionRecord),
       store_wf (store eng) →
       PyDict.get (store eng) k = Some r →
       is_removed r = false →
       removed_in
         (store (remove_by_predicate clock "tuberculosis" reason eng).2) k
       ↔ PyStr.contains "latent tb" (searchable_text r) = true
         ∨ "Z22.7" ∈ icd10_codes r ∨ "Z86.15" ∈ icd10_codes r
         ∨ "11999007" ∈ snomed_codes r ∨ "428934008" ∈ snomed_codes r).
Proof.
  intros H.
  assert (Hwf : store_wf [entry Sample.pulmonary_tb]).
  { apply (store_wf_add Sample.pulmonary_tb ConditionStore.empty),
      store_wf_empty. }
  destruct (H (fun _ => Sample.clock) "not mine"
              (mkCorrectionEngine [entry Sample.pulmonary_tb] Monitoring.empty)
              "cond-0005" Sample.pulmonary_tb Hwf eq_refl eq_refl)
    as [Hremoved _].
  destruct Hremoved as [Htext|[Hc|[Hc|[Hc|Hc]]]].
  - eexists. split; vm_compute; reflexivity.
  - vm_compute in Htext. discriminate Htext.
  - by apply not_elem_of_empty in Hc.
  - by apply not_elem_of_empty in Hc.
  - by apply not_elem_of_empty in Hc.
  - by apply not_elem_of_empty in Hc.
Qed.

(** C1 (amended). For every record stored and active when it is called,
    [remove_by_predicate("tuberculosis", reason)] soft-removes the record
    if and only if its searchable text contains ["tuberculosis"] or
    ["latent tb"], or its ICD-10 codes contain Z22.7 or Z86.15, or its
    SNOMED codes contain 11999007 or 428934008.  A removed record is the
    old record with the removal fields set; every other record, active or
    already removed, is left as it was. *)
Theorem C1_tuberculosis_predicate
  (clock : nat → datetime) (reason : string) (eng : CorrectionEngine)
  (k : string) (r : ConditionRecord) :
  store_wf (store eng) →
  PyDict.get (store eng) k = Some r →
  (is_removed r = false →
   (removed_in
      (store (remove_by_predicate clock "tuberculosis" reason eng).2) k
    ↔ PyStr.contains "tuberculosis" (searchable_text r) = true
      ∨ PyStr.contains "latent tb" (searchable_text r) = true
      ∨ "Z22.7" ∈ icd10_codes r ∨ "Z86.15" ∈ icd10_codes r
      ∨ "11999007" ∈ snomed_codes r ∨ "428934008" ∈ snomed_codes r)
   ∧ (removed_in
        (store (remove_by_predicate clock "tuberculosis" reason eng).2) k →
      ∃ t, PyDict.get
             (store (remove_by_predicate clock "tuberculosis" reason eng).2) k
           = Some (ConditionStore.mark_removed t reason r))
   ∧ (¬ removed_in
          (store (remove_by_predicate clock "tuberculosis" reason eng).2) k →
      PyDict.get
        (store (remove_by_predicate clock "tuberculosis" reason eng).2) k
      = Some r))
  ∧ (is_removed r = true →
     PyDict.get
       (store (remove_by_predicate clock "tuberculosis" reason eng).2) k
     = Some r).
Proof.
  intros Hwf Hget.
  rewrite (remove_by_predicate_store clock reason eng _ predicates_tuberculosis).
  set (pred := mkRemovalPredicate _ _ _ _ _ _).
  destruct (removal_fold clock reason
              (List.filter (fun r => _matches_predicate r pred)
                 (ConditionStore.get_all_active (store eng)))
              ([], store eng) k) as (F1 & F2 & _).
  cbn [snd] in F1, F2.
  split.
  - intros Hact.
    pose proof (matched_ids (fun r => _matches_predicate r pred)
                  (store eng) k r Hwf Hget Hact) as Hids.
    rewrite <- (matches_tuberculosis r pred predicates_tuberculosis).
    destruct (_matches_predicate r pred) eqn:HP.
    + destruct (F1 r Hget Hact) as [t Ht]; [by apply Hids|].
      split_and!.
      * split; [done|]. intros _. eexists. split; [exact Ht|done].
      * intros _. by exists t.
      * intros Hnot. exfalso. apply Hnot. eexists. split; [exact Ht|done].
    + assert (Hsame : PyDict.get
                        (foldl (removal_step clock reason) ([], store eng)
                           (List.filter (fun r => _matches_predicate r pred)
                              (ConditionStore.get_all_active (store eng)))).2 k
                      = Some r).
      { apply F2; [done|]. right. intros Hin. apply Hids in Hin. done. }
      assert (Hnot : ¬ removed_in
                         (foldl (removal_step clock reason) ([], store eng)
                            (List.filter (fun r => _matches_predicate r pred)
                               (ConditionStore.get_all_active (store eng)))).2 k).
      { intros (r' & Hr' & Hrem). rewrite Hsame in Hr'.
        injection Hr' as <-. congruence. }
      split_and!; [split; [done | discriminate] | done | done].
  - intros Hrem. apply F2; [done | by left].
Qed.

Lemma C1_tuberculosis_predicate_witness :
  removed_in
    (store (remove_by_predicate (fun _ => Sample.clock) "tuberculosis"
              "not mine"
              (mkCorrectionEngine
                 [entry Sample.asthma; entry Sample.latent_tb]
                 Monitoring.empty)).2) "cond-0006"
  ∧ PyDict.get
      (store (remove_by_predicate (fun _ => Sample.clock) "tuberculosis"
                "not mine"
                (mkCorrectionEngine
                   [entry Sample.asthma; entry Sample.latent_tb]
                   Monitoring.empty)).2) "cond-0001"
    = Some Sample.asthma.
Proof.
  assert (Hwf : store_wf [entry Sample.asthma; entry Sample.latent_tb]).
  { apply (store_wf_add Sample.latent_tb [entry Sample.asthma]),
      (store_wf_add Sample.asthma ConditionStore.empty), store_wf_empty. }
  split.
  - destruct (C1_tuberculosis_predicate (fun _ => Sample.clock) "not mine"
                (mkCorrectionEngine
                   [entry Sample.asthma; entry Sample.latent_tb]
                   Monitoring.empty)
                "cond-0006" Sample.latent_tb Hwf eq_refl) as [H _].
    destruct (H eq_refl) as (Hiff & _).
    apply Hiff. right. left. vm_compute. reflexivity.
  - destruct (C1_tuberculosis_predicate (fun _ => Sample.clock) "not mine"
                (mkCorrectionEngine
                   [entry Sample.asthma; entry Sample.latent_tb]
                   Monitoring.empty)
                "cond-0001" Sample.asthma Hwf eq_refl) as [H _].
    destruct (H eq_refl) as (Hiff & _ & Hkeep).
    apply Hkeep. rewrite Hiff.
    intros [Ht|[Ht|[Hc|[Hc|[Hc|Hc]]]]];
      try (vm_compute in Ht; discriminate Ht);
      apply (bool_decide_pack _) in Hc; vm_compute in Hc; destruct Hc.
Defined.

(* ================================================================== *)
(** * Further properties of the condition store *)
(* ================================================================== *)

Lemma filter_partition_length {A : Type} (P : A → bool) (l : list A) :
  length l
  = length (List.filter (fun x => negb (P x)) l) + length (List.filter P l).
Proof.
  induction l as [|x l IH]; [done|]. cbn [List.filter length].
  destruct (P x); cbn [negb length]; lia.
Qed.

Lemma filter_partition_perm {A : Type} (P : A → bool) (l : list A) :
  l ≡ₚ List.filter (fun x => negb (P x)) l ++ List.filter P l.
Proof.
  induction l as [|x l IH]; [done|]. cbn [List.filter].
  destruct (P x); cbn [negb].
  - rewrite <- Permutation_middle. by constructor.
  - cbn. by constructor.
Qed.

(** X1. Every stored record is counted once, as active or as removed:
    [total_count = active_count + removed_count]; the two snapshots have
    these lengths, and together they are a rearrangement of what
    [iterate] yields. *)
Theorem X1_store_counts_partition (s : list (string * ConditionRecord)) :
  ConditionStore.total_count s
  = ConditionStore.active_count s + ConditionStore.removed_count s
  ∧ length (ConditionStore.get_all_active s) = ConditionStore.active_count s
  ∧ length (ConditionStore.get_all_removed s) = ConditionStore.removed_count s
  ∧ ConditionStore.iterate s
    ≡ₚ ConditionStore.get_all_active s ++ ConditionStore.get_all_removed s.
Proof.
  unfold ConditionStore.total_count, ConditionStore.active_count,
    ConditionStore.removed_count, ConditionStore.get_all_active,
    ConditionStore.get_all_removed, ConditionStore.iterate.
  split_and!; [|done|done|].
  - rewrite <- (length_map snd s).
    apply (filter_partition_length (fun r => is_removed r)).
  - apply (filter_partition_perm (fun r => is_removed r)).
Qed.

(** What one [soft_remove] does to the counts. *)
Lemma soft_remove_counts clock rid reason (s : list (string * ConditionRecord)) :
  ((ConditionStore.soft_remove clock rid reason s).1 = true
   ∧ ConditionStore.removed_count (ConditionStore.soft_remove clock rid reason s).2
     = S (ConditionStore.removed_count s)
   ∧ S (ConditionStore.active_count
          (ConditionStore.soft_remove clock rid reason s).2)
     = ConditionStore.active_count s
   ∧ PyDict.keys (ConditionStore.soft_remove clock rid reason s).2
     = PyDict.keys s)
  ∨ ((ConditionStore.soft_remove clock rid reason s).1 = false
     ∧ (ConditionStore.soft_remove clock rid reason s).2 = s).
Proof.
  unfold ConditionStore.soft_remove.
  destruct (PyDict.get s rid) as [r0|] eqn:E; [|by right].
  destruct (is_removed r0) eqn:Hr; [by right|]. left. cbn [fst snd].
  split; [done|].
  destruct (dict_set_old s rid r0
              (ConditionStore.mark_removed (Datetime.now_utc clock) reason r0) E)
    as (d1 & d2 & Hs & Hset).
  rewrite Hset.
  assert (Hrc : ConditionStore.removed_count s
                = ConditionStore.removed_count (d1 ++ (rid, r0) :: d2))
    by (by rewrite <- Hs).
  assert (Hac : ConditionStore.active_count s
                = ConditionStore.active_count (d1 ++ (rid, r0) :: d2))
    by (by rewrite <- Hs).
  assert (Hks : PyDict.keys s = PyDict.keys (d1 ++ (rid, r0) :: d2))
    by (by rewrite <- Hs).
  rewrite Hrc, Hac, Hks. clear Hrc Hac Hks.
  unfold ConditionStore.removed_count, ConditionStore.active_count.
  pose proof (count_replace (fun r => is_removed r) d1 d2 rid r0
    (ConditionStore.mark_removed (Datetime.now_utc clock) reason r0)) as H1.
  pose proof (count_replace (fun r => negb (is_removed r)) d1 d2 rid r0
    (ConditionStore.mark_removed (Datetime.now_utc clock) reason r0)) as H2.
  cbn [is_removed ConditionStore.mark_removed negb] in H1, H2.
  rewrite Hr in H1, H2. cbn [negb] in H2.
  split_and!; [lia | lia |].
  unfold PyDict.keys. by rewrite !map_app.
Qed.

Lemma same_or_removed_trans (r r' r'' : ConditionRecord) :
  same_or_removed r r' → same_or_removed r' r'' → same_or_removed r r''.
Proof.
  intros [->|(Hact & t & reason & ->)] H; [done|].
  destruct H as [->|(Hact' & _)].
  - right. split; [done|]. by exists t, reason.
  - done.
Qed.

Lemma store_step_record (s : list (string * ConditionRecord)) op k r :
  PyDict.get s k = Some r →
  ∃ r', PyDict.get (store_step s op) k = Some r' ∧ same_or_removed r r'.
Proof.
  intros Hget. destruct op as [record|clock rid reason]; cbn [store_step].
  - rewrite add_spec.
    destruct (PyDict.get s (resource_id record)) eqn:E; cbn [snd].
    + exists r. split; [done | by left].
    + exists r. split; [|by left].
      rewrite <- (dict_set_new s _ record E).
      rewrite dict_get_set_ne; [done|]. intros <-. congruence.
  - rewrite soft_remove_get. case_decide as Hk.
    + rewrite Hget. destruct (is_removed r) eqn:Hr.
      * exists r. split; [done | by left].
      * eexists. split; [done|]. right. split; [done|]. by eexists _, _.
    + exists r. split; [done | by left].
Qed.

Lemma store_step_shape (s : list (string * ConditionRecord)) op :
  (∃ news, PyDict.keys (store_step s op) = PyDict.keys s ++ news)
  ∧ ConditionStore.removed_count s ≤ ConditionStore.removed_count (store_step s op).
Proof.
  destruct op as [record|clock rid reason]; cbn [store_step].
  - rewrite add_spec.
    destruct (PyDict.get s (resource_id record)) eqn:E; cbn [snd].
    + split; [exists []; by rewrite app_nil_r | done].
    + split.
      * exists [resource_id record]. unfold PyDict.keys. by rewrite map_app.
      * unfold ConditionStore.removed_count, PyDict.values.
        rewrite map_app, List.filter_app, length_app. lia.
  - destruct (soft_remove_counts clock rid reason s)
      as [(_ & H1 & _ & H3)|(_ & ->)].
    + split; [exists []; by rewrite app_nil_r | lia].
    + split; [exists []; by rewrite app_nil_r | done].
Qed.

Lemma store_wf_step (s : list (string * ConditionRecord)) op :
  store_wf s → store_wf (store_step s op).
Proof.
  destruct op; cbn [store_step]; [apply store_wf_add | apply store_wf_soft_remove].
Qed.

(** X2. Along any history of [add] and [soft_remove] calls the store stays
    well-formed, keys are only ever appended, no record is deleted, and a
    stored record changes at most once: from active to removed, by the
    three removal fields only.  A removed record is never altered again,
    and the number of removed records never falls. *)
Theorem X2_store_history (ops : list StoreOp)
  (s : list (string * ConditionRecord)) :
  store_wf s →
  store_wf (foldl store_step s ops)
  ∧ (∃ news, PyDict.keys (foldl store_step s ops) = PyDict.keys s ++ news)
  ∧ ConditionStore.removed_count s
    ≤ ConditionStore.removed_count (foldl store_step s ops)
  ∧ (∀ k r, PyDict.get s k = Some r →
       ∃ r', PyDict.get (foldl store_step s ops) k = Some r'
             ∧ same_or_removed r r')
  ∧ (∀ k r, PyDict.get s k = Some r → is_removed r = true →
       PyDict.get (foldl store_step s ops) k = Some r).
Proof.
  revert s. induction ops as [|op ops IH]; intros s Hwf.
  - cbn [foldl]. split_and!; try done.
    + exists []. by rewrite app_nil_r.
    + intros k r Hget. exists r. split; [done | by left].
  - cbn [foldl].
    destruct (IH (store_step s op) (store_wf_step s op Hwf))
      as (H1 & (news & H2) & H3 & H4 & H5).
    destruct (store_step_shape s op) as ((news0 & Hk) & Hc).
    assert (Hrec : ∀ k r, PyDict.get s k = Some r →
              ∃ r', PyDict.get (foldl store_step (store_step s op) ops) k
                    = Some r' ∧ same_or_removed r r').
    { intros k r Hget.
      destruct (store_step_record s op k r Hget) as (r1 & Hg1 & Hs1).
      destruct (H4 k r1 Hg1) as (r2 & Hg2 & Hs2).
      exists r2. split; [done|]. by eapply same_or_removed_trans. }
    split_and!; try done.
    + exists (news0 ++ news). by rewrite H2, Hk, app_assoc.
    + lia.
    + intros k r Hget Hrem. destruct (Hrec k r Hget) as (r' & Hg & [->|(Hact & _)]);
        [done | congruence].
Qed.

Lemma X2_store_history_witness :
  PyDict.get
    (foldl store_step ConditionStore.empty
       [ OpAdd Sample.asthma;
         OpSoftRemove Sample.clock "cond-0001" "entered in error";
         OpAdd Sample.asthma_again;
         OpSoftRemove Sample.clock "cond-0001" "again" ]) "cond-0001"
  = Some (ConditionStore.mark_removed (Datetime.now_utc Sample.clock)
            "entered in error" Sample.asthma).
Proof.
  destruct (X2_store_history
              [ OpAdd Sample.asthma_again;
                OpSoftRemove Sample.clock "cond-0001" "again" ]
              [ entry (ConditionStore.mark_removed
                         (Datetime.now_utc Sample.clock)
                         "entered in error" Sample.asthma) ])
    as (_ & _ & _ & _ & H).
  - split; [apply NoDup_singleton|].
    intros k r Hin%list_elem_of_singleton. by injection Hin as -> ->.
  - apply (H "cond-0001"); reflexivity.
Defined.

(* ================================================================== *)
(** * Further properties of the correction engine *)
(* ================================================================== *)

(** The active records of a well-formed store are stored under their own
    ids, and no two of them share an id. *)
Lemma active_records_keyed (s : list (string * ConditionRecord)) r :
  store_wf s → r ∈ ConditionStore.get_all_active s →
  PyDict.get s (resource_id r) = Some r ∧ is_removed r = false.
Proof.
  intros [Hnd Hkey] Hin. unfold ConditionStore.get_all_active in Hin.
  apply list_elem_of_In, List.filter_In in Hin as [Hin Hact].
  apply list_elem_of_In, list_elem_of_fmap in Hin as ([k r'] & -> & Hin).
  cbn [snd]. rewrite (Hkey _ _ Hin). split.
  - by apply dict_elem_get.
  - by apply negb_true_iff.
Qed.

Lemma NoDup_map_filter {A B : Type} (f : A → B) (P : A → bool) (l : list A) :
  NoDup (map f l) → NoDup (map f (List.filter P l)).
Proof.
  induction l as [|x l IH]; [done|]. cbn [map List.filter].
  intros [Hx Hnd]%NoDup_cons. destruct (P x); [|by apply IH].
  cbn [map]. apply NoDup_cons. split; [|by apply IH].
  intros Hin. apply Hx.
  apply list_elem_of_fmap in Hin as (y & -> & Hy).
  apply list_elem_of_fmap. exists y. split; [done|].
  apply list_elem_of_In. apply list_elem_of_In, List.filter_In in Hy. tauto.
Qed.

Lemma values_ids_keys (s : list (string * ConditionRecord)) :
  store_wf s → map resource_id (PyDict.values s) = PyDict.keys s.
Proof.
  intros [_ Hkey]. unfold PyDict.values, PyDict.keys. rewrite map_map.
  apply map_ext_in. intros [k r] Hin%list_elem_of_In. cbn. by apply Hkey.
Qed.

Lemma matching_active_ok (P : ConditionRecord → bool)
  (s : list (string * ConditionRecord)) :
  store_wf s →
  (∀ m, m ∈ matching_active P s →
        PyDict.get s (resource_id m) = Some m ∧ is_removed m = false)
  ∧ NoDup (map resource_id (matching_active P s)).
Proof.
  intros Hwf. split.
  - intros m Hin. apply active_records_keyed; [done|].
    apply list_elem_of_In. apply list_elem_of_In, List.filter_In in Hin. tauto.
  - unfold matching_active, ConditionStore.get_all_active.
    do 2 apply NoDup_map_filter. rewrite values_ids_keys by done. apply Hwf.
Qed.

(** The loop of [_apply_removals] on distinct active records: each one is
    removed and reported. *)
Lemma removal_fold_all clock reason (matched : list ConditionRecord)
  (acc : list string * list (string * ConditionRecord)) :
  (∀ m, m ∈ matched →
        PyDict.get acc.2 (resource_id m) = Some m ∧ is_removed m = false) →
  NoDup (map resource_id matched) →
  (foldl (removal_step clock reason) acc matched).1
  = acc.1 ++ map removal_label matched
  ∧ ConditionStore.active_count (foldl (removal_step clock reason) acc matched).2
    + length matched
    = ConditionStore.active_count acc.2
  ∧ ConditionStore.removed_count (foldl (removal_step clock reason) acc matched).2
    = ConditionStore.removed_count acc.2 + length matched
  ∧ PyDict.keys (foldl (removal_step clock reason) acc matched).2
    = PyDict.keys acc.2.
Proof.
  revert acc. induction matched as [|m matched IH]; intros acc Hok Hnd.
  - cbn. rewrite app_nil_r. split_and!; try done; lia.
  - cbn [foldl map length] in *. apply NoDup_cons in Hnd as [Hm Hnd].
    destruct (Hok m) as [Hget Hact]; [apply elem_of_cons; by left|].
    assert (Hstep : removal_step clock reason acc m
                    = (acc.1 ++ [removal_label m],
                       (ConditionStore.soft_remove (clock (length acc.1))
                          (resource_id m) reason acc.2).2)).
    { unfold removal_step, ConditionStore.soft_remove.
      by rewrite Hget, Hact. }
    destruct (soft_remove_counts (clock (length acc.1)) (resource_id m)
                reason acc.2) as [(_ & C1 & C2 & C3)|(Hf & _)].
    2:{ unfold ConditionStore.soft_remove in Hf. by rewrite Hget, Hact in Hf. }
    rewrite Hstep.
    destruct (IH (acc.1 ++ [removal_label m],
                  (ConditionStore.soft_remove (clock (length acc.1))
                     (resource_id m) reason acc.2).2))
      as (I1 & I2 & I3 & I4); [|done|].
    { intros m' Hin. cbn [snd]. rewrite soft_remove_get.
      case_decide as Hk.
      - exfalso. apply Hm. apply list_elem_of_fmap. by exists m'.
      - apply Hok. apply elem_of_cons. by right. }
    cbn [fst snd] in *. split_and!.
    + by rewrite I1, <- app_assoc.
    + lia.
    + lia.
    + by rewrite I4.
Qed.

Lemma removal_fold_wf clock reason (matched : list ConditionRecord)
  (acc : list string * list (string * ConditionRecord)) :
  store_wf acc.2 → store_wf (foldl (removal_step clock reason) acc matched).2.
Proof.
  revert acc. induction matched as [|m matched IH]; intros acc Hwf; [done|].
  cbn [foldl]. apply IH. unfold removal_step.
  pose proof (store_wf_soft_remove (clock (length acc.1)) (resource_id m)
                reason acc.2 Hwf) as H.
  by destruct (ConditionStore.soft_remove _ _ _ _) as [[] ?].
Qed.

(** X3. [_apply_removals] on the matching active records of a well-formed
    store: when nothing matches it fails, and neither the store nor the
    audit trail changes; otherwise it removes every matched record,
    reports their number and labels, appends exactly one audit entry that
    carries the same number, and the active and removed counts move by
    that number.  The metrics of past ingestions are not touched. *)
Theorem X3_apply_removals_accounting
  (clock : nat → datetime) (P : ConditionRecord → bool)
  (action target reason : string) (eng : CorrectionEngine) :
  store_wf (store eng) →
  (matching_active P (store eng) = [] →
   _apply_removals clock (matching_active P (store eng)) action target reason eng
   = (_no_match target eng, eng)
   ∧ success (_no_match target eng) = false
   ∧ records_removed (_no_match target eng) = 0
   ∧ active_remaining (_no_match target eng)
     = ConditionStore.active_count (store eng))
  ∧ (matching_active P (store eng) ≠ [] →
     success
       (_apply_removals clock (matching_active P (store eng)) action target
          reason eng).1 = true
     ∧ records_removed
         (_apply_removals clock (matching_active P (store eng)) action target
            reason eng).1
       = length (matching_active P (store eng))
     ∧ removed_conditions
         (_apply_removals clock (matching_active P (store eng)) action target
            reason eng).1
       = Some (map removal_label (matching_active P (store eng)))
     ∧ active_remaining
         (_apply_removals clock (matching_active P (store eng)) action target
            reason eng).1
       = ConditionStore.active_count
           (store (_apply_removals clock (matching_active P (store eng))
                     action target reason eng).2)
     ∧ ConditionStore.active_count
         (store (_apply_removals clock (matching_active P (store eng))
                   action target reason eng).2)
       + length (matching_active P (store eng))
       = ConditionStore.active_count (store eng)
     ∧ ConditionStore.removed_count
         (store (_apply_removals clock (matching_active P (store eng))
                   action target reason eng).2)
       = ConditionStore.removed_count (store eng)
         + length (matching_active P (store eng))
     ∧ corrections
         (dashboard (_apply_removals clock (matching_active P (store eng))
                       action target reason eng).2)
       = corrections (dashboard eng)
         ++ [mkCorrectionEntry
               (Datetime.isoformat
                  (Datetime.now_utc
                     (clock (length (matching_active P (store eng))))))
               action target reason (length (matching_active P (store eng)))]
     ∧ ingestion_batches
         (dashboard (_apply_removals clock (matching_active P (store eng))
                       action target reason eng).2)
       = ingestion_batches (dashboard eng)).
Proof.
  intros Hwf. destruct (matching_active_ok P (store eng) Hwf) as [Hok Hnd].
  destruct (removal_fold_all clock reason (matching_active P (store eng))
              ([], store eng) Hok Hnd) as (F1 & F2 & F3 & F4).
  cbn [fst snd app] in F1, F2, F3, F4.
  split.
  - intros ->. done.
  - intros Hne. destruct (matching_active P (store eng)) as [|m ms] eqn:E;
      [done|].
    unfold _apply_removals. cbn [fst snd success records_removed
      removed_conditions active_remaining store dashboard
      Monitoring.record_correction corrections ingestion_batches].
    rewrite F1. rewrite !length_map.
    split_and!; done.
Qed.

Lemma X3_apply_removals_accounting_witness :
  records_removed
    (_apply_removals (fun _ => Sample.clock)
       (matching_active
          (fun r => PyStr.contains "latent" (searchable_text r))
          [entry Sample.asthma; entry Sample.latent_tb])
       "remove_by_text" "latent" "not mine"
       (mkCorrectionEngine [entry Sample.asthma; entry Sample.latent_tb]
          Monitoring.empty)).1 = 1
  ∧ ConditionStore.removed_count
      (store (_apply_removals (fun _ => Sample.clock)
                (matching_active
                   (fun r => PyStr.contains "latent" (searchable_text r))
                   [entry Sample.asthma; entry Sample.latent_tb])
                "remove_by_text" "latent" "not mine"
                (mkCorrectionEngine [entry Sample.asthma; entry Sample.latent_tb]
                   Monitoring.empty)).2) = 1.
Proof.
  assert (Hwf : store_wf [entry Sample.asthma; entry Sample.latent_tb]).
  { apply (store_wf_add Sample.latent_tb [entry Sample.asthma]),
      (store_wf_add Sample.asthma ConditionStore.empty), store_wf_empty. }
  destruct (X3_apply_removals_accounting (fun _ => Sample.clock)
              (fun r => PyStr.contains "latent" (searchable_text r))
              "remove_by_text" "latent" "not mine"
              (mkCorrectionEngine [entry Sample.asthma; entry Sample.latent_tb]
                 Monitoring.empty) Hwf) as [_ H].
  destruct H as (_ & H2 & _ & _ & _ & H6 & _).
  - intros E. vm_compute in E. discriminate E.
  - split; [exact H2 | exact H6].
Defined.

(** Which records a bulk removal changes. *)
Lemma bulk_removal_records clock (P : ConditionRecord → bool)
  action target reason eng k r :
  store_wf (store eng) →
  PyDict.get (store eng) k = Some r →
  (is_removed r = false → P r = true →
   ∃ t, PyDict.get
          (store (_apply_removals clock (matching_active P (store eng))
                    action target reason eng).2) k
        = Some (ConditionStore.mark_removed t reason r))
  ∧ (is_removed r = true ∨ P r = false →
     PyDict.get
       (store (_apply_removals clock (matching_active P (store eng))
                 action target reason eng).2) k
     = Some r).
Proof.
  intros Hwf Hget. rewrite apply_removals_store.
  destruct (removal_fold clock reason (matching_active P (store eng))
              ([], store eng) k) as (F1 & F2 & _).
  cbn [snd] in F1, F2. split.
  - intros Hact HP. apply (F1 r Hget Hact).
    by apply (matched_ids P (store eng) k r Hwf Hget Hact).
  - intros [Hrem|HP]; apply (F2 r Hget); [by left|].
    destruct (is_removed r) eqn:Hact; [by left|]. right.
    intros Hin%(matched_ids P (store eng) k r Hwf Hget Hact). congruence.
Qed.

Lemma bulk_removal_absent clock (P : ConditionRecord → bool)
  action target reason eng k :
  PyDict.get (store eng) k = None →
  PyDict.get
    (store (_apply_removals clock (matching_active P (store eng))
              action target reason eng).2) k = None.
Proof.
  intros Hget. rewrite apply_removals_store.
  by apply (removal_fold clock reason (matching_active P (store eng))
              ([], store eng) k).
Qed.

Lemma bulk_removal_wf clock matched action target reason eng :
  store_wf (store eng) →
  store_wf (store (_apply_removals clock matched action target reason eng).2).
Proof.
  intros Hwf. rewrite apply_removals_store.
  by apply (removal_fold_wf clock reason matched ([], store eng)).
Qed.

(** A record is removed by a bulk removal exactly when it was active and
    passes the test. *)
Lemma bulk_removal_iff clock (P : ConditionRecord → bool)
  action target reason eng k r :
  store_wf (store eng) →
  PyDict.get (store eng) k = Some r → is_removed r = false →
  removed_in
    (store (_apply_removals clock (matching_active P (store eng))
              action target reason eng).2) k
  ↔ P r = true.
Proof.
  intros Hwf Hget Hact.
  destruct (bulk_removal_records clock P action target reason eng k r Hwf Hget)
    as [B1 B2].
  split.
  - intros (r' & Hr' & Hrem). destruct (P r) eqn:HP; [done|].
    rewrite (B2 (or_intror eq_refl)) in Hr'. injection Hr' as <-. congruence.
  - intros HP. destruct (B1 Hact HP) as [t Ht]. eexists. split; [exact Ht|done].
Qed.

(** X4. [remove_by_text] soft-removes an active record exactly when its
    searchable text contains the lower-cased target; every other record,
    active or removed, is left as it was, and no key appears or
    disappears. *)
Theorem X4_remove_by_text_exact
  (clock : nat → datetime) (target reason : string) (eng : CorrectionEngine)
  (k : string) (r : ConditionRecord) :
  store_wf (store eng) →
  PyDict.get (store eng) k = Some r →
  (is_removed r = false →
   removed_in (store (remove_by_text clock target reason eng).2) k
   ↔ PyStr.contains (PyStr.lower target) (searchable_text r) = true)
  ∧ (is_removed r = true
     ∨ PyStr.contains (PyStr.lower target) (searchable_text r) = false →
     PyDict.get (store (remove_by_text clock target reason eng).2) k = Some r)
  ∧ PyDict.keys (store (remove_by_text clock target reason eng).2)
    = PyDict.keys (store eng).
Proof.
  intros Hwf Hget. unfold remove_by_text.
  change (List.filter
            (fun r0 => PyStr.contains (PyStr.lower target) (searchable_text r0))
            (ConditionStore.get_all_active (store eng)))
    with (matching_active
            (fun r0 => PyStr.contains (PyStr.lower target) (searchable_text r0))
            (store eng)).
  set (P := fun r0 : ConditionRecord =>
              PyStr.contains (PyStr.lower target) (searchable_text r0)).
  split_and!.
  - intros Hact.
    exact (bulk_removal_iff clock P _ _ _ eng k r Hwf Hget Hact).
  - exact (proj2 (bulk_removal_records clock P _ _ _ eng k r Hwf Hget)).
  - rewrite apply_removals_store.
    destruct (matching_active_ok
                (fun r0 => PyStr.contains (PyStr.lower target) (searchable_text r0))
                (store eng) Hwf) as [Hok Hnd].
    by apply (removal_fold_all clock reason _ ([], store eng) Hok Hnd).
Qed.

(** X5. [remove_by_code] soft-removes an active record exactly when the
    code, as given, is one of its [all_codes]; every other record is left
    as it was. *)
Theorem X5_remove_by_code_exact
  (clock : nat → datetime) (code reason : string) (eng : CorrectionEngine)
  (k : string) (r : ConditionRecord) :
  store_wf (store eng) →
  PyDict.get (store eng) k = Some r →
  (is_removed r = false →
   removed_in (store (remove_by_code clock code reason eng).2) k
   ↔ code ∈ all_codes r)
  ∧ (is_removed r = true ∨ code ∉ all_codes r →
     PyDict.get (store (remove_by_code clock code reason eng).2) k = Some r).
Proof.
  intros Hwf Hget. unfold remove_by_code.
  change (List.filter (fun r0 => bool_decide (code ∈ all_codes r0))
            (ConditionStore.get_all_active (store eng)))
    with (matching_active (fun r0 => bool_decide (code ∈ all_codes r0))
            (store eng)).
  set (P := fun r0 : ConditionRecord => bool_decide (code ∈ all_codes r0)).
  split.
  - intros Hact.
    rewrite (bulk_removal_iff clock P _ _ _ eng k r Hwf Hget Hact).
    apply bool_decide_eq_true.
  - intros H.
    apply (bulk_removal_records clock P _ _ _ eng k r Hwf Hget).
    destruct H as [H|H]; [by left|]. right. by apply bool_decide_eq_false.
Qed.

Lemma predicates_admin_codes :
  PyDict.get PREDICATES "admin_codes"
  = Some (mkRemovalPredicate "admin_codes"
            "Non-clinical administrative entries" [] ∅ ∅ ["admin_code"]).
Proof. reflexivity. Qed.

(** X6. [remove_by_predicate("admin_codes", reason)] soft-removes an active
    record exactly when its quality flags contain [admin_code]; texts and
    codes play no part, and every other record is left as it was. *)
Theorem X6_admin_codes_predicate
  (clock : nat → datetime) (reason : string) (eng : CorrectionEngine)
  (k : string) (r : ConditionRecord) :
  store_wf (store eng) →
  PyDict.get (store eng) k = Some r →
  (is_removed r = false →
   removed_in
     (store (remove_by_predicate clock "admin_codes" reason eng).2) k
   ↔ "admin_code" ∈ quality_flags r)
  ∧ (is_removed r = true ∨ "admin_code" ∉ quality_flags r →
     PyDict.get
       (store (remove_by_predicate clock "admin_codes" reason eng).2) k
     = Some r).
Proof.
  intros Hwf Hget. unfold remove_by_predicate.
  rewrite predicates_admin_codes.
  set (pred := mkRemovalPredicate _ _ _ _ _ _).
  change (List.filter (fun r0 => _matches_predicate r0 pred)
            (ConditionStore.get_all_active (store eng)))
    with (matching_active (fun r0 => _matches_predicate r0 pred) (store eng)).
  assert (HP : ∀ r0, _matches_predicate r0 pred
                     = bool_decide ("admin_code" ∈ quality_flags r0)).
  { intros r0. unfold _matches_predicate, pred.
    cbn [pred_text_patterns pred_icd10_codes pred_snomed_codes
           pred_quality_flags existsb].
    rewrite !(bool_decide_eq_false_2 (∅ ≠ ∅)) by (by intros []).
    cbn [andb orb]. by rewrite orb_false_r. }
  set (P := fun r0 : ConditionRecord => _matches_predicate r0 pred).
  split.
  - intros Hact.
    rewrite (bulk_removal_iff clock P _ _ _ eng k r Hwf Hget Hact).
    unfold P. rewrite HP. apply bool_decide_eq_true.
  - intros H.
    apply (bulk_removal_records clock P _ _ _ eng k r Hwf Hget).
    destruct H as [H|H]; [by left|]. right. unfold P. rewrite HP.
    by apply bool_decide_eq_false.
Qed.

(** After a bulk removal no active record passes the test any more. *)
Lemma bulk_removal_exhausts clock (P : ConditionRecord → bool)
  action target reason eng :
  store_wf (store eng) →
  matching_active P
    (store (_apply_removals clock (matching_active P (store eng))
              action target reason eng).2) = [].
Proof.
  intros Hwf.
  set (eng1 := (_apply_removals clock (matching_active P (store eng))
                  action target reason eng).2).
  assert (Hwf1 : store_wf (store eng1)) by by apply bulk_removal_wf.
  destruct (matching_active P (store eng1)) as [|m ms] eqn:E; [done|].
  exfalso.
  assert (Hin : m ∈ matching_active P (store eng1))
    by (rewrite E; apply elem_of_cons; by left).
  destruct (proj1 (matching_active_ok P (store eng1) Hwf1) m Hin)
    as [Hget1 Hact1].
  assert (HP : P m = true).
  { apply list_elem_of_In, List.filter_In in Hin. tauto. }
  destruct (PyDict.get (store eng) (resource_id m)) as [r|] eqn:Hget.
  - destruct (bulk_removal_records clock P action target reason eng
                (resource_id m) r Hwf Hget) as [B1 B2].
    fold eng1 in B1, B2.
    destruct (is_removed r) eqn:Hact.
    + rewrite (B2 (or_introl eq_refl)) in Hget1. injection Hget1 as <-.
      congruence.
    + destruct (P r) eqn:HPr.
      * destruct (B1 eq_refl eq_refl) as [t Ht]. rewrite Ht in Hget1.
        injection Hget1 as <-. done.
      * rewrite (B2 (or_intror eq_refl)) in Hget1. injection Hget1 as <-.
        congruence.
  - pose proof (bulk_removal_absent clock P action target reason eng
                  (resource_id m) Hget) as Hnone.
    fold eng1 in Hnone. congruence.
Qed.

(** X7. A bulk removal that is repeated finds nothing left to remove: the
    second call of [remove_by_text], [remove_by_code] or
    [remove_by_predicate] with the same target fails with zero records
    removed and changes neither the store nor the audit trail, whatever
    its reason and the time of the call. *)
Theorem X7_repeated_removal_is_refused
  (clock1 clock2 : nat → datetime) (target reason1 reason2 : string)
  (eng : CorrectionEngine) :
  store_wf (store eng) →
  (remove_by_text clock2 target reason2
     (remove_by_text clock1 target reason1 eng).2
   = (_no_match target (remove_by_text clock1 target reason1 eng).2,
      (remove_by_text clock1 target reason1 eng).2))
  ∧ (remove_by_code clock2 target reason2
       (remove_by_code clock1 target reason1 eng).2
     = (_no_match target (remove_by_code clock1 target reason1 eng).2,
        (remove_by_code clock1 target reason1 eng).2))
  ∧ ((remove_by_predicate clock2 target reason2
        (remove_by_predicate clock1 target reason1 eng).2).2
     = (remove_by_predicate clock1 target reason1 eng).2
     ∧ success
         (remove_by_predicate clock2 target reason2
            (remove_by_predicate clock1 target reason1 eng).2).1 = false
     ∧ records_removed
         (remove_by_predicate clock2 target reason2
            (remove_by_predicate clock1 target reason1 eng).2).1 = 0).
Proof.
  intros Hwf. split; [|split].
  - unfold remove_by_text.
    set (P := fun r0 : ConditionRecord =>
                PyStr.contains (PyStr.lower target) (searchable_text r0)).
    change (List.filter P (ConditionStore.get_all_active (store eng)))
      with (matching_active P (store eng)).
    set (eng1 := (_apply_removals clock1 (matching_active P (store eng))
                    "remove_by_text" target reason1 eng).2).
    change (List.filter P (ConditionStore.get_all_active (store eng1)))
      with (matching_active P (store eng1)).
    unfold eng1. by rewrite bulk_removal_exhausts.
  - unfold remove_by_code.
    set (P := fun r0 : ConditionRecord => bool_decide (target ∈ all_codes r0)).
    change (List.filter P (ConditionStore.get_all_active (store eng)))
      with (matching_active P (store eng)).
    set (eng1 := (_apply_removals clock1 (matching_active P (store eng))
                    "remove_by_code" target reason1 eng).2).
    change (List.filter P (ConditionStore.get_all_active (store eng1)))
      with (matching_active P (store eng1)).
    unfold eng1. by rewrite bulk_removal_exhausts.
  - unfold remove_by_predicate.
    destruct (PyDict.get PREDICATES target) as [pred|]; [|done].
    set (P := fun r0 : ConditionRecord => _matches_predicate r0 pred).
    change (List.filter P (ConditionStore.get_all_active (store eng)))
      with (matching_active P (store eng)).
    set (eng1 := (_apply_removals clock1 (matching_active P (store eng))
                    "remove_by_predicate" target reason1 eng).2).
    change (List.filter P (ConditionStore.get_all_active (store eng1)))
      with (matching_active P (store eng1)).
    unfold eng1. by rewrite bulk_removal_exhausts.
Qed.

(** X8. [remove_by_id] has three outcomes.  An id that is not stored fails
    with the message that nothing matches; an id whose record is already
    removed fails with its own message; in both cases nothing changes.  An
    id of an active record succeeds: that record alone is marked removed,
    with the reason given, one audit entry with count 1 is appended and one
    record moves from the active to the removed count. *)
Theorem X8_remove_by_id_outcomes
  (clock : nat → datetime) (rid reason : string) (eng : CorrectionEngine) :
  store_wf (store eng) →
  (PyDict.get (store eng) rid = None →
   remove_by_id clock rid reason eng = (_no_match rid eng, eng)
   ∧ message (_no_match rid eng)
     = "No active conditions found matching " +:+ String "034" rid
       +:+ String "034" ".")
  ∧ (∀ r, PyDict.get (store eng) rid = Some r → is_removed r = true →
       remove_by_id clock rid reason eng = (_already_removed rid eng, eng)
       ∧ success (_already_removed rid eng) = false
       ∧ message (_already_removed rid eng)
         = "Condition " +:+ String "034" rid +:+ String "034"
           " is already removed.")
  ∧ (∀ r, PyDict.get (store eng) rid = Some r → is_removed r = false →
       success (remove_by_id clock rid reason eng).1 = true
       ∧ records_removed (remove_by_id clock rid reason eng).1 = 1
       ∧ removed_conditions (remove_by_id clock rid reason eng).1
         = Some [removal_label r]
       ∧ PyDict.get (store (remove_by_id clock rid reason eng).2) rid
         = Some (ConditionStore.mark_removed (Datetime.now_utc (clock 0))
                   reason r)
       ∧ (∀ k, k ≠ rid →
            PyDict.get (store (remove_by_id clock rid reason eng).2) k
            = PyDict.get (store eng) k)
       ∧ S (ConditionStore.active_count
              (store (remove_by_id clock rid reason eng).2))
         = ConditionStore.active_count (store eng)
       ∧ active_remaining (remove_by_id clock rid reason eng).1
         = ConditionStore.active_count
             (store (remove_by_id clock rid reason eng).2)
       ∧ corrections (dashboard (remove_by_id clock rid reason eng).2)
         = corrections (dashboard eng)
           ++ [mkCorrectionEntry
                 (Datetime.isoformat (Datetime.now_utc (clock 1)))
                 "remove_by_id" rid reason 1]).
Proof.
  intros Hwf. unfold remove_by_id, ConditionStore.get_by_id. split_and!.
  - by intros ->.
  - by intros r -> ->.
  - intros r Hget Hact. rewrite Hget, Hact.
    assert (Hid : resource_id r = rid).
    { apply Hwf. by apply dict_get_Some_elem. }
    assert (Hstep : removal_step clock reason ([], store eng) r
                    = ([removal_label r],
                       PyDict.set (store eng) rid
                         (ConditionStore.mark_removed
                            (Datetime.now_utc (clock 0)) reason r))).
    { unfold removal_step, ConditionStore.soft_remove, removal_label.
      cbn [fst snd length]. by rewrite Hid, Hget, Hact. }
    unfold _apply_removals. cbn [foldl]. rewrite Hstep.
    cbn [fst snd app length store dashboard success
      records_removed removed_conditions active_remaining
      Monitoring.record_correction corrections].
    split_and!; try done.
    + apply dict_get_set_eq.
    + intros k Hk. by apply dict_get_set_ne.
    + destruct (soft_remove_counts (clock 0) rid reason (store eng))
        as [(_ & _ & C2 & _)|(Hf & _)].
      * unfold ConditionStore.soft_remove in C2. by rewrite Hget, Hact in C2.
      * unfold ConditionStore.soft_remove in Hf. by rewrite Hget, Hact in Hf.
Qed.

(** X9. A predicate name other than [tuberculosis] and [admin_codes]
    (names are compared as written, so also [Tuberculosis]) is refused:
    the result is a failure with nothing removed, its message lists the
    available names in alphabetical order, and the store and the audit
    trail are unchanged. *)
Theorem X9_unknown_predicate_is_refused
  (clock : nat → datetime) (name reason : string) (eng : CorrectionEngine) :
  name ≠ "tuberculosis" → name ≠ "admin_codes" →
  remove_by_predicate clock name reason eng
  = (mkRemovalResult false
       ("Unknown predicate " +:+ String "034" name +:+ String "034"
        ". Available: admin_codes, tuberculosis")
       0 None (ConditionStore.active_count (store eng)),
     eng).
Proof.
  intros H1 H2. unfold remove_by_predicate.
  assert (PyDict.get PREDICATES name = None) as ->; [|done].
  apply dict_get_None_keys. cbn. rewrite !not_elem_of_cons.
  split_and!; [congruence | congruence | apply not_elem_of_nil].
Qed.

(* ================================================================== *)
(** * Histories of removals *)
(* ================================================================== *)

Lemma records_affected_total_snoc (d : MonitoringDashboard) (e : CorrectionEntry) :
  sum_list (map entry_records_affected (corrections d ++ [e]))
  = records_affected_total d + entry_records_affected e.
Proof.
  unfold records_affected_total. rewrite map_app.
  rewrite sum_list_with_app. cbn. unfold id. lia.
Qed.

Lemma removal_effect_refl eng : store_wf (store eng) → removal_effect eng eng.
Proof.
  intros Hwf. split; try done.
  - exists []. by rewrite app_nil_r.
  - intros k r Hget. exists r. split; [done | by left].
Qed.

Lemma removal_effect_trans eng1 eng2 eng3 :
  removal_effect eng1 eng2 → removal_effect eng2 eng3 →
  removal_effect eng1 eng3.
Proof.
  intros [W1 K1 A1 [n1 T1] [B1 Q1] R1] [W2 K2 A2 [n2 T2] [B2 Q2] R2].
  split.
  - done.
  - by rewrite K2.
  - lia.
  - exists (n1 ++ n2). by rewrite T2, T1, app_assoc.
  - split; congruence.
  - intros k r Hget. destruct (R1 k r Hget) as (r1 & G1 & S1).
    destruct (R2 k r1 G1) as (r2 & G2 & S2).
    exists r2. split; [done|]. by eapply same_or_removed_trans.
Qed.

(** The effect of [_apply_removals] on distinct active records of the
    store. *)
Lemma apply_removals_effect clock matched action target reason eng :
  store_wf (store eng) →
  (∀ m, m ∈ matched →
        PyDict.get (store eng) (resource_id m) = Some m
        ∧ is_removed m = false) →
  NoDup (map resource_id matched) →
  removal_effect eng
    (_apply_removals clock matched action target reason eng).2.
Proof.
  intros Hwf Hok Hnd.
  destruct (removal_fold_all clock reason matched ([], store eng) Hok Hnd)
    as (F1 & F2 & F3 & F4).
  cbn [fst snd app] in F1, F2, F3, F4.
  split.
  - by apply bulk_removal_wf.
  - by rewrite apply_removals_store.
  - rewrite apply_removals_store, F3.
    destruct matched as [|m ms]; [cbn; lia|].
    assert (Hd : records_affected_total
                   (dashboard (_apply_removals clock (m :: ms) action target
                                 reason eng).2)
                 = records_affected_total (dashboard eng)
                   + length (m :: ms)).
    { unfold _apply_removals.
      cbn [snd dashboard].
      unfold records_affected_total at 1, Monitoring.record_correction.
      cbn [corrections].
      rewrite records_affected_total_snoc. cbn [entry_records_affected].
      by rewrite F1, length_map. }
    rewrite Hd. lia.
  - destruct matched as [|m ms]; [exists []; by rewrite app_nil_r|].
    unfold _apply_removals, Monitoring.record_correction.
    cbn [snd dashboard corrections]. by eexists.
  - by destruct matched.
  - intros k r Hget. rewrite apply_removals_store.
    destruct (removal_fold clock reason matched ([], store eng) k)
      as (G1 & G2 & _).
    cbn [snd] in G1, G2.
    destruct (is_removed r) eqn:Hact.
    + exists r. split; [|by left]. apply (G2 r Hget). by left.
    + destruct (decide (k ∈ map resource_id matched)) as [Hin|Hin].
      * destruct (G1 r Hget Hact Hin) as [t Ht].
        eexists. split; [exact Ht|]. right. split; [done|]. by eexists _, _.
      * exists r. split; [|by left]. apply (G2 r Hget). by right.
Qed.

Lemma engine_step_effect eng op :
  store_wf (store eng) → removal_effect eng (engine_step eng op).
Proof.
  intros Hwf.
  destruct op as [clock target reason|clock code reason|clock rid reason
                 |clock name reason]; cbn [engine_step].
  - unfold remove_by_text.
    apply apply_removals_effect; [done| |];
      apply (matching_active_ok
               (fun r => PyStr.contains (PyStr.lower target) (searchable_text r))
               (store eng) Hwf).
  - unfold remove_by_code.
    apply apply_removals_effect; [done| |];
      apply (matching_active_ok
               (fun r => bool_decide (code ∈ all_codes r)) (store eng) Hwf).
  - unfold remove_by_id, ConditionStore.get_by_id.
    destruct (PyDict.get (store eng) rid) as [r|] eqn:Hget;
      [|by apply removal_effect_refl].
    destruct (is_removed r) eqn:Hact; [by apply removal_effect_refl|].
    apply apply_removals_effect; [done| |].
    + intros m ->%list_elem_of_singleton.
      assert (resource_id r = rid) as ->; [|done].
      apply Hwf. by apply dict_get_Some_elem.
    + apply NoDup_singleton.
  - unfold remove_by_predicate.
    destruct (PyDict.get PREDICATES name) as [pred|];
      [|by apply removal_effect_refl].
    apply apply_removals_effect; [done| |];
      apply (matching_active_ok (fun r => _matches_predicate r pred)
               (store eng) Hwf).
Qed.

Lemma engine_history_effect (ops : list EngineOp) eng :
  store_wf (store eng) → removal_effect eng (foldl engine_step eng ops).
Proof.
  revert eng. induction ops as [|op ops IH]; intros eng Hwf.
  - by apply removal_effect_refl.
  - cbn [foldl]. pose proof (engine_step_effect eng op Hwf) as H.
    eapply removal_effect_trans; [exact H|]. apply IH, H.
Qed.

(** X10. Along any history of removals through the engine (by text, code,
    id or predicate, successful or not) the audit trail accounts for the
    store: the records reported as affected by the new audit entries are
    exactly the records removed since.  Audit entries are only appended,
    the store keeps its keys, every record is the record it was or that
    record soft-removed, and the ingestion metrics are untouched.  For an
    engine that starts with nothing removed and an empty trail,
    [list_corrections] reports a removed total equal to the sum of its
    entries. *)
Theorem X10_audit_accounts_for_removals
  (ops : list EngineOp) (eng : CorrectionEngine) :
  store_wf (store eng) →
  store_wf (store (foldl engine_step eng ops))
  ∧ ConditionStore.removed_count (store (foldl engine_step eng ops))
    + records_affected_total (dashboard eng)
    = ConditionStore.removed_count (store eng)
      + records_affected_total (dashboard (foldl engine_step eng ops))
  ∧ (∃ new, corrections (dashboard (foldl engine_step eng ops))
            = corrections (dashboard eng) ++ new)
  ∧ PyDict.keys (store (foldl engine_step eng ops)) = PyDict.keys (store eng)
  ∧ (∀ k r, PyDict.get (store eng) k = Some r →
       ∃ r', PyDict.get (store (foldl engine_step eng ops)) k = Some r'
             ∧ same_or_removed r r')
  ∧ ingestion_batches (dashboard (foldl engine_step eng ops))
    = ingestion_batches (dashboard eng)
  ∧ (ConditionStore.removed_count (store eng) = 0 →
     corrections (dashboard eng) = [] →
     listing_total_records_removed
       (list_corrections (foldl engine_step eng ops))
     = sum_list
         (map entry_records_affected
            (listing_corrections
               (list_corrections (foldl engine_step eng ops))))).
Proof.
  intros Hwf.
  destruct (engine_history_effect ops eng Hwf) as [W K A T [B Q] R].
  split_and!; try done.
  intros H0 Hnil. unfold list_corrections.
  cbn [listing_total_records_removed listing_corrections].
  unfold records_affected_total in A. rewrite Hnil in A. cbn in A. lia.
Qed.

(** Instances on the sample engine. *)

Lemma sample_engine_wf : store_wf (store sample_engine).
Proof.
  apply (store_wf_add Sample.latent_tb [entry Sample.asthma]),
    (store_wf_add Sample.asthma ConditionStore.empty), store_wf_empty.
Qed.

Lemma X4_remove_by_text_exact_witness :
  removed_in
    (store (remove_by_text (fun _ => Sample.clock) "Latent TB" "not mine"
              sample_engine).2) "cond-0006".
Proof.
  destruct (X4_remove_by_text_exact (fun _ => Sample.clock) "Latent TB"
              "not mine" sample_engine "cond-0006" Sample.latent_tb
              sample_engine_wf eq_refl) as [H _].
  apply (H eq_refl). vm_compute. reflexivity.
Defined.

Lemma X5_remove_by_code_exact_witness :
  removed_in
    (store (remove_by_code (fun _ => Sample.clock) "11999007" "not mine"
              sample_engine).2) "cond-0006".
Proof.
  destruct (X5_remove_by_code_exact (fun _ => Sample.clock) "11999007"
              "not mine" sample_engine "cond-0006" Sample.latent_tb
              sample_engine_wf eq_refl) as [H _].
  apply (H eq_refl). apply (bool_decide_unpack _). vm_compute. exact I.
Defined.

Lemma X6_admin_codes_predicate_witness :
  PyDict.get
    (store (remove_by_predicate (fun _ => Sample.clock) "admin_codes"
              "not clinical" sample_engine).2) "cond-0006"
  = Some Sample.latent_tb.
Proof.
  destruct (X6_admin_codes_predicate (fun _ => Sample.clock) "not clinical"
              sample_engine "cond-0006" Sample.latent_tb
              sample_engine_wf eq_refl) as [_ H].
  apply H. right. apply not_elem_of_nil.
Defined.

Lemma X7_repeated_removal_is_refused_witness :
  remove_by_text (fun _ => Sample.clock) "latent" "again"
    (remove_by_text (fun _ => Sample.clock) "latent" "not mine"
       sample_engine).2
  = (_no_match "latent"
       (remove_by_text (fun _ => Sample.clock) "latent" "not mine"
          sample_engine).2,
     (remove_by_text (fun _ => Sample.clock) "latent" "not mine"
        sample_engine).2).
Proof.
  exact (proj1 (X7_repeated_removal_is_refused (fun _ => Sample.clock)
                  (fun _ => Sample.clock) "latent" "not mine" "again"
                  sample_engine sample_engine_wf)).
Defined.

Lemma X8_remove_by_id_outcomes_witness :
  records_removed
    (remove_by_id (fun _ => Sample.clock) "cond-0006" "not mine"
       sample_engine).1 = 1.
Proof.
  destruct (X8_remove_by_id_outcomes (fun _ => Sample.clock) "cond-0006"
              "not mine" sample_engine sample_engine_wf) as (_ & _ & H).
  exact (proj1 (proj2 (H Sample.latent_tb eq_refl eq_refl))).
Defined.

Lemma X9_unknown_predicate_is_refused_witness :
  success
    (remove_by_predicate (fun _ => Sample.clock) "diabetes" "not mine"
       sample_engine).1 = false.
Proof.
  rewrite (X9_unknown_predicate_is_refused (fun _ => Sample.clock) "diabetes"
             "not mine" sample_engine).
  - reflexivity.
  - intros E. discriminate E.
  - intros E. discriminate E.
Defined.

Lemma X10_audit_accounts_for_removals_witness :
  PyDict.keys
    (store (foldl engine_step sample_engine
              [ DoRemoveText (fun _ => Sample.clock) "latent" "not mine";
                DoRemoveId (fun _ => Sample.clock) "cond-0001" "nor this";
                DoRemoveCode (fun _ => Sample.clock) "J45.909" "again" ]))
  = ["cond-0001"; "cond-0006"].
Proof.
  destruct (X10_audit_accounts_for_removals
              [ DoRemoveText (fun _ => Sample.clock) "latent" "not mine";
                DoRemoveId (fun _ => Sample.clock) "cond-0001" "nor this";
                DoRemoveCode (fun _ => Sample.clock) "J45.909" "again" ]
              sample_engine sample_engine_wf) as (_ & _ & _ & H & _).
  exact H.
Defined.

(* ================================================================== *)
(** * The dashboard and the store *)
(* ================================================================== *)

(** The totals that [record_batch] keeps. *)
Lemma record_batch_totals (m : BatchMetrics) (d : MonitoringDashboard) f :
  default 0 (quality_flags_total (Monitoring.record_batch m d) !! f)
  = default 0 (quality_flags_total d !! f) + default 0 (flags m !! f).
Proof.
  unfold Monitoring.record_batch. cbn [quality_flags_total].
  generalize (flags m). intros fl.
  apply (map_fold_weak_ind
           (fun (r : gmap string nat) (fl : gmap string nat) =>
              default 0 (r !! f)
              = default 0 (quality_flags_total d !! f) + default 0 (fl !! f))).
  - rewrite lookup_empty. cbn. lia.
  - intros i x m0 r Hi IH.
    destruct (decide (i = f)) as [->|Hne].
    + rewrite !lookup_insert_eq. rewrite Hi in IH. cbn in *. lia.
    + by rewrite !lookup_insert_ne.
Qed.

Lemma flag_occurrences_app f (l1 l2 : list ConditionRecord) :
  flag_occurrences f (l1 ++ l2)
  = flag_occurrences f l1 + flag_occurrences f l2.
Proof.
  unfold flag_occurrences. by rewrite map_app, sum_list_with_app.
Qed.

Lemma fresh_records_sub seen rs r :
  r ∈ fresh_records seen rs → r ∈ rs.
Proof.
  revert seen. induction rs as [|x rs IH]; intros seen; cbn [fresh_records].
  - done.
  - case_bool_decide.
    + intros H0. apply elem_of_cons. right. by eapply IH.
    + intros [->|H0]%elem_of_cons; apply elem_of_cons; [by left|].
      right. by eapply IH.
Qed.

(** Appending the fresh records keeps a store well-formed. *)
Lemma store_wf_fresh (s : list (string * ConditionRecord)) rs :
  store_wf s →
  store_wf (s ++ map entry (fresh_records (PyDict.keys s) rs)).
Proof.
  revert s. induction rs as [|r rs IH]; intros s Hwf; cbn [fresh_records].
  - cbn. by rewrite app_nil_r.
  - case_bool_decide as Hin; [by apply IH|].
    cbn [map]. rewrite cons_middle, app_assoc.
    assert (Hk : PyDict.keys (s ++ [entry r]) = PyDict.keys s ++ [resource_id r]).
    { unfold PyDict.keys. by rewrite map_app. }
    rewrite <- Hk. apply IH. destruct Hwf as [Hnd Hid]. split.
    + rewrite Hk. apply NoDup_app. split_and!; [done| |apply NoDup_singleton].
      intros x Hx ->%list_elem_of_singleton. done.
    + intros k r0 [H0|H0]%elem_of_app; [by apply Hid|].
      apply list_elem_of_singleton in H0. by injection H0 as -> ->.
Qed.

Lemma removed_count_app (s1 s2 : list (string * ConditionRecord)) :
  ConditionStore.removed_count (s1 ++ s2)
  = ConditionStore.removed_count s1 + ConditionStore.removed_count s2.
Proof.
  unfold ConditionStore.removed_count, PyDict.values.
  by rewrite map_app, List.filter_app, length_app.
Qed.

Lemma removed_count_active (rs : list ConditionRecord) :
  (∀ r, r ∈ rs → is_removed r = false) →
  ConditionStore.removed_count (map entry rs) = 0.
Proof.
  induction rs as [|r rs IH]; intros H; [done|].
  unfold ConditionStore.removed_count in *. cbn [map PyDict.values entry snd List.filter].
  rewrite (H r) by (apply elem_of_cons; by left).
  apply IH. intros r0 H0. apply H, elem_of_cons. by right.
Qed.

Lemma values_entries (rs : list ConditionRecord) :
  PyDict.values (map entry rs) = rs.
Proof.
  unfold PyDict.values. rewrite map_map. cbn. apply map_id.
Qed.

Lemma built_records_active fromisoformat n raws r :
  r ∈ built_records fromisoformat n raws → is_removed r = false.
Proof.
  unfold built_records. intros (raw & _ & H)%list_elem_of_omap.
  destruct (build_condition_record fromisoformat raw n) as [r0|e] eqn:E;
    [|done].
  injection H as ->.
  by destruct (build_ok _ _ _ _ E) as (c & _ & _ & _ & _ & _ & _ & ? & _).
Qed.

(** Two dictionaries with the same distinct keys, related key by key, hold
    related values in the same order. *)
Lemma dict_pointwise {V : Type} (R : V → V → Prop)
  (d d' : list (string * V)) :
  NoDup (PyDict.keys d) → PyDict.keys d' = PyDict.keys d →
  (∀ k v, PyDict.get d k = Some v →
          ∃ v', PyDict.get d' k = Some v' ∧ R v v') →
  Forall2 R (PyDict.values d) (PyDict.values d').
Proof.
  revert d'. induction d as [|[k v] d IH]; intros [|[k' v'] d'] Hnd Hk HR;
    try discriminate Hk; [constructor|].
  cbn in Hk. injection Hk as -> Hk. cbn in Hnd.
  apply NoDup_cons in Hnd as [Hk' Hnd].
  cbn [PyDict.values map snd]. constructor.
  - destruct (HR k v) as (v0 & Hg & Hr); [cbn; by rewrite String.eqb_refl|].
    cbn in Hg. rewrite String.eqb_refl in Hg. by injection Hg as ->.
  - apply IH; [done|done|]. intros k2 v2 Hg2.
    assert (k ≠ k2).
    { intros ->. apply Hk'. apply dict_get_Some_elem in Hg2.
      unfold PyDict.keys. apply list_elem_of_fmap. by exists (k2, v2). }
    destruct (HR k2 v2) as (v0 & Hg & Hr).
    + cbn. by rewrite (proj2 (String.eqb_neq k k2)).
    + cbn in Hg. rewrite (proj2 (String.eqb_neq k k2)) in Hg by done.
      by exists v0.
Qed.

Lemma same_or_removed_flags r r' :
  same_or_removed r r' → quality_flags r' = quality_flags r.
Proof. by intros [->|(_ & t & reason & ->)]. Qed.

Lemma flag_occurrences_related f (l l' : list ConditionRecord) :
  Forall2 same_or_removed l l' →
  flag_occurrences f l' = flag_occurrences f l.
Proof.
  induction 1 as [|r r' l l' Hr _ IH]; [done|].
  rewrite !flag_occurrences_cons, IH. by rewrite (same_or_removed_flags r r').
Qed.

Lemma sum_list_snoc (l : list nat) (x : nat) :
  sum_list (l ++ [x]) = sum_list l + x.
Proof. rewrite sum_list_with_app. cbn. unfold id. lia. Qed.

Lemma ledger_fresh : ledger_matches_store fresh_system.
Proof.
  split; try done. apply store_wf_empty.
Qed.

Lemma ledger_ingest fromisoformat raws n eng :
  ledger_matches_store eng →
  ledger_matches_store (system_step fromisoformat eng (DoIngest raws n)).
Proof.
  intros [Hwf Hadd Hrem Hfl Hrec]. cbn [system_step].
  unfold ingest_batch.
  destruct (ingest_fold fromisoformat n raws
              (mkIngestState (mkBatchMetrics n (length raws) 0 0 0 ∅) ∅
                 (store eng)))
    as (H1 & H2 & H3 & H4 & H5 & H6 & H7).
  cbn [ing_store ing_metrics ing_flag_counts batch_number received added
         skipped_duplicate errored flags fst snd store dashboard] in *.
  set (st := foldl (ingest_step fromisoformat n) _ raws) in *.
  set (fresh := fresh_records (PyDict.keys (store eng))
                  (built_records fromisoformat n raws)) in *.
  pose proof (built_failed_length fromisoformat n raws) as Hlen.
  split; cbn [store dashboard].
  - rewrite H1. by apply store_wf_fresh.
  - unfold Monitoring.record_batch. cbn [ingestion_batches].
    rewrite map_app. cbn [map added]. rewrite sum_list_snoc.
    unfold ConditionStore.total_count in *.
    rewrite H1, length_app, length_map, Hadd, H5. cbn. lia.
  - rewrite H1, removed_count_app, Hrem.
    rewrite removed_count_active; [done|].
    intros r Hr%fresh_records_sub. by eapply built_records_active.
  - intros f. rewrite record_batch_totals. cbn [flags].
    rewrite Hfl, H2, lookup_empty. unfold ConditionStore.iterate.
    rewrite H1. unfold PyDict.values at 2. rewrite map_app.
    rewrite flag_occurrences_app. fold (PyDict.values (map entry fresh)).
    by rewrite values_entries.
  - unfold Monitoring.record_batch. cbn [ingestion_batches].
    apply Forall_app. split; [done|]. constructor; [|constructor].
    cbn [received added skipped_duplicate errored]. lia.
Qed.

Lemma ledger_remove eng op :
  ledger_matches_store eng →
  ledger_matches_store (engine_step eng op).
Proof.
  intros [Hwf Hadd Hrem Hfl Hrec].
  destruct (engine_step_effect eng op Hwf) as [W K A T [B Q] R].
  split.
  - done.
  - unfold ConditionStore.total_count in *.
    rewrite B, <- Hadd, <- (length_map fst (store (engine_step eng op))).
    fold (PyDict.keys (store (engine_step eng op))).
    rewrite K. unfold PyDict.keys. by rewrite length_map.
  - lia.
  - intros f. rewrite Q, Hfl. symmetry. unfold ConditionStore.iterate.
    apply flag_occurrences_related.
    apply dict_pointwise; [apply Hwf|done|done].
  - by rewrite B.
Qed.

Lemma ledger_history fromisoformat (ops : list SystemOp) eng :
  ledger_matches_store eng →
  ledger_matches_store (foldl (system_step fromisoformat) eng ops).
Proof.
  revert eng. induction ops as [|op ops IH]; intros eng H; [done|].
  cbn [foldl]. apply IH. destruct op as [raws n|op].
  - by apply ledger_ingest.
  - by apply ledger_remove.
Qed.

(** X11. Whatever batches are ingested and whatever removals are made on
    the system that [main] sets up, the status report agrees with the
    store: [total_removed] equals [conditions_removed], the sum of the
    audit entries; active and removed records together are as many as the
    batches added; [total_conditions_loaded] splits into added, duplicate
    and errored inputs; and the total of each quality flag is the number
    of its occurrences on the stored records, removed ones included. *)
Theorem X11_status_agrees_with_store
  (fromisoformat : string → option datetime) (ops : list SystemOp) :
  let eng := foldl (system_step fromisoformat) fresh_system ops in
  let st := get_status eng in
  store_wf (store eng)
  ∧ status_total_removed st = status_conditions_removed st
  ∧ status_total_active st + status_total_removed st
    = sum_list (map added (status_ingestion_batches st))
  ∧ status_total_conditions_loaded st
    = sum_list (map added (status_ingestion_batches st))
      + sum_list (map skipped_duplicate (status_ingestion_batches st))
      + sum_list (map errored (status_ingestion_batches st))
  ∧ (∀ f, default 0 (status_quality_flags_total st !! f)
          = flag_occurrences f (ConditionStore.iterate (store eng))).
Proof.
  intros eng st.
  destruct (ledger_history fromisoformat ops fresh_system ledger_fresh)
    as [Hwf Hadd Hrem Hfl Hrec].
  fold eng in Hwf, Hadd, Hrem, Hfl, Hrec.
  unfold st, get_status, get_system_status.
  cbn [status_total_removed status_conditions_removed status_total_active
         status_ingestion_batches status_total_conditions_loaded
         status_quality_flags_total].
  split_and!; [done|done| | |done].
  - rewrite <- Hadd. unfold ConditionStore.total_count,
      ConditionStore.active_count, ConditionStore.removed_count.
    rewrite <- (length_map snd (store eng)).
    symmetry. apply (filter_partition_length (fun r => is_removed r)).
  - clear -Hrec. induction Hrec as [|b bs Hb _ IH]; [done|].
    cbn [map]. cbn. cbn in IH. unfold id in *. lia.
Qed.

(* ================================================================== *)
(** * Further properties of batch ingestion *)
(* ================================================================== *)

Lemma dict_get_app_Some {V : Type} (d1 d2 : list (string * V)) k v :
  PyDict.get d1 k = Some v → PyDict.get (d1 ++ d2) k = Some v.
Proof.
  induction d1 as [|[k' v'] d1 IH]; [done|]. cbn.
  destruct (String.eqb k' k); [done | apply IH].
Qed.

Lemma dict_get_app_None {V : Type} (d1 d2 : list (string * V)) k :
  PyDict.get d1 k = None → PyDict.get (d1 ++ d2) k = PyDict.get d2 k.
Proof.
  induction d1 as [|[k' v'] d1 IH]; [done|]. cbn.
  destruct (String.eqb k' k); [done | apply IH].
Qed.

Lemma dict_get_entries (rs : list ConditionRecord) k r :
  PyDict.get (map entry rs) k = Some r → r ∈ rs ∧ resource_id r = k.
Proof.
  induction rs as [|x rs IH]; [done|]. cbn.
  destruct (String.eqb (resource_id x) k) eqn:E.
  - intros [= ->]. apply String.eqb_eq in E. split; [|done].
    apply elem_of_cons. by left.
  - intros H. destruct (IH H). split; [|done]. apply elem_of_cons. by right.
Qed.

Lemma active_count_entries (rs : list ConditionRecord) :
  (∀ r, r ∈ rs → is_removed r = false) →
  ConditionStore.active_count (map entry rs) = length rs.
Proof.
  induction rs as [|r rs IH]; intros H; [done|].
  unfold ConditionStore.active_count in *.
  cbn [map PyDict.values entry snd List.filter].
  rewrite (H r) by (apply elem_of_cons; by left). cbn [negb length].
  f_equal. apply IH. intros r0 H0. apply H, elem_of_cons. by right.
Qed.

Lemma built_records_from fromisoformat n raws r :
  r ∈ built_records fromisoformat n raws ↔
  ∃ raw, raw ∈ raws ∧ build_condition_record fromisoformat raw n = Ok r.
Proof.
  unfold built_records. rewrite list_elem_of_omap.
  split; intros (raw & Hin & H); exists raw; (split; [done|]).
  - destruct (build_condition_record fromisoformat raw n); by inversion H.
  - by rewrite H.
Qed.

Lemma build_batch fromisoformat raw n r :
  build_condition_record fromisoformat raw n = Ok r →
  ingestion_batch r = Some n.
Proof.
  unfold build_condition_record.
  destruct (Pydantic.model_validate raw) as [c|e]; simpl; [|done].
  destruct (_detect_quality_flags _ _ _ _ _) as [fl|e]; simpl; [|done].
  by intros [= <-].
Qed.

(** The batch number decides neither whether a record builds nor its
    identity. *)
Lemma build_any_batch fromisoformat raw n n' :
  match build_condition_record fromisoformat raw n,
        build_condition_record fromisoformat raw n' with
  | Ok r, Ok r' => resource_id r = resource_id r'
  | Raise e, Raise e' => e = e'
  | _, _ => False
  end.
Proof.
  unfold build_condition_record.
  destruct (Pydantic.model_validate raw) as [c|e]; simpl; [|done].
  by destruct (_detect_quality_flags _ _ _ _ _) as [fl|e]; simpl.
Qed.

Lemma built_ids_any_batch fromisoformat n n' raws :
  map resource_id (built_records fromisoformat n raws)
  = map resource_id (built_records fromisoformat n' raws).
Proof.
  unfold built_records. induction raws as [|raw raws IH]; [done|].
  cbn [omap list_omap].
  pose proof (build_any_batch fromisoformat raw n n') as H.
  destruct (build_condition_record fromisoformat raw n),
    (build_condition_record fromisoformat raw n'); try done.
  cbn [map]. by rewrite H, IH.
Qed.

Lemma failed_any_batch fromisoformat n n' raws :
  failed_inputs fromisoformat n raws = failed_inputs fromisoformat n' raws.
Proof.
  unfold failed_inputs. induction raws as [|raw raws IH]; [done|].
  cbn [List.filter].
  pose proof (build_any_batch fromisoformat raw n n') as H.
  destruct (build_condition_record fromisoformat raw n),
    (build_condition_record fromisoformat raw n'); try done;
    cbn [is_ok negb]; by rewrite IH.
Qed.

Lemma fresh_records_known seen rs :
  (∀ r, r ∈ rs → resource_id r ∈ seen) → fresh_records seen rs = [].
Proof.
  induction rs as [|r rs IH]; intros H; [done|]. cbn [fresh_records].
  rewrite bool_decide_eq_true_2 by (apply H, elem_of_cons; by left).
  apply IH. intros r0 H0. apply H, elem_of_cons. by right.
Qed.

Lemma fresh_records_cover seen rs r :
  r ∈ rs →
  resource_id r ∈ seen ++ map resource_id (fresh_records seen rs).
Proof.
  revert seen. induction rs as [|x rs IH]; intros seen Hin.
  - by apply elem_of_nil in Hin.
  - cbn [fresh_records]. apply elem_of_cons in Hin as [->|Hin].
    + case_bool_decide as Hx.
      * apply elem_of_app. by left.
      * cbn [map]. apply elem_of_app. right. apply elem_of_cons. by left.
    + case_bool_decide as Hx; [by apply IH|].
      cbn [map]. rewrite cons_middle, app_assoc. by apply IH.
Qed.

Section ingest_more.
Context (fromisoformat : string → option datetime).

(** What a batch makes of the store. *)
Lemma ingest_batch_store raws n store dashboard :
  (ingest_batch fromisoformat raws n store dashboard).1.2
  = store ++ map entry (fresh_records (PyDict.keys store)
                          (built_records fromisoformat n raws)).
Proof.
  unfold ingest_batch. cbn [fst snd].
  by destruct (ingest_fold fromisoformat n raws
                 (mkIngestState (mkBatchMetrics n (length raws) 0 0 0 ∅) ∅
                    store)) as (H1 & _).
Qed.

Lemma ingest_batch_metrics raws n store dashboard :
  let m := (ingest_batch fromisoformat raws n store dashboard).1.1 in
  let fresh := fresh_records (PyDict.keys store)
                 (built_records fromisoformat n raws) in
  received m = length raws
  ∧ added m = length fresh
  ∧ skipped_duplicate m + length fresh
    = length (built_records fromisoformat n raws)
  ∧ errored m = length (failed_inputs fromisoformat n raws)
  ∧ (∀ f, default 0 (flags m !! f) = flag_occurrences f fresh)
  ∧ (ingest_batch fromisoformat raws n store dashboard).2
    = Monitoring.record_batch m dashboard.
Proof.
  unfold ingest_batch. cbn [fst snd].
  destruct (ingest_fold fromisoformat n raws
              (mkIngestState (mkBatchMetrics n (length raws) 0 0 0 ∅) ∅
                 store)) as (H1 & H2 & H3 & H4 & H5 & H6 & H7).
  cbn [ing_store ing_metrics ing_flag_counts batch_number received added
         skipped_duplicate errored flags] in *.
  split_and!; try done; intros f; by rewrite H2, lookup_empty.
Qed.

(** X12. [ingest_batch] only appends to the store.  Every record stored
    before the batch, removed ones included, is still stored unchanged, so
    an id that was soft-removed is not brought back by a later batch that
    carries it.  The number of removed records is as before, and the
    active and the total count grow by [added].  A record stored by the
    batch is active, carries the batch number, and was built from an
    input of the batch with that id. *)
Theorem X12_ingestion_only_appends
  (raws : list (list (string * json))) (n : Z)
  (store : list (string * ConditionRecord)) (dashboard : MonitoringDashboard) :
  let m := (ingest_batch fromisoformat raws n store dashboard).1.1 in
  let store' := (ingest_batch fromisoformat raws n store dashboard).1.2 in
  (∀ k r, PyDict.get store k = Some r → PyDict.get store' k = Some r)
  ∧ ConditionStore.removed_count store' = ConditionStore.removed_count store
  ∧ ConditionStore.active_count store'
    = ConditionStore.active_count store + added m
  ∧ ConditionStore.total_count store'
    = ConditionStore.total_count store + added m
  ∧ (∀ k r, PyDict.get store k = None → PyDict.get store' k = Some r →
       resource_id r = k
       ∧ is_removed r = false
       ∧ ingestion_batch r = Some n
       ∧ ∃ raw, raw ∈ raws
                ∧ build_condition_record fromisoformat raw n = Ok r).
Proof.
  intros m store'. unfold m, store'. clear m store'.
  destruct (ingest_batch_metrics raws n store dashboard) as (_ & Ha & _).
  rewrite Ha, ingest_batch_store.
  set (fresh := fresh_records (PyDict.keys store)
                  (built_records fromisoformat n raws)).
  assert (Hact : ∀ r, r ∈ fresh → is_removed r = false).
  { intros r Hr%fresh_records_sub. by eapply built_records_active. }
  split_and!.
  - intros k r. apply dict_get_app_Some.
  - by rewrite removed_count_app, removed_count_active.
  - by rewrite active_count_app, active_count_entries.
  - unfold ConditionStore.total_count. by rewrite length_app, length_map.
  - intros k r Hnone. rewrite dict_get_app_None by done.
    intros [Hin Hid]%dict_get_entries.
    pose proof (fresh_records_sub _ _ _ Hin) as Hb.
    apply built_records_from in Hb as (raw & Hraw & Hb).
    split_and!; [done|by apply Hact|by eapply build_batch|by exists raw].
Qed.

(** X13. Ingesting a batch again, under any batch number and right after
    it was ingested, adds nothing: the store is as the first ingestion
    left it, [added] is 0, every input that builds is counted as a
    duplicate, the inputs that fail are the same, no flag is tallied and
    the flag totals of the dashboard do not move. *)
Theorem X13_reingestion_adds_nothing
  (raws : list (list (string * json))) (n n' : Z)
  (store : list (string * ConditionRecord)) (dashboard : MonitoringDashboard) :
  let first := ingest_batch fromisoformat raws n store dashboard in
  let again := ingest_batch fromisoformat raws n' first.1.2 first.2 in
  again.1.2 = first.1.2
  ∧ added again.1.1 = 0
  ∧ skipped_duplicate again.1.1
    = added first.1.1 + skipped_duplicate first.1.1
  ∧ errored again.1.1 = errored first.1.1
  ∧ received again.1.1 = received first.1.1
  ∧ (∀ f, default 0 (flags again.1.1 !! f) = 0)
  ∧ (∀ f, default 0 (quality_flags_total again.2 !! f)
          = default 0 (quality_flags_total first.2 !! f)).
Proof.
  intros first again.
  pose proof (ingest_batch_store raws n store dashboard) as Hs1.
  destruct (ingest_batch_metrics raws n store dashboard)
    as (Hr1 & Ha1 & Hk1 & He1 & _ & _).
  pose proof (ingest_batch_store raws n' first.1.2 first.2) as Hs2.
  destruct (ingest_batch_metrics raws n' first.1.2 first.2)
    as (Hr2 & Ha2 & Hk2 & He2 & Hf2 & Hd2).
  fold first in Hs1, Hr1, Ha1, Hk1, He1.
  fold again in Hs2, Hr2, Ha2, Hk2, He2, Hf2, Hd2.
  assert (Hnone : fresh_records (PyDict.keys first.1.2)
                    (built_records fromisoformat n' raws) = []).
  { apply fresh_records_known. intros r Hr. rewrite Hs1.
    unfold PyDict.keys. rewrite map_app, map_map. cbn [entry fst].
    fold (PyDict.keys store).
    assert (resource_id r
            ∈ map resource_id (built_records fromisoformat n raws)) as Hid.
    { rewrite (built_ids_any_batch fromisoformat n n').
      apply list_elem_of_fmap. by exists r. }
    apply list_elem_of_fmap in Hid as (r0 & -> & Hr0).
    by apply fresh_records_cover. }
  rewrite Hnone in Hs2, Ha2, Hk2, Hf2. cbn [map length] in Hs2, Ha2, Hk2.
  rewrite app_nil_r in Hs2. rewrite Nat.add_0_r in Hk2.
  assert (Hlen : length (built_records fromisoformat n' raws)
                 = length (built_records fromisoformat n raws)).
  { by rewrite <- (length_map resource_id),
      <- (built_ids_any_batch fromisoformat n n'), length_map. }
  split_and!.
  - done.
  - done.
  - lia.
  - by rewrite He2, He1, (failed_any_batch fromisoformat n n').
  - by rewrite Hr2, Hr1.
  - intros f. by rewrite Hf2.
  - intros f. rewrite Hd2, record_batch_totals, Hf2.
    unfold flag_occurrences. cbn. lia.
Qed.
End ingest_more.
(* ================================================================== *)
(** * The ingestion simulation *)
(* ================================================================== *)

Lemma fresh_records_ids seen rs :
  (list_to_set (seen ++ map resource_id (fresh_records seen rs)) : gset string)
  = list_to_set seen ∪ list_to_set (map resource_id rs).
Proof.
  revert seen. induction rs as [|r rs IH]; intros seen; cbn [fresh_records map].
  - rewrite app_nil_r, list_to_set_nil. set_solver.
  - case_bool_decide as Hin.
    + rewrite IH, list_to_set_cons. set_solver.
    + cbn [map]. rewrite cons_middle, app_assoc, IH.
      rewrite list_to_set_app_L, list_to_set_cons. set_solver.
Qed.

Lemma fresh_store_keys (s : list (string * ConditionRecord)) rs :
  (list_to_set (PyDict.keys (s ++ map entry (fresh_records (PyDict.keys s) rs)))
   : gset string)
  = list_to_set (PyDict.keys s) ∪ list_to_set (map resource_id rs).
Proof.
  rewrite <- fresh_records_ids. f_equal.
  unfold PyDict.keys. rewrite map_app, map_map. done.
Qed.

Lemma built_records_app fromisoformat n l1 l2 :
  built_records fromisoformat n (l1 ++ l2)
  = built_records fromisoformat n l1 ++ built_records fromisoformat n l2.
Proof. unfold built_records. apply omap_app. Qed.

Lemma built_records_perm fromisoformat n l1 l2 :
  l1 ≡ₚ l2 →
  built_records fromisoformat n l1 ≡ₚ built_records fromisoformat n l2.
Proof. unfold built_records. by intros ->. Qed.

Section simulation.
Context (fromisoformat : string → option datetime).
Context (shuffle :
           Z → list (list (string * json)) → list (list (string * json))).
Hypothesis shuffle_perm : ∀ seed l, shuffle seed l ≡ₚ l.

Lemma split_into_batches_spec all seed :
  (split_into_batches shuffle all seed).1
  ++ (split_into_batches shuffle all seed).2 ≡ₚ all
  ∧ length (split_into_batches shuffle all seed).1
    = length (split_into_batches shuffle all seed).2 + length all mod 2
  ∧ length (split_into_batches shuffle all seed).1
    + length (split_into_batches shuffle all seed).2 = length all.
Proof.
  unfold split_into_batches. cbn [fst snd].
  pose proof (shuffle_perm seed all) as Hp.
  pose proof (Permutation_length Hp) as Hl.
  rewrite take_drop, length_take, length_drop, Hl.
  split; [done|].
  pose proof (Nat.div_mod_eq (length all) 2).
  pose proof (Nat.mod_upper_bound (length all) 2). lia.
Qed.

(** X14. The ingestion simulation on an empty system, for any shuffle that
    rearranges its input.  The two batches are a rearrangement of the
    conditions read, the first holds the extra one when their number is
    odd.  After both batches the store holds exactly the ids of the
    conditions that build, each once and active, whatever the shuffle;
    the dashboard holds the metrics of batch 1 and batch 2, which together
    received every condition, added as many as are stored and counted
    every failing input as errored. *)
Theorem X14_simulation_loads_each_id_once
  (all_conditions : list (list (string * json))) :
  let batches := split_into_batches shuffle all_conditions 42 in
  let final := run_ingestion_simulation fromisoformat shuffle all_conditions
                 ConditionStore.empty Monitoring.empty in
  batches.1 ++ batches.2 ≡ₚ all_conditions
  ∧ length batches.1 = length batches.2 + length all_conditions mod 2
  ∧ store_wf final.1
  ∧ (list_to_set (PyDict.keys final.1) : gset string)
    = list_to_set
        (map resource_id (built_records fromisoformat 1 all_conditions))
  ∧ ConditionStore.total_count final.1
    = size (list_to_set
              (map resource_id (built_records fromisoformat 1 all_conditions))
            : gset string)
  ∧ ConditionStore.active_count final.1 = ConditionStore.total_count final.1
  ∧ ∃ m1 m2,
      ingestion_batches final.2 = [m1; m2]
      ∧ batch_number m1 = 1%Z ∧ batch_number m2 = 2%Z
      ∧ received m1 = length batches.1 ∧ received m2 = length batches.2
      ∧ added m1 + added m2 = ConditionStore.total_count final.1
      ∧ errored m1 + errored m2
        = length (failed_inputs fromisoformat 1 all_conditions).
Proof.
  intros batches final.
  destruct (split_into_batches_spec all_conditions 42) as (Hp & Hl & Hs).
  fold batches in Hp, Hl, Hs.
  unfold final, run_ingestion_simulation. fold batches. cbn [fst snd].
  set (day1 := ingest_batch fromisoformat batches.1 1 ConditionStore.empty
                 Monitoring.empty).
  set (day2 := ingest_batch fromisoformat batches.2 2 day1.1.2 day1.2).
  pose proof (ingest_batch_store fromisoformat batches.1 1
                ConditionStore.empty Monitoring.empty) as S1.
  destruct (ingest_batch_metrics fromisoformat batches.1 1
              ConditionStore.empty Monitoring.empty)
    as (R1 & A1 & K1 & E1 & _ & D1).
  pose proof (ingest_batch_store fromisoformat batches.2 2 day1.1.2 day1.2)
    as S2.
  destruct (ingest_batch_metrics fromisoformat batches.2 2 day1.1.2 day1.2)
    as (R2 & A2 & K2 & E2 & _ & D2).
  fold day1 in S1, R1, A1, K1, E1, D1. fold day2 in S2, R2, A2, K2, E2, D2.
  set (b1 := built_records fromisoformat 1 batches.1) in *.
  set (b2 := built_records fromisoformat 2 batches.2) in *.
  set (f1 := fresh_records (PyDict.keys ConditionStore.empty) b1) in *.
  set (f2 := fresh_records (PyDict.keys day1.1.2) b2) in *.
  assert (W1 : store_wf day1.1.2).
  { rewrite S1. apply store_wf_fresh, store_wf_empty. }
  assert (W2 : store_wf day2.1.2).
  { rewrite S2. by apply store_wf_fresh. }
  assert (Hids : map resource_id
                   (built_records fromisoformat 1 all_conditions)
                 ≡ₚ map resource_id b1 ++ map resource_id b2).
  { unfold b1, b2.
    rewrite (built_ids_any_batch fromisoformat 2 1), <- map_app,
      <- built_records_app.
    apply Permutation_map, built_records_perm. by symmetry. }
  assert (Hkeys : (list_to_set (PyDict.keys day2.1.2) : gset string)
                  = list_to_set
                      (map resource_id
                         (built_records fromisoformat 1 all_conditions))).
  { rewrite S2. unfold f2. rewrite fresh_store_keys.
    rewrite S1. unfold f1. rewrite fresh_store_keys.
    rewrite (list_to_set_perm_L _ _ Hids), list_to_set_app_L.
    cbn [ConditionStore.empty PyDict.keys map].
    rewrite list_to_set_nil. set_solver. }
  assert (Htot : ConditionStore.total_count day2.1.2
                 = length f1 + length f2).
  { unfold ConditionStore.total_count. rewrite S2, S1.
    cbn [app ConditionStore.empty]. by rewrite length_app, !length_map. }
  assert (Hact : ∀ s n raws r,
             r ∈ fresh_records s (built_records fromisoformat n raws) →
             is_removed r = false).
  { intros s n raws r Hr%fresh_records_sub. by eapply built_records_active. }
  split_and!; try done.
  - rewrite <- Hkeys. unfold ConditionStore.total_count.
    rewrite <- (length_map fst day2.1.2). fold (PyDict.keys day2.1.2).
    symmetry. apply size_list_to_set, W2.
  - rewrite Htot, S2, S1. cbn [app ConditionStore.empty].
    rewrite active_count_app, !active_count_entries; [done| |].
    + apply (Hact _ 2%Z batches.2).
    + apply (Hact _ 1%Z batches.1).
  - exists day1.1.1, day2.1.1.
    split_and!.
    + rewrite D2, D1. done.
    + unfold day1, ingest_batch. cbn [fst snd batch_number].
      by destruct (ingest_fold fromisoformat 1 batches.1
                     (mkIngestState
                        (mkBatchMetrics 1 (length batches.1) 0 0 0 ∅) ∅
                        ConditionStore.empty)) as (_ & _ & H3 & _).
    + unfold day2 at 1, ingest_batch. cbn [fst snd batch_number].
      by destruct (ingest_fold fromisoformat 2 batches.2
                     (mkIngestState
                        (mkBatchMetrics 2 (length batches.2) 0 0 0 ∅) ∅
                        day1.1.2)) as (_ & _ & H3 & _).
    + done.
    + done.
    + rewrite Htot. lia.
    + rewrite E1, E2, (failed_any_batch fromisoformat 2 1).
      pose proof (built_failed_length fromisoformat 1 batches.1).
      pose proof (built_failed_length fromisoformat 1 batches.2).
      pose proof (built_failed_length fromisoformat 1 all_conditions).
      pose proof (Permutation_length
                    (built_records_perm fromisoformat 1 _ _ Hp)) as Hb.
      rewrite built_records_app, length_app in Hb.
      pose proof (Permutation_length Hp) as Ha. rewrite length_app in Ha.
      lia.
Qed.
End simulation.

Lemma shuffle_reversed_perm seed l : shuffle_reversed seed l ≡ₚ l.
Proof. unfold shuffle_reversed. symmetry. apply Permutation_rev. Qed.

Lemma X14_simulation_loads_each_id_once_witness :
  ConditionStore.total_count
    (run_ingestion_simulation IsoBasic.parse shuffle_reversed Sample.batch
       ConditionStore.empty Monitoring.empty).1
  = size (list_to_set
            (map resource_id (built_records IsoBasic.parse 1 Sample.batch))
          : gset string).
Proof.
  exact (proj1 (proj2 (proj2 (proj2 (proj2
           (X14_simulation_loads_each_id_once IsoBasic.parse shuffle_reversed
              shuffle_reversed_perm Sample.batch)))))).
Defined.

(* ================================================================== *)
(** * Further properties of record building *)
(* ================================================================== *)

(** A coding counts when its code and its system are non-empty strings. *)
Lemma extract_step_all acc cd x :
  x ∈ (extract_step acc cd).2 ↔
  x ∈ acc.2
  ∨ (coding_code cd = Some x ∧ x ≠ ""
     ∧ PyStr.truthy (coding_system cd) = true).
Proof.
  unfold extract_step.
  destruct (coding_code cd) as [[|a c]|], (coding_system cd) as [[|b s]|];
    cbn; rewrite ?elem_of_union, ?elem_of_singleton; naive_solver.
Qed.

Lemma extract_step_system acc cd sys x :
  x ∈ default ∅ ((extract_step acc cd).1 !! sys) ↔
  x ∈ default ∅ (acc.1 !! sys)
  ∨ (coding_code cd = Some x ∧ x ≠ ""
     ∧ coding_system cd = Some sys ∧ sys ≠ "").
Proof.
  unfold extract_step.
  destruct (coding_code cd) as [[|a c]|], (coding_system cd) as [[|b s]|];
    cbn; try naive_solver.
  destruct (decide (String b s = sys)) as [<-|Hne].
  - rewrite lookup_insert_eq. cbn. rewrite elem_of_union, elem_of_singleton.
    naive_solver.
  - rewrite lookup_insert_ne by done. naive_solver.
Qed.

Lemma extract_fold (l : list FhirCoding)
  (acc : gmap string (gset string) * gset string) :
  (∀ x, x ∈ (foldl extract_step acc l).2 ↔
        x ∈ acc.2
        ∨ ∃ cd, cd ∈ l ∧ coding_code cd = Some x ∧ x ≠ ""
                ∧ PyStr.truthy (coding_system cd) = true)
  ∧ (∀ sys x, x ∈ default ∅ ((foldl extract_step acc l).1 !! sys) ↔
        x ∈ default ∅ (acc.1 !! sys)
        ∨ ∃ cd, cd ∈ l ∧ coding_code cd = Some x ∧ x ≠ ""
                ∧ coding_system cd = Some sys ∧ sys ≠ "").
Proof.
  revert acc. induction l as [|cd l IH]; intros acc.
  - cbn [foldl]. split; intros; (split; [by left|]);
      intros [?|(cd & Hin & _)]; [done| |done|]; by apply elem_of_nil in Hin.
  - cbn [foldl]. destruct (IH (extract_step acc cd)) as [IH1 IH2].
    split.
    + intros x. rewrite IH1, extract_step_all.
      setoid_rewrite elem_of_cons. naive_solver.
    + intros sys x. rewrite IH2, extract_step_system.
      setoid_rewrite elem_of_cons. naive_solver.
Qed.

Lemma extract_codes_spec (c : FhirCondition) :
  (∀ x, x ∈ default ∅ (_extract_codes_by_system c !! "_all") ↔
        ∃ cd, cd ∈ codings_of c ∧ coding_code cd = Some x ∧ x ≠ ""
              ∧ PyStr.truthy (coding_system cd) = true)
  ∧ (∀ sys x, sys ≠ "_all" →
        x ∈ default ∅ (_extract_codes_by_system c !! sys) ↔
        ∃ cd, cd ∈ codings_of c ∧ coding_code cd = Some x ∧ x ≠ ""
              ∧ coding_system cd = Some sys ∧ sys ≠ "").
Proof.
  unfold _extract_codes_by_system.
  set (codes := <[ICD10_SYSTEM:=∅]> _).
  destruct (extract_fold (codings_of c) (codes, ∅)) as [H1 H2].
  cbn [fst snd] in H1, H2.
  assert (Hempty : ∀ sys x, x ∉ default (∅ : gset string) (codes !! sys)).
  { intros sys x. unfold codes.
    destruct (decide (ICD10_SYSTEM = sys)) as [<-|?];
      [rewrite lookup_insert_eq; set_solver | rewrite lookup_insert_ne by done].
    destruct (decide (SNOMED_SYSTEM = sys)) as [<-|?];
      [rewrite lookup_insert_eq; set_solver | rewrite lookup_insert_ne by done].
    destruct (decide (ICD9_SYSTEM = sys)) as [<-|?];
      [rewrite lookup_insert_eq; set_solver | rewrite lookup_insert_ne by done].
    destruct (decide (IMO_SYSTEM = sys)) as [<-|?];
      [rewrite lookup_insert_eq; set_solver | rewrite lookup_insert_ne by done].
    rewrite lookup_empty. set_solver. }
  split.
  - intros x. rewrite lookup_insert_eq. cbn [default]. rewrite H1.
    split; [intros [[]%elem_of_empty|H]; done | by right].
  - intros sys x Hsys. rewrite lookup_insert_ne by done. rewrite H2.
    split; [intros [H|H]; [by apply Hempty in H | done] | by right].
Qed.

Lemma is_Some_bool {A : Type} (o : option A) :
  bool_decide (is_Some o) = match o with Some _ => true | None => false end.
Proof.
  destruct o; [by apply bool_decide_eq_true_2 | apply bool_decide_eq_false_2].
  by intros [? ?].
Qed.

Section build_more.
Context (fromisoformat : string → option datetime).

Lemma build_codes raw n r :
  build_condition_record fromisoformat raw n = Ok r →
  icd10_codes r
  = default ∅ (_extract_codes_by_system (fhir_condition r) !! ICD10_SYSTEM)
  ∧ snomed_codes r
    = default ∅ (_extract_codes_by_system (fhir_condition r) !! SNOMED_SYSTEM)
  ∧ icd9_codes r
    = default ∅ (_extract_codes_by_system (fhir_condition r) !! ICD9_SYSTEM)
  ∧ imo_codes r
    = default ∅ (_extract_codes_by_system (fhir_condition r) !! IMO_SYSTEM)
  ∧ all_codes r
    = default ∅ (_extract_codes_by_system (fhir_condition r) !! "_all")
  ∧ searchable_text r = _build_searchable_text (fhir_condition r)
  ∧ display_name r = _pick_display_name (fhir_condition r)
  ∧ derived_from_ids r = _extract_derived_from_ids (fhir_condition r).
Proof.
  unfold build_condition_record.
  destruct (Pydantic.model_validate raw) as [c|e]; simpl; [|done].
  destruct (_detect_quality_flags _ _ _ _ _) as [fl|e] eqn:E; simpl; [|done].
  intros [= <-]. simpl. by split_and!.
Qed.

(** X15. The code sets of a built record.  A code is in [all_codes] exactly
    when some coding of the primary code carries it with a non-empty
    system; it is in the set of a coding system (ICD-10, SNOMED, ICD-9,
    IMO) exactly when some coding carries it with that system's URI.  So
    the four sets lie within [all_codes], a code filed under any other
    system is in [all_codes] only, and codings without a code or without a
    system contribute nothing. *)
Theorem X15_code_sets_of_built_record
  (raw : list (string * json)) (n : Z) (r : ConditionRecord) :
  build_condition_record fromisoformat raw n = Ok r →
  let carried (x : string) (P : FhirCoding → Prop) :=
    ∃ cd, cd ∈ codings_of (fhir_condition r)
          ∧ coding_code cd = Some x ∧ x ≠ "" ∧ P cd in
  (∀ x, x ∈ all_codes r ↔
        carried x (fun cd => ∃ sys, coding_system cd = Some sys ∧ sys ≠ ""))
  ∧ (∀ x, x ∈ icd10_codes r ↔
          carried x (fun cd => coding_system cd = Some ICD10_SYSTEM))
  ∧ (∀ x, x ∈ snomed_codes r ↔
          carried x (fun cd => coding_system cd = Some SNOMED_SYSTEM))
  ∧ (∀ x, x ∈ icd9_codes r ↔
          carried x (fun cd => coding_system cd = Some ICD9_SYSTEM))
  ∧ (∀ x, x ∈ imo_codes r ↔
          carried x (fun cd => coding_system cd = Some IMO_SYSTEM))
  ∧ icd10_codes r ∪ snomed_codes r ∪ icd9_codes r ∪ imo_codes r
    ⊆ all_codes r.
Proof.
  intros Hb carried.
  destruct (build_codes raw n r Hb) as (H10 & Hsn & H9 & Him & Hall & _).
  destruct (extract_codes_spec (fhir_condition r)) as [Sall Ssys].
  assert (Hsys : ∀ sys, sys ≠ "_all" → sys ≠ "" → ∀ x,
            x ∈ default ∅ (_extract_codes_by_system (fhir_condition r) !! sys)
            ↔ carried x (fun cd => coding_system cd = Some sys)).
  { intros sys H1 H2 x. rewrite (Ssys sys x H1). unfold carried.
    split; intros (cd & ? & ? & ? & H); exists cd; split_and!; try done.
    by destruct H. }
  assert (Hsub : ∀ sys x,
            carried x (fun cd => coding_system cd = Some sys) → sys ≠ "" →
            x ∈ all_codes r).
  { intros sys x (cd & ? & ? & ? & Hs) Hne. rewrite Hall. apply Sall.
    exists cd. split_and!; try done. rewrite Hs. by destruct sys. }
  assert (A10 : ∀ x, x ∈ icd10_codes r ↔
                  carried x (fun cd => coding_system cd = Some ICD10_SYSTEM)).
  { intros x. rewrite H10. by apply Hsys. }
  assert (Asn : ∀ x, x ∈ snomed_codes r ↔
                  carried x (fun cd => coding_system cd = Some SNOMED_SYSTEM)).
  { intros x. rewrite Hsn. by apply Hsys. }
  assert (A9 : ∀ x, x ∈ icd9_codes r ↔
                 carried x (fun cd => coding_system cd = Some ICD9_SYSTEM)).
  { intros x. rewrite H9. by apply Hsys. }
  assert (Aim : ∀ x, x ∈ imo_codes r ↔
                  carried x (fun cd => coding_system cd = Some IMO_SYSTEM)).
  { intros x. rewrite Him. by apply Hsys. }
  split_and!; try done.
  - intros x. rewrite Hall, Sall. unfold carried.
    split; intros (cd & ? & ? & ? & H); exists cd; split_and!; try done.
    + destruct (coding_system cd) as [[|b s]|]; try done. by eexists.
    + destruct H as (sys & -> & Hne). by destruct sys.
  - intros x. rewrite !elem_of_union.
    intros [[[H|H]|H]|H].
    + apply A10 in H. by eapply Hsub.
    + apply Asn in H. by eapply Hsub.
    + apply A9 in H. by eapply Hsub.
    + apply Aim in H. by eapply Hsub.
Qed.

(** X16. When building fails.  An input that is a valid condition fails to
    build in one case only: both bounds of its onset period parse, one as
    an offset-aware and the other as a naive [datetime]; their subtraction
    in the short-duration test then raises [TypeError].  Absent, empty or
    unparsable bounds never make the building fail. *)
Theorem X16_when_building_fails
  (raw : list (string * json)) (n : Z) (c : FhirCondition) :
  Pydantic.model_validate raw = Ok c →
  ((∃ e, build_condition_record fromisoformat raw n = Raise e) ↔
   ∃ s e, (_parse_onset_dates fromisoformat c) = (Some s, Some e)
          ∧ bool_decide (is_Some (dt_utcoffset s))
            ≠ bool_decide (is_Some (dt_utcoffset e)))
  ∧ (∀ e, build_condition_record fromisoformat raw n = Raise e →
          e = TypeError)
  ∧ ((_parse_onset_dates fromisoformat c).1 = None
     ∨ (_parse_onset_dates fromisoformat c).2 = None →
     ∃ r, build_condition_record fromisoformat raw n = Ok r).
Proof.
  intros Hc. unfold build_condition_record. rewrite Hc. cbn [bind].
  unfold _detect_quality_flags.
  destruct (_parse_onset_dates fromisoformat c) as [[s|] [e|]]; cbn [fst snd].
  - unfold Datetime.sub.
    destruct (dt_utcoffset e) as [oe|] eqn:Ee,
      (dt_utcoffset s) as [os|] eqn:Es; cbn.
    + split_and!.
      * split; [by intros [? ?]|]. intros (s0 & e0 & [= <- <-] & H).
        by rewrite !is_Some_bool, Es, Ee in H.
      * done.
      * by intros [?|?].
    + split_and!.
      * split; [|by eexists]. intros _. exists s, e. split; [done|].
        by rewrite !is_Some_bool, Es, Ee.
      * by intros e0 [= <-].
      * by intros [?|?].
    + split_and!.
      * split; [|by eexists]. intros _. exists s, e. split; [done|].
        by rewrite !is_Some_bool, Es, Ee.
      * by intros e0 [= <-].
      * by intros [?|?].
    + split_and!.
      * split; [by intros [? ?]|]. intros (s0 & e0 & [= <- <-] & H).
        by rewrite !is_Some_bool, Es, Ee in H.
      * done.
      * by intros [?|?].
  - cbn. split_and!; [|done|by eexists].
    split; [by intros [? ?] | by intros (? & ? & ? & _)].
  - cbn. split_and!; [|done|by eexists].
    split; [by intros [? ?] | by intros (? & ? & ? & _)].
  - cbn. split_and!; [|done|by eexists].
    split; [by intros [? ?] | by intros (? & ? & ? & _)].
Qed.
End build_more.

Lemma X15_code_sets_of_built_record_witness :
  build_condition_record IsoBasic.parse Sample.raw_active 1
  = Ok (Sample.built Sample.raw_active)
  ∧ icd10_codes (Sample.built Sample.raw_active)
    ∪ snomed_codes (Sample.built Sample.raw_active)
    ∪ icd9_codes (Sample.built Sample.raw_active)
    ∪ imo_codes (Sample.built Sample.raw_active)
    ⊆ all_codes (Sample.built Sample.raw_active).
Proof.
  assert (E : build_condition_record IsoBasic.parse Sample.raw_active 1
              = Ok (Sample.built Sample.raw_active))
    by (vm_compute; reflexivity).
  split; [exact E|].
  exact (proj2 (proj2 (proj2 (proj2 (proj2
           (X15_code_sets_of_built_record IsoBasic.parse _ _ _ E)))))).
Defined.

Lemma X16_when_building_fails_witness :
  ∃ r, build_condition_record IsoBasic.parse Sample.raw_active 1 = Ok r.
Proof.
  assert (E : Pydantic.model_validate Sample.raw_active
              = Ok (sample_condition Sample.raw_active))
    by (vm_compute; reflexivity).
  destruct (X16_when_building_fails IsoBasic.parse Sample.raw_active 1 _ E)
    as (_ & _ & H).
  apply H. left. vm_compute. reflexivity.
Defined.

(* ================================================================== *)
(** * Searching for a record *)
(* ================================================================== *)

Lemma lower_char_idem (c : ascii) :
  PyStr.lower_char (PyStr.lower_char c) = PyStr.lower_char c.
Proof. destruct c as [[] [] [] [] [] [] [] []]; reflexivity. Qed.

Lemma lower_idem (s : string) : PyStr.lower (PyStr.lower s) = PyStr.lower s.
Proof.
  induction s as [|c s IH]; [done|]. cbn [PyStr.lower].
  by rewrite lower_char_idem, IH.
Qed.

Lemma lower_app (a b : string) :
  PyStr.lower (a +:+ b) = PyStr.lower a +:+ PyStr.lower b.
Proof.
  induction a as [|c a IH]; [done|].
  rewrite string_app_cons. cbn [PyStr.lower]. by rewrite IH, string_app_cons.
Qed.

Lemma string_app_nil_r (a : string) : a +:+ "" = a.
Proof. induction a as [|c a IH]; [done|]. by rewrite string_app_cons, IH. Qed.

(** Every part is a substring of the joined text. *)
Lemma join_part (sep : string) (parts : list string) (p : string) :
  p ∈ parts → ∃ a b, PyStr.join sep parts = a +:+ p +:+ b.
Proof.
  induction parts as [|x parts IH]; [by intros ?%elem_of_nil|].
  intros [->|Hin]%elem_of_cons.
  - destruct parts as [|y parts].
    + exists "", "". cbn [PyStr.join]. by rewrite string_app_nil_r.
    + exists "", (sep +:+ PyStr.join sep (y :: parts)). done.
  - destruct (IH Hin) as (a & b & E).
    destruct parts as [|y parts]; [by apply elem_of_nil in Hin|].
    exists (x +:+ sep +:+ a), b.
    change (PyStr.join sep (x :: y :: parts))
      with (x +:+ sep +:+ PyStr.join sep (y :: parts)).
    by rewrite E, !string_app_assoc.
Qed.

Lemma contains_lower_join (sep : string) (parts : list string) (p : string) :
  p ∈ parts →
  PyStr.contains (PyStr.lower p) (PyStr.lower (PyStr.join sep parts)) = true.
Proof.
  intros (a & b & E)%(join_part sep). apply contains_spec.
  exists (PyStr.lower a), (PyStr.lower b). by rewrite E, !lower_app.
Qed.

Lemma truthy_default (o : option string) :
  PyStr.truthy o = true → o = Some (default "" o) ∧ default "" o ≠ "".
Proof. by destruct o as [[|c s]|]. Qed.

(** The parts of the searchable text of a condition. *)
Lemma searchable_parts (c : FhirCondition) :
  ∃ parts,
    _build_searchable_text c = PyStr.lower (PyStr.join " " parts)
    ∧ (∀ cc, code c = Some cc → PyStr.truthy (concept_text cc) = true →
             default "" (concept_text cc) ∈ parts)
    ∧ (∀ cd, cd ∈ codings_of c →
             (PyStr.truthy (coding_display cd) = true →
              default "" (coding_display cd) ∈ parts)
             ∧ (PyStr.truthy (coding_code cd) = true →
                default "" (coding_code cd) ∈ parts)).
Proof.
  unfold _build_searchable_text, codings_of.
  destruct (code c) as [cc|]; eexists; (split; [reflexivity|]).
  - split.
    + intros cc0 [= <-] Ht. rewrite Ht. apply elem_of_app. left.
      by apply list_elem_of_singleton.
    + intros cd Hin.
      assert (Hsub : ∀ x, x ∈ coding_parts cd →
                x ∈ (if PyStr.truthy (concept_text cc)
                     then [default "" (concept_text cc)] else [])
                    ++ concat (map coding_parts (concept_coding cc))).
      { intros x Hx. apply elem_of_app. right.
        apply list_elem_of_In, in_concat. exists (coding_parts cd).
        split; [apply in_map; by apply list_elem_of_In
               | by apply list_elem_of_In]. }
      split; intros Ht; apply Hsub; unfold coding_parts; rewrite Ht;
        apply elem_of_app; [left|right]; by apply list_elem_of_singleton.
  - split; [done|]. by intros cd ?%elem_of_nil.
Qed.

Lemma pick_display_name_spec (c : FhirCondition) :
  _pick_display_name c ≠ ""
  ∧ (¬ has_label c → _pick_display_name c = "Unknown condition")
  ∧ (has_label c →
     (∃ cc, code c = Some cc ∧ PyStr.truthy (concept_text cc) = true
            ∧ _pick_display_name c = default "" (concept_text cc))
     ∨ (∃ cd, cd ∈ codings_of c ∧ PyStr.truthy (coding_display cd) = true
              ∧ _pick_display_name c = default "" (coding_display cd))).
Proof.
  unfold _pick_display_name, has_label, codings_of.
  destruct (code c) as [cc|].
  - destruct (PyStr.truthy (concept_text cc)) eqn:Et.
    + split_and!.
      * by apply truthy_default.
      * intros H. destruct H. exists cc. split; [done | by left].
      * intros _. left. by exists cc.
    + destruct (find _ (concept_coding cc)) as [cd|] eqn:Ef.
      * apply find_some in Ef as [Hin Hd]. split_and!.
        -- by apply truthy_default.
        -- intros H. destruct H. exists cc. split; [done|]. right.
           exists cd. split; [by apply list_elem_of_In | done].
        -- intros _. right. exists cd. split; [by apply list_elem_of_In|done].
      * split_and!; [done|done|].
        intros (cc0 & [= <-] & [H|(cd & Hin & Hd)]); [congruence|].
        apply list_elem_of_In in Hin.
        pose proof (find_none _ _ Ef cd Hin) as Hn. cbn in Hn. congruence.
  - split_and!; [done|done|]. by intros (cc & ? & _).
Qed.

Lemma elem_of_List_filter {A : Type} (P : A → bool) (l : list A) (x : A) :
  x ∈ List.filter P l ↔ x ∈ l ∧ P x = true.
Proof. by rewrite !list_elem_of_In, filter_In. Qed.

Lemma retrieve_candidates_elem (s : list (string * ConditionRecord))
  (query code code_system status : option string) (r : ConditionRecord) :
  r ∈ retrieve_candidates s query code code_system status ↔
  r ∈ ConditionStore.get_all_active s
  ∧ (PyStr.truthy query = true → _matches_text r (default "" query) = true)
  ∧ (PyStr.truthy code = true →
     _matches_code r (default "" code) code_system = true)
  ∧ (PyStr.truthy status = true →
     _matches_status r (default "" status) = true).
Proof.
  unfold retrieve_candidates.
  destruct (PyStr.truthy query), (PyStr.truthy code), (PyStr.truthy status);
    rewrite ?elem_of_List_filter; naive_solver.
Qed.

Section search.
Context (fromisoformat : string → option datetime).

(** X17. A built record is found by its own name and codes.  Its
    searchable text is in lower case, so a query matches whatever its
    letter case.  Its display name is never empty: it is the text of the
    primary code or the first non-empty display of a coding, and
    [Unknown condition] when the condition has neither.  A record with a
    label of its own matches the text query that is its display name, and
    every record matches the text query that is one of its [all_codes];
    so a retrieval by that name or code alone returns the record while it
    is active. *)
Theorem X17_found_by_name_and_codes
  (raw : list (string * json)) (n : Z) (r : ConditionRecord) :
  build_condition_record fromisoformat raw n = Ok r →
  PyStr.lower (searchable_text r) = searchable_text r
  ∧ (∀ q, _matches_text r (PyStr.lower q) = _matches_text r q)
  ∧ display_name r ≠ ""
  ∧ (¬ has_label (fhir_condition r) → display_name r = "Unknown condition")
  ∧ (has_label (fhir_condition r) →
     _matches_text r (display_name r) = true)
  ∧ (∀ x, x ∈ all_codes r → _matches_text r x = true)
  ∧ (∀ s, r ∈ ConditionStore.get_all_active s →
       (has_label (fhir_condition r) →
        r ∈ retrieve_candidates s (Some (display_name r)) None None None)
       ∧ (∀ x, x ∈ all_codes r →
            r ∈ retrieve_candidates s (Some x) None None None
            ∧ r ∈ retrieve_candidates s None (Some x) None None)).
Proof.
  intros Hb.
  destruct (build_codes fromisoformat raw n r Hb)
    as (_ & _ & _ & _ & Hall & Htext & Hname & _).
  destruct (searchable_parts (fhir_condition r)) as (parts & Hp & Ptext & Pcd).
  destruct (pick_display_name_spec (fhir_condition r)) as (Hne & Hno & Hyes).
  destruct (extract_codes_spec (fhir_condition r)) as [Sall _].
  assert (Hlow : PyStr.lower (searchable_text r) = searchable_text r).
  { by rewrite Htext, Hp, lower_idem. }
  assert (Hlabel : has_label (fhir_condition r) →
                   _matches_text r (display_name r) = true).
  { intros Hl. unfold _matches_text. rewrite Htext, Hp, Hname.
    apply contains_lower_join.
    destruct (Hyes Hl) as [(cc & Hc & Ht & ->)|(cd & Hin & Ht & ->)].
    - by apply (Ptext cc).
    - by apply (Pcd cd). }
  assert (Hcode : ∀ x, x ∈ all_codes r → _matches_text r x = true).
  { intros x Hx. rewrite Hall in Hx.
    apply Sall in Hx as (cd & Hin & Hc & Hx & _).
    unfold _matches_text. rewrite Htext, Hp. apply contains_lower_join.
    destruct (Pcd cd Hin) as [_ H]. rewrite Hc in H. apply H.
    by destruct x. }
  split_and!; try done.
  - intros q. unfold _matches_text. by rewrite lower_idem.
  - by rewrite Hname.
  - by rewrite Hname.
  - intros s Hact. split.
    + intros Hl. apply retrieve_candidates_elem. split_and!; try done.
      intros _. by apply Hlabel.
    + intros x Hx. assert (x ≠ "") as Hxne.
      { rewrite Hall in Hx. by apply Sall in Hx as (cd & _ & _ & ? & _). }
      split; apply retrieve_candidates_elem; split_and!; try done.
      * intros _. by apply Hcode.
      * intros _. cbn. by apply bool_decide_eq_true_2.
Qed.
End search.

(** X18. Which records a retrieval considers: the active records that pass
    every filter given, in the order of the store.  A filter that is
    absent or the empty string is not applied, and a [code_system] given
    without a [code] is ignored; with no filter every active record is a
    candidate.  A removed record is never a candidate, and filters only
    narrow the candidates. *)
Theorem X18_retrieval_candidates
  (s : list (string * ConditionRecord))
  (query code code_system status : option string) :
  (∀ r, r ∈ retrieve_candidates s query code code_system status ↔
        r ∈ ConditionStore.iterate s ∧ is_removed r = false
        ∧ (∀ q, query = Some q → q ≠ "" → _matches_text r q = true)
        ∧ (∀ c, code = Some c → c ≠ "" →
                _matches_code r c code_system = true)
        ∧ (∀ st, status = Some st → st ≠ "" →
                 normalized_status r = PyStr.lower st))
  ∧ sublist (retrieve_candidates s query code code_system status)
      (ConditionStore.get_all_active s)
  ∧ length (retrieve_candidates s query code code_system status)
    ≤ ConditionStore.active_count s
  ∧ retrieve_candidates s None None code_system None
    = ConditionStore.get_all_active s
  ∧ retrieve_candidates s (Some "") (Some "") code_system (Some "")
    = ConditionStore.get_all_active s.
Proof.
  split_and!.
  - intros r. rewrite retrieve_candidates_elem.
    unfold ConditionStore.get_all_active, ConditionStore.iterate.
    rewrite elem_of_List_filter, negb_true_iff. unfold _matches_status. rewrite String.eqb_eq.
    destruct query as [[|a q]|], code as [[|b c]|], status as [[|d st]|];
      cbn [PyStr.truthy default]; naive_solver.
  - unfold retrieve_candidates.
    assert (Hf : ∀ (P : ConditionRecord → bool) l, sublist (List.filter P l) l).
    { intros P l. induction l as [|x l IH]; [done|]. cbn.
      destruct (P x); by constructor. }
    destruct (PyStr.truthy query), (PyStr.truthy code), (PyStr.truthy status);
      repeat match goal with
             | |- sublist (List.filter ?P ?l) _ => etrans; [apply (Hf P l)|]
             end; done.
  - unfold retrieve_candidates, ConditionStore.active_count.
    fold (ConditionStore.get_all_active s).
    assert (Hf : ∀ (P : ConditionRecord → bool) l,
              length (List.filter P l) ≤ length l).
    { intros P l. induction l as [|x l IH]; [done|]. cbn.
      destruct (P x); cbn; lia. }
    destruct (PyStr.truthy query), (PyStr.truthy code), (PyStr.truthy status);
      repeat match goal with
             | |- length (List.filter ?P ?l) ≤ _ => etrans; [apply (Hf P l)|]
             end; done.
  - done.
  - done.
Qed.

Lemma X17_found_by_name_and_codes_witness :
  build_condition_record IsoBasic.parse Sample.raw_active 1
  = Ok (Sample.built Sample.raw_active)
  ∧ _matches_text (Sample.built Sample.raw_active) "J45.909" = true.
Proof.
  assert (E : build_condition_record IsoBasic.parse Sample.raw_active 1
              = Ok (Sample.built Sample.raw_active))
    by (vm_compute; reflexivity).
  split; [exact E|].
  destruct (X17_found_by_name_and_codes IsoBasic.parse _ _ _ E)
    as (_ & _ & _ & _ & _ & H & _).
  apply H. apply (bool_decide_unpack _). vm_compute. exact I.
Defined.

(* ================================================================== *)
(** * What a group holds *)
(* ================================================================== *)

Lemma string_compare_trans (a b c : string) :
  String.compare a b = Lt → String.compare b c = Lt → String.compare a c = Lt.
Proof.
  revert b c. induction a as [|x a IH]; intros [|y b] [|z c]; cbn; try done.
  unfold Ascii.compare.
  destruct (N.compare_spec (N_of_ascii x) (N_of_ascii y)) as [Exy|Hxy|Hxy];
    try done;
    destruct (N.compare_spec (N_of_ascii y) (N_of_ascii z)) as [Eyz|Hyz|Hyz];
    try done; intros H1 H2.
  - rewrite Exy, Eyz, N.compare_refl. by eapply IH.
  - rewrite Exy. by apply N.compare_lt_iff in Hyz as ->.
  - rewrite <- Eyz. by apply N.compare_lt_iff in Hxy as ->.
  - assert (N_of_ascii x < N_of_ascii z)%N as ->%N.compare_lt_iff by lia.
    done.
Qed.

Lemma PyStr_lt_trans a b c :
  PyStr.lt a b = true → PyStr.lt b c = true → PyStr.lt a c = true.
Proof.
  unfold PyStr.lt, String.ltb.
  destruct (String.compare a b) eqn:E1; try done.
  destruct (String.compare b c) eqn:E2; try done.
  by rewrite (string_compare_trans a b c).
Qed.

Lemma PyStr_lt_total a b :
  PyStr.lt a b = false → a = b ∨ PyStr.lt b a = true.
Proof.
  unfold PyStr.lt, String.ltb. rewrite (String.compare_antisym b a).
  destruct (String.compare a b) eqn:E; try done; intros _.
  - left. by apply String.compare_eq_iff.
  - by right.
Qed.

Section best.
Context (before : string → string → bool).
Hypothesis before_irrefl : ∀ a, before a a = false.
Hypothesis before_trans :
  ∀ a b c, before a b = true → before b c = true → before a c = true.
Hypothesis before_total : ∀ a b, before a b = false → a = b ∨ before b a = true.

Lemma not_before_trans a b c :
  before b a = false → before c b = false → before c a = false.
Proof.
  intros H1 H2. destruct (before c a) eqn:E; [|done].
  destruct (before_total _ _ H1) as [->|H]; [congruence|].
  by rewrite (before_trans c a b) in H2.
Qed.

(** The best of some days is one of them and no day is before it. *)
Lemma best_fold (days : list (option string)) (b0 : option string) :
  (foldl (best_by before) b0 days = None ↔
   b0 = None ∧ ∀ d, d ∈ days → d = None)
  ∧ (∀ b, foldl (best_by before) b0 days = Some b →
          (b0 = Some b ∨ Some b ∈ days)
          ∧ (∀ x, b0 = Some x → before x b = false)
          ∧ (∀ o, Some o ∈ days → before o b = false)).
Proof.
  revert b0. induction days as [|d days IH]; intros b0; cbn [foldl].
  - split.
    + split; [|by intros [? _]]. intros ->.
      split; [done | by intros d ?%elem_of_nil].
    + intros b ->. split_and!; [by left| |by intros o ?%elem_of_nil].
      intros x [= <-]. apply before_irrefl.
  - destruct (IH (best_by before b0 d)) as [IH1 IH2]. split.
    + rewrite IH1. setoid_rewrite elem_of_cons. unfold best_by.
      destruct d as [o|], b0 as [b1|]; try destruct (before o b1);
        naive_solver.
    + intros b Hb. destruct (IH2 b Hb) as (Hin & Hb0 & Hdays).
      assert (Hstep : ∀ x, b0 = Some x ∨ d = Some x → before x b = false).
      { intros x Hx. unfold best_by in Hb0.
        destruct d as [o|], b0 as [b1|].
        - destruct (before o b1) eqn:E.
          + specialize (Hb0 o eq_refl).
            destruct Hx as [[= <-]|[= <-]]; [|done].
            apply (not_before_trans b o b1); [done|].
            destruct (before b1 o) eqn:E'; [|done].
            pose proof (before_trans b1 o b1 E' E) as F.
            by rewrite before_irrefl in F.
          + specialize (Hb0 b1 eq_refl).
            destruct Hx as [[= <-]|[= <-]]; [done|].
            by apply (not_before_trans b b1 o).
        - destruct Hx as [?|[= <-]]; [done|]. by apply Hb0.
        - destruct Hx as [[= <-]|?]; [|done]. by apply Hb0.
        - by destruct Hx. }
      split_and!.
      * setoid_rewrite elem_of_cons. unfold best_by in Hin.
        destruct d as [o|], b0 as [b1|]; try destruct (before o b1);
          naive_solver.
      * intros x Hx. apply Hstep. by left.
      * intros o [[= <-]|Ho]%elem_of_cons; [|by apply Hdays].
        apply Hstep. by right.
Qed.
End best.

Lemma merge_labels_spec (into from : gmap string (gset string)) label x :
  x ∈ default ∅ (merge_labels into from !! label) ↔
  x ∈ default ∅ (into !! label) ∨ x ∈ default ∅ (from !! label).
Proof.
  unfold merge_labels.
  apply (map_fold_weak_ind
           (fun (r : gmap string (gset string)) (m : gmap string (gset string)) =>
              x ∈ default ∅ (r !! label) ↔
              x ∈ default ∅ (into !! label) ∨ x ∈ default ∅ (m !! label))).
  - rewrite lookup_empty. cbn. set_solver.
  - intros i codes m r Hi IH.
    destruct (decide (i = label)) as [->|Hne].
    + rewrite !lookup_insert_eq. rewrite Hi in IH. cbn in *. set_solver.
    + by rewrite !lookup_insert_ne.
Qed.

Lemma update_group_onsets r g :
  earliest_onset (update_group r g)
  = best_by PyStr.lt (earliest_onset g) (onset_day r)
  ∧ latest_onset (update_group r g)
    = best_by (fun a b => PyStr.lt b a) (latest_onset g) (onset_day r).
Proof.
  unfold update_group, onset_day, best_by. cbn [earliest_onset latest_onset].
  by destruct (onset_start r).
Qed.

(** The aggregates of a group after more of its records. *)
Lemma update_fold (ms : list ConditionRecord) (g : ConditionGroup) :
  let g' := foldl (fun g r => update_group r g) g ms in
  canonical_code g' = canonical_code g
  ∧ code_system_label g' = code_system_label g
  ∧ group_display_name g' = group_display_name g
  ∧ has_overlapping_dates g' = has_overlapping_dates g
  ∧ encounter_count g' = encounter_count g + length ms
  ∧ statuses g' = statuses g ∪ list_to_set (map normalized_status ms)
  ∧ group_quality_flags g'
    = group_quality_flags g
      ∪ list_to_set (concat (map quality_flags ms))
  ∧ consolidated_record_count g'
    = consolidated_record_count g
      + length (List.filter
                  (fun r => negb (bool_decide (derived_from_ids r = []))) ms)
  ∧ derived_from_source_count g'
    = derived_from_source_count g
      + length (concat (map derived_from_ids ms))
  ∧ (∀ label x,
       x ∈ default ∅ (group_all_codes g' !! label) ↔
       x ∈ default ∅ (group_all_codes g !! label)
       ∨ ∃ r, r ∈ ms ∧ x ∈ default ∅ (_code_labels r !! label))
  ∧ earliest_onset g'
    = foldl (best_by PyStr.lt) (earliest_onset g) (map onset_day ms)
  ∧ latest_onset g'
    = foldl (best_by (fun a b => PyStr.lt b a)) (latest_onset g)
        (map onset_day ms).
Proof.
  revert g. induction ms as [|r ms IH]; intros g; cbn [foldl].
  - cbn. rewrite !union_empty_r_L. split_and!; try done; try lia.
    intros label x. split; [by left|].
    intros [?|(r & Hr & _)]; [done | by apply elem_of_nil in Hr].
  - destruct (IH (update_group r g))
      as (H1 & H2 & H3 & H4 & H5 & H6 & H7 & H8 & H9 & H10 & H11 & H12).
    destruct (update_group_onsets r g) as [E1 E2].
    cbn zeta. rewrite H1, H2, H3, H4, H5, H6, H7, H8, H9, H11, H12, E1, E2.
    split_and!; try done.
    + cbn. lia.
    + cbn [map statuses update_group]. rewrite list_to_set_cons.
      by rewrite (assoc_L (∪)).
    + cbn [map concat group_quality_flags update_group].
      rewrite list_to_set_app_L. by rewrite (assoc_L (∪)).
    + cbn [List.filter consolidated_record_count update_group].
      destruct (bool_decide (derived_from_ids r = [])); cbn; lia.
    + cbn [map concat derived_from_source_count update_group].
      rewrite length_app.
      destruct (bool_decide (derived_from_ids r = [])) eqn:E; cbn [negb].
      * apply bool_decide_eq_true in E. rewrite E. cbn. lia.
      * lia.
    + intros label x. rewrite H10. unfold update_group.
      cbn [group_all_codes]. rewrite merge_labels_spec.
      setoid_rewrite elem_of_cons. naive_solver.
Qed.

Section group_contents.
Context (set_next : gset string → string).

(** The group filed under a key is the new group of the first record
    with that key, updated by every record with that key in turn. *)
Lemma group_fold (records : list ConditionRecord) k g0 :
  PyDict.get (foldl (group_step set_next) ([], []) records).1 k = Some g0 →
  ∃ first rest,
    members set_next k records = first :: rest
    ∧ g0 = foldl (fun g r => update_group r g)
             (new_group k (_canonical_code set_next first).2 first)
             (first :: rest).
Proof.
  revert g0. induction records as [|r records IH] using rev_ind; intros g0.
  - done.
  - rewrite foldl_app. cbn [foldl]. rewrite group_step_groups, members_snoc.
    pose proof (grouping_invariant set_next records) as [_ Hkeys _ _].
    set (acc := foldl (group_step set_next) ([], []) records) in *.
    destruct (String.eqb (group_key set_next r) k) eqn:Ek.
    + apply String.eqb_eq in Ek. rewrite Ek, dict_get_set_eq.
      intros [= <-].
      destruct (PyDict.get acc.1 k) as [g1|] eqn:Eg.
      * destruct (IH g1 eq_refl) as (first & rest & Hm & ->).
        exists first, (rest ++ [r]). rewrite Hm. split; [done|].
        cbn [default foldl]. by rewrite foldl_app.
      * exists r, []. split.
        -- rewrite members_none; [done|]. intros r' Hr' Hk.
           assert (is_Some (PyDict.get acc.1 k)) as [? ?]; [|congruence].
           apply Hkeys. by exists r'.
        -- cbn [default foldl]. by rewrite <- Ek.
    + apply String.eqb_neq in Ek. rewrite dict_get_set_ne by done.
      intros Hg. destruct (IH g0 Hg) as (first & rest & Hm & ->).
      exists first, rest. by rewrite Hm, app_nil_r.
Qed.

(** X19. What a group reports about its members, the candidate records
    with its canonical code.  The group has at least one member; its
    display name and its code-system label are those of the first member;
    [encounter_count] is the number of members; [statuses] and
    [quality_flags] are the statuses and the flags that occur among them;
    [consolidated_record_count] counts the members that are derived from
    other records and [derived_from_source_count] their sources; the codes
    under a label are those that some member has under it; and
    [earliest_onset] and [latest_onset] are the least and the greatest day
    of onset, as texts, among the members that have one. *)
Theorem X19_group_aggregates
  (records : list ConditionRecord) (g : ConditionGroup) :
  g ∈ group_by_canonical_code set_next records →
  let ms := members set_next (canonical_code g) records in
  (∃ first rest,
     ms = first :: rest
     ∧ group_display_name g = display_name first
     ∧ code_system_label g = (_canonical_code set_next first).2)
  ∧ encounter_count g = length ms
  ∧ statuses g = list_to_set (map normalized_status ms)
  ∧ group_quality_flags g = list_to_set (concat (map quality_flags ms))
  ∧ consolidated_record_count g
    = length (List.filter (fun r => negb (bool_decide (derived_from_ids r = [])))
                ms)
  ∧ derived_from_source_count g = length (concat (map derived_from_ids ms))
  ∧ (∀ label x,
       x ∈ default ∅ (group_all_codes g !! label) ↔
       ∃ r, r ∈ ms ∧ x ∈ default ∅ (_code_labels r !! label))
  ∧ (earliest_onset g = None ↔ ∀ r, r ∈ ms → onset_start r = None)
  ∧ (latest_onset g = None ↔ ∀ r, r ∈ ms → onset_start r = None)
  ∧ (∀ e, earliest_onset g = Some e →
          (∃ r, r ∈ ms ∧ onset_day r = Some e)
          ∧ ∀ r o, r ∈ ms → onset_day r = Some o → PyStr.lt o e = false)
  ∧ (∀ l, latest_onset g = Some l →
          (∃ r, r ∈ ms ∧ onset_day r = Some l)
          ∧ ∀ r o, r ∈ ms → onset_day r = Some o → PyStr.lt l o = false).
Proof.
  intros (k & g0 & Hget & ->)%group_by_elem ms.
  pose proof (grouping_invariant set_next records) as [_ _ Hgroup _].
  destruct (Hgroup _ _ Hget) as (Hc & _ & _).
  assert (Hk : canonical_code
                 (flag_overlap
                    (foldl (group_step set_next) ([], []) records).2 (k, g0))
               = k).
  { by rewrite flag_overlap_code. }
  unfold ms. rewrite Hk. clear ms Hk.
  destruct (group_fold records k g0 Hget) as (first & rest & Hm & Hg0).
  rewrite Hm.
  destruct (update_fold (first :: rest)
              (new_group k (_canonical_code set_next first).2 first))
    as (H1 & H2 & H3 & H4 & H5 & H6 & H7 & H8 & H9 & H10 & H11 & H12).
  cbn zeta in *. rewrite <- Hg0 in *.
  cbn [new_group canonical_code code_system_label group_display_name
         has_overlapping_dates encounter_count statuses group_quality_flags
         consolidated_record_count derived_from_source_count group_all_codes
         earliest_onset latest_onset] in *.
  assert (Hsame : ∀ (T : Type) (f : ConditionGroup → T),
            (∀ g, f (mkConditionGroup (canonical_code g) (code_system_label g)
                       (group_display_name g) (group_all_codes g) (statuses g)
                       (encounter_count g) (earliest_onset g) (latest_onset g)
                       (group_quality_flags g) true
                       (consolidated_record_count g)
                       (derived_from_source_count g)) = f g) →
            f (flag_overlap
                 (foldl (group_step set_next) ([], []) records).2 (k, g0))
            = f g0).
  { intros T f Hf. unfold flag_overlap. cbn [snd].
    by destruct (_ && _). }
  rewrite (Hsame _ group_display_name), (Hsame _ code_system_label),
    (Hsame _ encounter_count), (Hsame _ statuses),
    (Hsame _ group_quality_flags), (Hsame _ consolidated_record_count),
    (Hsame _ derived_from_source_count), (Hsame _ group_all_codes),
    (Hsame _ earliest_onset), (Hsame _ latest_onset) by done.
  assert (Hdays : ∀ o, Some o ∈ map onset_day (first :: rest)
                       ↔ ∃ r, r ∈ first :: rest ∧ onset_day r = Some o).
  { intros o. rewrite list_elem_of_fmap. naive_solver. }
  assert (Hnone : (∀ d, d ∈ map onset_day (first :: rest) → d = None)
                  ↔ ∀ r, r ∈ first :: rest → onset_start r = None).
  { split.
    - intros H r Hr.
      assert (onset_day r = None) as Hd.
      { apply H, list_elem_of_fmap. by exists r. }
      unfold onset_day in Hd. by destruct (onset_start r).
    - intros H d (r & -> & Hr)%list_elem_of_fmap.
      unfold onset_day. by rewrite (H r Hr). }
  destruct (best_fold PyStr.lt PyStr_lt_irrefl PyStr_lt_trans PyStr_lt_total
              (map onset_day (first :: rest)) None) as [B1 B2].
  destruct (best_fold (fun a b => PyStr.lt b a)
              (fun a => PyStr_lt_irrefl a)
              (fun a b c Hab Hbc => PyStr_lt_trans c b a Hbc Hab)
              (fun a b Hab =>
                 match PyStr_lt_total b a Hab with
                 | or_introl E => or_introl (eq_sym E)
                 | or_intror H => or_intror H
                 end)
              (map onset_day (first :: rest)) None) as [T1 T2].
  split_and!.
  - exists first, rest. by rewrite H3, H2.
  - rewrite H5. lia.
  - rewrite H6. apply union_empty_l_L.
  - rewrite H7. apply union_empty_l_L.
  - rewrite H8. lia.
  - rewrite H9. lia.
  - intros label x. rewrite H10. split; [|by right].
    intros [Hx|?]; [|done]. exists first. split; [|done].
    apply elem_of_cons. by left.
  - rewrite H11, B1, Hnone. naive_solver.
  - rewrite H12, T1, Hnone. naive_solver.
  - intros e He. rewrite H11 in He.
    destruct (B2 e He) as ([?|Hin] & _ & Hlow); [done|].
    split; [by apply Hdays|].
    intros r o Hr Ho. apply Hlow, Hdays. by exists r.
  - intros l Hl. rewrite H12 in Hl.
    destruct (T2 l Hl) as ([?|Hin] & _ & Hlow); [done|].
    split; [by apply Hdays|].
    intros r o Hr Ho. apply (Hlow o), Hdays. by exists r.
Qed.
End group_contents.

Lemma X19_group_aggregates_witness :
  sample_group
  ∈ group_by_canonical_code set_first
      [Sample.asthma_january; Sample.asthma_march]
  ∧ encounter_count sample_group = 2
  ∧ statuses sample_group = {["active"]}.
Proof.
  assert (Hin : sample_group
                ∈ group_by_canonical_code set_first
                    [Sample.asthma_january; Sample.asthma_march]).
  { assert (group_by_canonical_code set_first
              [Sample.asthma_january; Sample.asthma_march] = [sample_group])
      as -> by (vm_compute; reflexivity).
    apply list_elem_of_singleton. reflexivity. }
  split; [exact Hin|].
  pose proof (X19_group_aggregates set_first _ _ Hin) as H.
  cbn zeta in H. destruct H as (_ & H2 & H3 & _).
  split.
  - rewrite H2. vm_compute. reflexivity.
  - rewrite H3. vm_compute. reflexivity.
Defined.
(* ================================================================== *)
(** * The ranking of the groups *)
(* ================================================================== *)

Lemma dict_sum_set {V : Type} (f : V → nat) (d : list (string * V)) k v :
  sum_list (map f (PyDict.values (PyDict.set d k v)))
  + default 0 (f <$> PyDict.get d k)
  = sum_list (map f (PyDict.values d)) + f v.
Proof.
  unfold PyDict.values. induction d as [|[k0 v0] d IH]; cbn.
  - unfold Datatypes.id. lia.
  - destruct (String.eqb k0 k); cbn; unfold Datatypes.id in *; lia.
Qed.

Lemma Sorted_map_weaken {A B : Type} (f : A → B) (R : A → A → Prop)
  (R' : B → B → Prop) (l : list A) :
  (∀ a b, R a b → R' (f a) (f b)) → Sorted R l → Sorted R' (map f l).
Proof.
  intros HR. induction 1 as [|a l Hs IH Hd]; cbn; constructor; [done|].
  destruct Hd; cbn; constructor. by apply HR.
Qed.

Section ranking.
Context (set_next : gset string → string).

(** Every record is counted in one group of the first loop. *)
Lemma group_counts_total (records : list ConditionRecord) :
  sum_list (map encounter_count
              (PyDict.values (foldl (group_step set_next) ([], []) records).1))
  = length records.
Proof.
  induction records as [|r records IH] using rev_ind; [done|].
  rewrite foldl_app, length_app. cbn [foldl length].
  rewrite group_step_groups.
  pose proof (grouping_invariant set_next records) as [_ _ Hgroup _].
  set (acc := foldl (group_step set_next) ([], []) records) in *.
  pose proof (dict_sum_set encounter_count acc.1 (group_key set_next r)
                (update_group r
                   (default
                      (new_group (group_key set_next r)
                         (_canonical_code set_next r).2 r)
                      (PyDict.get acc.1 (group_key set_next r))))) as H.
  destruct (PyDict.get acc.1 (group_key set_next r)) as [g|];
    cbn [default fmap option_fmap option_map update_group new_group
           encounter_count] in H |- *; unfold Datatypes.id in *; lia.
Qed.

(** X20. The ranking of the groups of a retrieval.  The encounter counts
    of the groups add up to the number of candidates, so every candidate
    is counted in exactly one group; every group counts at least one
    record; the groups come in descending order of their count.  What is
    shown is the first [max_results] groups of that ranking (all of them
    when there are fewer), so no group left out counts more than a group
    shown; a negative [max_results] drops that many groups from the end
    instead. *)
Theorem X20_groups_are_ranked
  (s : list (string * ConditionRecord))
  (query code code_system status : option string) (max_results : Z) :
  let candidates := retrieve_candidates s query code code_system status in
  let groups := group_by_canonical_code set_next candidates in
  let shown :=
    retrieve_limited set_next s query code code_system status max_results in
  sum_list (map encounter_count groups) = length candidates
  ∧ (∀ g, g ∈ groups → 1 ≤ encounter_count g)
  ∧ length groups ≤ length candidates
  ∧ Sorted ge (map encounter_count groups)
  ∧ shown = take (length shown) groups
  ∧ ((0 ≤ max_results)%Z →
     length shown = Z.to_nat max_results `min` length groups)
  ∧ ((max_results < 0)%Z →
     length shown = length groups - Z.to_nat (- max_results))
  ∧ (∀ g h, g ∈ shown → h ∈ drop (length shown) groups →
            encounter_count h ≤ encounter_count g).
Proof.
  intros candidates groups shown.
  assert (Hsum : sum_list (map encounter_count groups) = length candidates).
  { unfold groups, group_by_canonical_code.
    rewrite (Permutation_map encounter_count (sorted_by_perm _ _ _)).
    rewrite map_map. rewrite <- (group_counts_total candidates).
    unfold PyDict.values. rewrite map_map. f_equal.
    apply map_ext. intros [k g]. apply flag_overlap_count. }
  assert (Hpos : ∀ g, g ∈ groups → 1 ≤ encounter_count g).
  { intros g Hg. destruct (group_by_spec set_next _ _ Hg) as ((r & Hr & Hk) & Hn & _).
    rewrite Hn. unfold members.
    assert (r ∈ List.filter
                  (fun r0 => String.eqb (group_key set_next r0) (canonical_code g))
                  candidates) as Hin.
    { apply elem_of_List_filter. split; [done|]. by apply String.eqb_eq. }
    destruct (List.filter _ candidates); [by apply elem_of_nil in Hin|].
    cbn. lia. }
  assert (Hsorted : Sorted ge (map encounter_count groups)).
  { unfold groups, group_by_canonical_code.
    eapply Sorted_map_weaken; [|apply sorted_by_sorted, nat_gt_asym].
    intros g h. unfold in_order. intros H%Nat.ltb_ge. unfold ge. lia. }
  assert (Hshown : shown = take (length shown) groups
                   ∧ ((0 ≤ max_results)%Z →
                      length shown = Z.to_nat max_results `min` length groups)
                   ∧ ((max_results < 0)%Z →
                      length shown
                      = length groups - Z.to_nat (- max_results))).
  { unfold shown, retrieve_limited, slice_to. fold candidates. fold groups.
    destruct (Z.ltb_spec max_results 0).
    - rewrite length_take. split_and!; [|lia|lia].
      f_equal. lia.
    - rewrite length_take. split_and!; [|lia|lia].
      destruct (decide (Z.to_nat max_results ≤ length groups)).
      + f_equal. lia.
      + by rewrite !take_ge by lia. }
  destruct Hshown as (Hs1 & Hs2 & Hs3).
  split_and!; try done.
  - clear -Hsum Hpos. revert Hsum Hpos. generalize (length candidates).
    induction groups as [|g gs IH]; intros n Hsum Hpos; [cbn; lia|].
    cbn in Hsum. unfold Datatypes.id in Hsum.
    assert (1 ≤ encounter_count g) by (apply Hpos, elem_of_cons; by left).
    assert (length gs ≤ n - encounter_count g).
    { apply IH; [cbn; unfold Datatypes.id; lia|].
      intros g0 Hg0. apply Hpos, elem_of_cons. by right. }
    cbn. lia.
  - intros g h Hg Hh.
    assert (Hss : StronglySorted ge (map encounter_count groups)).
    { apply Sorted_StronglySorted; [|done]. intros a b c. unfold ge. lia. }
    rewrite <- (take_drop (length shown) groups), map_app in Hss.
    rewrite Hs1 in Hg.
    eapply (StronglySorted_app_1_elem_of _ _ _ _ _ Hss).
    + apply list_elem_of_fmap. by exists g.
    + apply list_elem_of_fmap. by exists h.
Qed.
End ranking.

(* ================================================================== *)
(** * The quality flags of a record *)
(* ================================================================== *)

Lemma detect_flags_exact c code_sets ns os oe fl :
  _detect_quality_flags c code_sets ns os oe = Ok fl →
  fl = flag_if (bool_decide (clinicalStatus c = None))
         "missing_clinical_status"
       ++ flag_if (status_mismatch ns oe) "inconsistent_status"
       ++ flag_if (any_in ADMIN_CODE_INDICATORS (_build_searchable_text c))
            "admin_code"
       ++ flag_if (any_in VAGUE_ENTRY_KEYWORDS (_build_searchable_text c))
            "vague_entry"
       ++ flag_if (lasts_under_a_day os oe) "short_duration"
       ++ flag_if (bool_decide (default ∅ (code_sets !! ICD10_SYSTEM) = ∅))
            "missing_icd10".
Proof.
  unfold _detect_quality_flags, status_mismatch, lasts_under_a_day.
  generalize (any_in ADMIN_CODE_INDICATORS (_build_searchable_text c)).
  generalize (any_in VAGUE_ENTRY_KEYWORDS (_build_searchable_text c)).
  intros b4 b3.
  destruct (clinicalStatus c), (ns =? "active")%string,
    (ns =? "resolved")%string, os as [s|], oe as [e|];
    try destruct (Datetime.sub e s) as [d|err]; simpl;
    try discriminate; intros [= <-];
    rewrite ?bool_decide_eq_true_2 by (by eexists);
    rewrite ?bool_decide_eq_false_2 by (by intros [? ?]);
    try done.
Qed.

Lemma any_in_spec (words : list string) (text : string) :
  any_in words text = true ↔
  ∃ w, w ∈ words ∧ PyStr.contains w text = true.
Proof.
  unfold any_in. rewrite existsb_exists.
  split; intros (w & Hw & Hc); exists w; (split; [|done]);
    by apply list_elem_of_In.
Qed.

Lemma sublist_flag_if (b : bool) (flag : string) (l k : list string) :
  sublist l k → sublist (flag_if b flag ++ l) (flag :: k).
Proof. intros H. destruct b; cbn; by constructor. Qed.

Section flags.
Context (fromisoformat : string → option datetime).

(** X21. The quality flags of a built record come in one fixed order,
    each at most once, and each is a key of [QUALITY_FLAG_METADATA].
    [missing_clinical_status] is set exactly when the condition has no
    clinical status, [admin_code] and [vague_entry] exactly when the
    searchable text contains one of the administrative indicators or one
    of the vague keywords, and [missing_icd10] exactly when the record has
    no ICD-10 code. *)
Theorem X21_flags_of_built_record
  (raw : list (string * json)) (n : Z) (r : ConditionRecord) :
  build_condition_record fromisoformat raw n = Ok r →
  sublist (quality_flags r)
    [ "missing_clinical_status"; "inconsistent_status"; "admin_code";
      "vague_entry"; "short_duration"; "missing_icd10" ]
  ∧ NoDup (quality_flags r)
  ∧ (∀ f, f ∈ quality_flags r → PyDict.mem QUALITY_FLAG_METADATA f = true)
  ∧ ("missing_clinical_status" ∈ quality_flags r
     ↔ clinicalStatus (fhir_condition r) = None)
  ∧ ("admin_code" ∈ quality_flags r
     ↔ ∃ w, w ∈ ["admin code"; "*new member"; "prompt authorization"]
            ∧ PyStr.contains w (searchable_text r) = true)
  ∧ ("vague_entry" ∈ quality_flags r
     ↔ ∃ w, w ∈ ["encounter for"; "elective procedure"; "initial encounter"]
            ∧ PyStr.contains w (searchable_text r) = true)
  ∧ ("missing_icd10" ∈ quality_flags r ↔ icd10_codes r = ∅).
Proof.
  intros Hb.
  destruct (build_ok _ _ _ _ Hb) as (c & _ & Hc & _ & _ & _ & _ & _ & Hfl).
  destruct (build_codes fromisoformat raw n r Hb)
    as (H10 & _ & _ & _ & _ & Htext & _).
  rewrite <- Hc in Hfl. apply detect_flags_exact in Hfl.
  rewrite <- Htext, <- H10 in Hfl.
  assert (Hsub : sublist (quality_flags r)
                   [ "missing_clinical_status"; "inconsistent_status";
                     "admin_code"; "vague_entry"; "short_duration";
                     "missing_icd10" ]).
  { rewrite Hfl. repeat apply sublist_flag_if.
    rewrite <- (app_nil_r (flag_if _ _)). apply sublist_flag_if. constructor. }
  assert (Hin : ∀ f, f ∈ quality_flags r ↔
            (bool_decide (clinicalStatus (fhir_condition r) = None) = true
             ∧ f = "missing_clinical_status")
            ∨ (status_mismatch (normalized_status r) (onset_end r) = true
               ∧ f = "inconsistent_status")
            ∨ (any_in ADMIN_CODE_INDICATORS (searchable_text r) = true
               ∧ f = "admin_code")
            ∨ (any_in VAGUE_ENTRY_KEYWORDS (searchable_text r) = true
               ∧ f = "vague_entry")
            ∨ (lasts_under_a_day (onset_start r) (onset_end r) = true
               ∧ f = "short_duration")
            ∨ (bool_decide (icd10_codes r = ∅) = true ∧ f = "missing_icd10")).
  { intros f. rewrite Hfl at 1.
    by rewrite !elem_of_app, !elem_of_flag_if. }
  split_and!.
  - done.
  - eapply sublist_NoDup; [|exact Hsub].
    apply (bool_decide_unpack _). vm_compute. exact I.
  - intros f Hf.
    assert (f ∈ [ "missing_clinical_status"; "inconsistent_status";
                  "admin_code"; "vague_entry"; "short_duration";
                  "missing_icd10" ]) as Hk.
    { by eapply elem_of_sublist. }
    rewrite !elem_of_cons in Hk.
    destruct Hk as [->|[->|[->|[->|[->|[->|Hk]]]]]]; try reflexivity.
    by apply elem_of_nil in Hk.
  - rewrite Hin. split.
    + intros [[H _]|[[_ H]|[[_ H]|[[_ H]|[[_ H]|[_ H]]]]]];
        try discriminate H. by apply bool_decide_eq_true in H.
    + intros H. left. split; [by apply bool_decide_eq_true|done].
  - rewrite Hin, <- any_in_spec. split.
    + intros [[_ H]|[[_ H]|[[H _]|[[_ H]|[[_ H]|[_ H]]]]]];
        try discriminate H. done.
    + intros H. right. right. left. by split.
  - rewrite Hin, <- any_in_spec. split.
    + intros [[_ H]|[[_ H]|[[_ H]|[[H _]|[[_ H]|[_ H]]]]]];
        try discriminate H. done.
    + intros H. right. right. right. left. by split.
  - rewrite Hin. split.
    + intros [[_ H]|[[_ H]|[[_ H]|[[_ H]|[[_ H]|[H _]]]]]];
        try discriminate H. by apply bool_decide_eq_true in H.
    + intros H. do 5 right. split; [by apply bool_decide_eq_true|done].
Qed.
End flags.

Lemma X21_flags_of_built_record_witness :
  build_condition_record IsoBasic.parse Sample.raw_one_hour 1
  = Ok (Sample.built Sample.raw_one_hour)
  ∧ "missing_icd10" ∉ quality_flags (Sample.built Sample.raw_one_hour).
Proof.
  assert (E : build_condition_record IsoBasic.parse Sample.raw_one_hour 1
              = Ok (Sample.built Sample.raw_one_hour))
    by (vm_compute; reflexivity).
  split; [exact E|].
  destruct (X21_flags_of_built_record IsoBasic.parse _ _ _ E)
    as (_ & _ & _ & _ & _ & _ & H).
  intros Hin. apply H in Hin. revert Hin.
  apply (bool_decide_unpack _). vm_compute. exact I.
Defined.

(* ================================================================== *)
(** * The correction tool *)
(* ================================================================== *)

Lemma removal_outcome_failed reason eng (r : RemovalResult) :
  success r = false → removal_outcome reason eng (r, eng).
Proof. intros H. split; cbn [fst snd]; [done | congruence]. Qed.

Lemma apply_removals_outcome clock matched action target reason eng :
  (∀ m, m ∈ matched →
        PyDict.get (store eng) (resource_id m) = Some m
        ∧ is_removed m = false) →
  NoDup (map resource_id matched) →
  removal_outcome reason eng
    (_apply_removals clock matched action target reason eng).
Proof.
  intros Hok Hnd.
  destruct matched as [|m ms]; [by apply removal_outcome_failed|].
  destruct (removal_fold_all clock reason (m :: ms) ([], store eng) Hok Hnd)
    as (F1 & F2 & F3 & F4).
  cbn [fst snd app] in F1, F2, F3, F4.
  unfold _apply_removals.
  split; cbn [fst snd success records_removed active_remaining store dashboard];
    [done|]. intros _.
  rewrite F1, length_map. split_and!.
  - cbn. lia.
  - done.
  - done.
  - unfold Monitoring.record_correction. cbn [corrections].
    eexists. split; [reflexivity|]. by cbn.
Qed.

Lemma engine_op_outcome eng op :
  store_wf (store eng) →
  match op with
  | DoRemoveText clock target reason =>
      removal_outcome reason eng (remove_by_text clock target reason eng)
  | DoRemoveCode clock code reason =>
      removal_outcome reason eng (remove_by_code clock code reason eng)
  | DoRemoveId clock rid reason =>
      removal_outcome reason eng (remove_by_id clock rid reason eng)
  | DoRemovePredicate clock name reason =>
      removal_outcome reason eng (remove_by_predicate clock name reason eng)
  end.
Proof.
  intros Hwf.
  destruct op as [clock target reason|clock code reason|clock rid reason
                 |clock name reason].
  - unfold remove_by_text.
    apply apply_removals_outcome;
      apply (matching_active_ok
               (fun r => PyStr.contains (PyStr.lower target) (searchable_text r))
               (store eng) Hwf).
  - unfold remove_by_code.
    apply apply_removals_outcome;
      apply (matching_active_ok
               (fun r => bool_decide (code ∈ all_codes r)) (store eng) Hwf).
  - unfold remove_by_id, ConditionStore.get_by_id.
    destruct (PyDict.get (store eng) rid) as [r|] eqn:Hget;
      [|by apply removal_outcome_failed].
    destruct (is_removed r) eqn:Hact; [by apply removal_outcome_failed|].
    apply apply_removals_outcome.
    + intros m ->%list_elem_of_singleton.
      assert (resource_id r = rid) as ->; [|done].
      apply Hwf. by apply dict_get_Some_elem.
    + apply NoDup_singleton.
  - unfold remove_by_predicate.
    destruct (PyDict.get PREDICATES name) as [pred|];
      [|by apply removal_outcome_failed].
    apply apply_removals_outcome;
      apply (matching_active_ok (fun r => _matches_predicate r pred)
               (store eng) Hwf).
Qed.

Ltac action_listed H :=
  destruct H; repeat (apply elem_of_cons; first [by left | right]).

(** X22. The correction tool.  Whatever its arguments, a call keeps the
    store well-formed with the same keys and leaves the ingestion metrics
    alone.  Only the four removal actions can change the engine; an
    unknown action is answered by the text that lists the valid actions,
    and a removal action whose argument is missing or empty by an error
    text, both without any change.  When a removal is answered with its
    result, a failure has changed nothing, and a success has removed
    [records_removed] records, at least one, reports the active count
    that is left, and has written one audit entry with that number and
    the reason given. *)
Theorem X22_correct_conditions
  (clock : nat → datetime) (action : string)
  (target code resource_id : option string) (reason : string)
  (eng : CorrectionEngine) :
  store_wf (store eng) →
  let out := correct_conditions clock action target code resource_id reason
               eng in
  store_wf (store out.2)
  ∧ PyDict.keys (store out.2) = PyDict.keys (store eng)
  ∧ ingestion_batches (dashboard out.2) = ingestion_batches (dashboard eng)
  ∧ (action ∉ ["remove_text"; "remove_code"; "remove_id"; "remove_predicate"]
     → out.2 = eng)
  ∧ (action ∉ ["remove_text"; "remove_code"; "remove_id"; "remove_predicate";
               "list_corrections"; "list_predicates"; "status"] →
     out.1 = ReplyText
               ("Unknown action: '" +:+ action +:+ "'. "
                +:+ "Valid actions: remove_text, remove_code, remove_id, remove_predicate, "
                +:+ "list_corrections, list_predicates, status"))
  ∧ ((action = "remove_text" ∧ PyStr.truthy target = false)
     ∨ (action = "remove_code" ∧ PyStr.truthy code = false)
     ∨ (action = "remove_id" ∧ PyStr.truthy resource_id = false)
     ∨ (action = "remove_predicate" ∧ PyStr.truthy target = false) →
     out.2 = eng ∧ ∃ text, out.1 = ReplyText text)
  ∧ (∀ r, out.1 = ReplyJson (PayloadRemoval r) →
       (success r = false → out.2 = eng)
       ∧ (success r = true →
          1 ≤ records_removed r
          ∧ ConditionStore.removed_count (store out.2)
            = ConditionStore.removed_count (store eng) + records_removed r
          ∧ active_remaining r = ConditionStore.active_count (store out.2)
          ∧ ∃ e, corrections (dashboard out.2)
                 = corrections (dashboard eng) ++ [e]
                 ∧ entry_records_affected e = records_removed r
                 ∧ entry_reason e = reason)).
Proof.
  intros Hwf out.
  assert (Hsame : out.2 = eng →
            store_wf (store out.2)
            ∧ PyDict.keys (store out.2) = PyDict.keys (store eng)
            ∧ ingestion_batches (dashboard out.2)
              = ingestion_batches (dashboard eng)).
  { by intros ->. }
  assert (Hop : ∀ op,
            out.2 = engine_step eng op →
            store_wf (store out.2)
            ∧ PyDict.keys (store out.2) = PyDict.keys (store eng)
            ∧ ingestion_batches (dashboard out.2)
              = ingestion_batches (dashboard eng)).
  { intros op ->. destruct (engine_step_effect eng op Hwf) as [W K _ _ [B _] _].
    done. }
  assert (Hres : ∀ r eng',
            removal_outcome reason eng (r, eng') → out.2 = eng' →
            (success r = false → out.2 = eng)
            ∧ (success r = true →
               1 ≤ records_removed r
               ∧ ConditionStore.removed_count (store out.2)
                 = ConditionStore.removed_count (store eng) + records_removed r
               ∧ active_remaining r = ConditionStore.active_count (store out.2)
               ∧ ∃ e, corrections (dashboard out.2)
                      = corrections (dashboard eng) ++ [e]
                      ∧ entry_records_affected e = records_removed r
                      ∧ entry_reason e = reason)).
  { intros r eng' [Hf Hs] ->. cbn [fst snd] in Hf, Hs. by split. }
  revert Hsame Hop Hres. unfold out, correct_conditions. clear out.
  destruct (String.eqb action "remove_text") eqn:E1;
    [apply String.eqb_eq in E1 as ->|apply String.eqb_neq in E1].
  { destruct (PyStr.truthy target) eqn:Et; cbn [negb fst snd];
      intros Hsame Hop Hres.
    - destruct (Hop (DoRemoveText clock (default "" target) reason) eq_refl)
        as (W & K & B).
      split_and!; [done|done|done| | | |].
      + intros H. action_listed H.
      + intros H. action_listed H.
      + intros [[_ ?]|[[? _]|[[? _]|[? _]]]]; congruence.
      + intros r [= <-]. eapply Hres; [|done].
        rewrite <- surjective_pairing.
        apply (engine_op_outcome eng
                 (DoRemoveText clock (default "" target) reason) Hwf).
    - destruct (Hsame eq_refl) as (W & K & B).
      split_and!; [done|done|done|done| | |done].
      + intros H. action_listed H.
      + intros _. split; [done|by eexists]. }
  destruct (String.eqb action "remove_code") eqn:E2;
    [apply String.eqb_eq in E2 as ->|apply String.eqb_neq in E2].
  { destruct (PyStr.truthy code) eqn:Et; cbn [negb fst snd];
      intros Hsame Hop Hres.
    - destruct (Hop (DoRemoveCode clock (default "" code) reason) eq_refl)
        as (W & K & B).
      split_and!; [done|done|done| | | |].
      + intros H. action_listed H.
      + intros H. action_listed H.
      + intros [[? _]|[[_ ?]|[[? _]|[? _]]]]; congruence.
      + intros r [= <-]. eapply Hres; [|done].
        rewrite <- surjective_pairing.
        apply (engine_op_outcome eng
                 (DoRemoveCode clock (default "" code) reason) Hwf).
    - destruct (Hsame eq_refl) as (W & K & B).
      split_and!; [done|done|done|done| | |done].
      + intros H. action_listed H.
      + intros _. split; [done|by eexists]. }
  destruct (String.eqb action "remove_id") eqn:E3;
    [apply String.eqb_eq in E3 as ->|apply String.eqb_neq in E3].
  { destruct (PyStr.truthy resource_id) eqn:Et; cbn [negb fst snd];
      intros Hsame Hop Hres.
    - destruct (Hop (DoRemoveId clock (default "" resource_id) reason) eq_refl)
        as (W & K & B).
      split_and!; [done|done|done| | | |].
      + intros H. action_listed H.
      + intros H. action_listed H.
      + intros [[? _]|[[? _]|[[_ ?]|[? _]]]]; congruence.
      + intros r [= <-]. eapply Hres; [|done].
        rewrite <- surjective_pairing.
        apply (engine_op_outcome eng
                 (DoRemoveId clock (default "" resource_id) reason) Hwf).
    - destruct (Hsame eq_refl) as (W & K & B).
      split_and!; [done|done|done|done| | |done].
      + intros H. action_listed H.
      + intros _. split; [done|by eexists]. }
  destruct (String.eqb action "remove_predicate") eqn:E4;
    [apply String.eqb_eq in E4 as ->|apply String.eqb_neq in E4].
  { destruct (PyStr.truthy target) eqn:Et; cbn [negb fst snd];
      intros Hsame Hop Hres.
    - destruct (Hop (DoRemovePredicate clock (default "" target) reason)
                  eq_refl) as (W & K & B).
      split_and!; [done|done|done| | | |].
      + intros H. action_listed H.
      + intros H. action_listed H.
      + intros [[? _]|[[? _]|[[? _]|[_ ?]]]]; congruence.
      + intros r [= <-]. eapply Hres; [|done].
        rewrite <- surjective_pairing.
        apply (engine_op_outcome eng
                 (DoRemovePredicate clock (default "" target) reason) Hwf).
    - destruct (Hsame eq_refl) as (W & K & B).
      split_and!; [done|done|done|done| | |done].
      + intros H. action_listed H.
      + intros _. split; [done|by eexists]. }
  assert (Hno : ¬ ((action = "remove_text" ∧ PyStr.truthy target = false)
                   ∨ (action = "remove_code" ∧ PyStr.truthy code = false)
                   ∨ (action = "remove_id" ∧ PyStr.truthy resource_id = false)
                   ∨ (action = "remove_predicate"
                      ∧ PyStr.truthy target = false))).
  { intros [[? _]|[[? _]|[[? _]|[? _]]]]; done. }
  destruct (String.eqb action "list_corrections") eqn:E5;
    [apply String.eqb_eq in E5|apply String.eqb_neq in E5].
  { cbn [fst snd]. intros Hsame _ _. destruct (Hsame eq_refl) as (W & K & B).
    split_and!; [done|done|done|done| |done|done].
    intros H. rewrite E5 in H. action_listed H. }
  destruct (String.eqb action "list_predicates") eqn:E6;
    [apply String.eqb_eq in E6|apply String.eqb_neq in E6].
  { cbn [fst snd]. intros Hsame _ _. destruct (Hsame eq_refl) as (W & K & B).
    split_and!; [done|done|done|done| |done|done].
    intros H. rewrite E6 in H. action_listed H. }
  destruct (String.eqb action "status") eqn:E7;
    [apply String.eqb_eq in E7|apply String.eqb_neq in E7].
  { cbn [fst snd]. intros Hsame _ _. destruct (Hsame eq_refl) as (W & K & B).
    split_and!; [done|done|done|done| |done|done].
    intros H. rewrite E7 in H. action_listed H. }
  cbn [fst snd]. intros Hsame _ _. destruct (Hsame eq_refl) as (W & K & B).
  split_and!; done.
Qed.

Lemma X22_correct_conditions_witness :
  ∃ text,
    (correct_conditions (fun _ => Sample.clock) "remove_text" (Some "")
       None None "User correction" sample_engine).1 = ReplyText text.
Proof.
  pose proof (X22_correct_conditions (fun _ => Sample.clock) "remove_text"
                (Some "") None None "User correction" sample_engine
                sample_engine_wf) as H.
  cbn zeta in H. destruct H as (_ & _ & _ & _ & _ & H & _).
  apply H. left. split; reflexivity.
Defined.
